(** * Wisol WSSFM10R driver: transport engine, duty-cycle guard, hex codec

    A shallow embedding of [src/Wisol.cpp].  Arduino [String] values are
    Rocq strings, [char] is [ascii], machine integers are [Z] with their
    wrap-around written out, and everything the driver does to the outside
    (serial port, millisecond clock, echo port) goes through a small
    state-and-failure monad over an explicit [World]. *)

From Stdlib Require Import ZArith List Bool Ascii String Lia.
Import ListNotations.

Local Open Scope string_scope.
Local Open Scope Z_scope.

(** ** Machine data *)

(** [uint8_t] and the 32-bit [unsigned long] of the target. *)
Definition to_uint8 (z : Z) : Z := z mod 256.
Definition to_ulong (z : Z) : Z := z mod 4294967296.

(** The byte stored in a [char] ([(byte * ) &c]). *)
Definition byte_of (c : ascii) : Z := Z.of_N (N_of_ascii c).

(** The [char] holding byte [z] (conversion keeps the low 8 bits). *)
Definition char_of (z : Z) : ascii := ascii_of_N (Z.to_N (z mod 256)).

(** The value of a [char] in an expression: [char] is signed on the AVR
    targets of the library. *)
Definition char_value (c : ascii) : Z :=
  let b := byte_of c in if b <? 128 then b else b - 256.

(** Byte [j] of the in-memory representation of an integer (two's
    complement, least significant byte at the lowest address). *)
Definition mem_byte (v : Z) (j : nat) : Z :=
  Z.land (Z.shiftr v (8 * Z.of_nat j)) 255.

(** Arduino [String(char c)]: the buffer [{c, 0}] read back as a C string,
    so the NUL character gives the empty string. *)
Definition String_of_char (c : ascii) : string :=
  if byte_of c =? 0 then "" else String c "".

(** Arduino [String(unsigned char value, unsigned char base)], that is
    [utoa]: the digits of [value], most significant first, no padding,
    letters in lower case. *)
Definition utoa_digit (d : Z) : ascii :=
  if d <? 10 then char_of (48 + d) else char_of (97 + d - 10).

Fixpoint utoa_loop (fuel : nat) (value base : Z) (acc : string) : string :=
  match fuel with
  | O => acc
  | S fuel' =>
      let acc' := String (utoa_digit (value mod base)) acc in
      if value / base =? 0 then acc' else utoa_loop fuel' (value / base) base acc'
  end.

Definition String_of_byte (value base : Z) : string :=
  utoa_loop 8 value base "".

(** ** The world outside the driver *)

(** What one pass of the receive test finds: [available() <= 0], or a
    [read()] that returns -1, or a [read()] that returns a byte. *)
Inductive Poll : Type :=
| Quiet
| ReadNothing
| Got (c : ascii).

(** Calls made on the serial port, and the pauses between them. *)
Inductive Event : Type :=
| SerialBegin (bps : Z)
| SerialFlush
| SerialListen
| SerialWrite (b : Z)
| SerialEnd
| Delay (ms : Z).

Record World : Type := mkWorld {
  clock   : list Z;      (* the successive readings of [millis()] still to come *)
  inbound : list Poll;   (* the successive receive polls still to come; silence after them *)
  trace   : list Event;  (* serial port calls and delays so far, oldest first *)
  echo    : string       (* everything printed on [echoPort] so far *)
}.

(** A computation reads and changes the world and returns a value; [None]
    is a run that is still waiting when the clock readings are used up. *)
Definition M (A : Type) : Type := World -> option (A * World).

Definition ret {A} (a : A) : M A := fun w => Some (a, w).

Definition bind {A B} (m : M A) (k : A -> M B) : M B :=
  fun w => match m w with
           | Some (a, w') => k a w'
           | None => None
           end.

Notation "x <- m ;; k" := (bind m (fun x => k))
  (at level 61, m at next level, right associativity).
Notation "m ;; k" := (bind m (fun _ => k))
  (at level 61, right associativity).

Definition millis : M Z := fun w =>
  match clock w with
  | [] => None
  | t :: rest => Some (to_ulong t, mkWorld rest (inbound w) (trace w) (echo w))
  end.

Definition poll : M Poll := fun w =>
  match inbound w with
  | [] => Some (Quiet, w)
  | p :: rest => Some (p, mkWorld (clock w) rest (trace w) (echo w))
  end.

Definition emit (e : Event) : M unit := fun w =>
  Some (tt, mkWorld (clock w) (inbound w) (trace w ++ [e]) (echo w)).

Definition delay (ms : Z) : M unit := emit (Delay ms).

(** [echoPort->print(x)] and [echoPort->println(x)]. *)
Definition print (s : string) : M unit := fun w =>
  Some (tt, mkWorld (clock w) (inbound w) (trace w) (echo w ++ s)).

Definition CRLF : string := String (char_of 13) (String (char_of 10) "").

Definition println (s : string) : M unit := print (s ++ CRLF).

Definition log1 (x : string) : M unit := println x.
Definition log2 (x y : string) : M unit := print x ;; println y.

(** ** Hex codec *)

(** The body shared by every [toHex] overload: one scanned byte. *)
Definition hex_concat (bytes : string) (b : Z) : string :=
  let bytes := if b <=? 15 then bytes ++ "0" else bytes in
  bytes ++ String_of_byte b 16.

(** [for (i = 0; i < n; i++)] over the bytes [b[0]], [b[1]], ... *)
Fixpoint hex_scan (b : nat -> Z) (n : nat) (i : nat) (bytes : string) : string :=
  match n with
  | O => bytes
  | S n' => hex_scan b n' (S i) (hex_concat bytes (b i))
  end.

(** [toHex(int)] and [toHex(unsigned int)]: two bytes. *)
Definition toHex_int (i : Z) : string := hex_scan (mem_byte i) 2 0 "".
Definition toHex_uint (ui : Z) : string := hex_scan (mem_byte ui) 2 0 "".

(** [toHex(long)] and [toHex(unsigned long)]: four bytes. *)
Definition toHex_long (l : Z) : string := hex_scan (mem_byte l) 4 0 "".
Definition toHex_ulong (ul : Z) : string := hex_scan (mem_byte ul) 4 0 "".

(** [toHex(float)] and [toHex(double)]: four bytes; the argument is the bit
    pattern stored at [&f]. *)
Definition toHex_float (f_bits : Z) : string := hex_scan (mem_byte f_bits) 4 0 "".
Definition toHex_double (d_bits : Z) : string := hex_scan (mem_byte d_bits) 4 0 "".

(** [toHex(char)]. *)
Definition toHex (c : ascii) : string := hex_concat "" (byte_of c).

(** [toHex(char *c, int length)]; reading past the end of [c] is not
    modelled, the bytes there are taken as 0. *)
Definition toHex_buf (c : list ascii) (length : Z) : string :=
  hex_scan (fun i => byte_of (nth i c zero)) (Z.to_nat length) 0 "".

Definition hexDigitToDecimal (ch : ascii) : M Z :=
  let c := char_value ch in
  if (c >=? 48) && (c <=? 57) then ret (to_uint8 (byte_of ch - 48))
  else if (c >=? 97) && (c <=? 122) then ret (to_uint8 (byte_of ch - 97 + 10))
  else if (c >=? 65) && (c <=? 90) then ret (to_uint8 (byte_of ch - 65 + 10))
  else
    log2 " - Wisol.hexDigitToDecimal: Error: Invalid hex digit " (String ch "") ;;
    ret 0.

(** ** Driver state *)

Inductive Port : Type :=
| SerialPort            (* [&Serial] *)
| NullPort              (* [&nullPort] *)
| UserPort (id : Z).    (* a port handed to [setEchoPort] *)

(** The members of a [Wisol] object that [Wisol.cpp] reads or writes (the
    class itself is declared in [SIGFOX.h]).  [lastSend] holds a reading
    of [millis()], an [unsigned long]; 0 stands for no message sent yet.
    [echoPort] only says where the echo goes; the text itself is the
    [echo] of the world, and the serial port is the world's too. *)
Record Wisol : Type := mkWisol {
  country      : Z;
  useEmulator  : bool;
  device       : string;
  lastSend     : Z;
  echoPort     : Port;
  lastEchoPort : Port
}.

Definition set_lastSend (self : Wisol) (t : Z) : Wisol :=
  mkWisol (country self) (useEmulator self) (device self) t
          (echoPort self) (lastEchoPort self).

Definition MODEM_BITS_PER_SECOND : Z := 9600.
Definition END_OF_RESPONSE : ascii := char_of 13.
Definition CMD_SEND_MESSAGE : string := "AT$SF=".
Definition CMD_GET_ID : string := "AT$I=10".
Definition CMD_GET_PAC : string := "AT$I=11".
Definition CMD_END : string := String (char_of 13) "".

Definition markerPosMax : Z := 5.

(** The file-level statics [markers] and [markerPos] at program start. *)
Definition markers_init : Z := 0.
Definition markerPos_init : list Z := [0; 0; 0; 0; 0].

Definition nibbleToHex : string := "0123456789abcdef".

(** [a[n] = v] on an array held as a list. *)
Fixpoint array_set (a : list Z) (n : nat) (v : Z) : list Z :=
  match a, n with
  | [], _ => []
  | _ :: a', O => v :: a'
  | x :: a', S n' => x :: array_set a' n' v
  end.

(** [s[n]] on a C string: the terminating NUL past the last character. *)
Definition c_str_at (s : string) (n : nat) : ascii :=
  match String.get n s with
  | Some c => c
  | None => zero
  end.

Definition strlen (s : string) : Z := Z.of_nat (String.length s).

(** ** Diagnostic logger *)

Definition write (c : ascii) : M unit := print (String c "").

(** The marker test of [logBuffer] and what it prints.  A [markerPos[m]]
    with [m] past the five entries is read as 0. *)
Definition logMarker (markerPos : list Z) (markerCount : Z) (m i : Z) : M Z :=
  if (m <? markerCount) && (nth (Z.to_nat m) markerPos 0 =? i) then
    print "0x" ;;
    write (c_str_at nibbleToHex (Z.to_nat (byte_of END_OF_RESPONSE / 16))) ;;
    write (c_str_at nibbleToHex (Z.to_nat (byte_of END_OF_RESPONSE mod 16))) ;;
    ret (m + 1)
  else ret m.

Fixpoint logBuffer_loop (fuel : nat) (buffer : string) (markerPos : list Z)
         (markerCount : Z) (m i : Z) : M (Z * Z) :=
  match fuel with
  | O => ret (m, i)
  | S fuel' =>
      if i <? strlen buffer then
        m' <- logMarker markerPos markerCount m i ;;
        write (c_str_at buffer (Z.to_nat i)) ;;
        write (c_str_at buffer (Z.to_nat (i + 1))) ;;
        logBuffer_loop fuel' buffer markerPos markerCount m' (i + 2)
      else ret (m, i)
  end.

Definition logBuffer (prefix buffer : string) (markerPos : list Z)
           (markerCount : Z) : M unit :=
  print prefix ;;
  mi <- logBuffer_loop (S (String.length buffer)) buffer markerPos markerCount 0 0 ;;
  logMarker markerPos markerCount (fst mi) (snd mi) ;;
  write (char_of 10).

(** ** Frame transport *)

(** The locals and out-parameters the exchange loop works on. *)
Record Loop : Type := mkLoop {
  i                 : nat;
  startTime         : Z;
  response          : string;
  actualMarkerCount : Z;
  markerPos         : list Z
}.

(** [currentTime - startTime > timeout]: the subtraction is in
    [unsigned long], and the [int] timeout is converted to it. *)
Definition timed_out (startTime currentTime timeout : Z) : bool :=
  to_ulong (currentTime - startTime) >? to_ulong timeout.

(** Lines 66-78: write the next character, if one is left. *)
Definition send_next (buffer : string) (st : Loop) : M Loop :=
  if (i st <? String.length buffer)%nat then
    let txChar := byte_of (c_str_at buffer (i st)) in
    emit (SerialWrite txChar) ;;
    delay 10 ;;
    t <- millis ;;
    ret (mkLoop (S (i st)) t (response st) (actualMarkerCount st) (markerPos st))
  else ret st.

(** Lines 89-91: an end-of-response marker was read. *)
Definition mark (st : Loop) : Loop :=
  let markerPos' :=
    if actualMarkerCount st <? markerPosMax
    then array_set (markerPos st) (Z.to_nat (actualMarkerCount st))
                   (to_uint8 (strlen (response st)))
    else markerPos st in
  mkLoop (i st) (startTime st) (response st)
         (to_uint8 (actualMarkerCount st + 1)) markerPos'.

(** Line 95: any other character is appended to the response. *)
Definition keep (st : Loop) (rxChar : ascii) : Loop :=
  mkLoop (i st) (startTime st) (response st ++ String_of_char rxChar)
         (actualMarkerCount st) (markerPos st).

(** The [for (;;)] of [sendBuffer]; a pass uses at least one clock
    reading, which bounds the passes by the readings the world has. *)
Fixpoint sendBuffer_loop (fuel : nat) (buffer : string)
         (timeout expectedMarkerCount : Z) (st : Loop) : M Loop :=
  match fuel with
  | O => fun _ => None
  | S fuel' =>
      st <- send_next buffer st ;;
      currentTime <- millis ;;
      if timed_out (startTime st) currentTime timeout then ret st
      else
        rx <- poll ;;
        match rx with
        | Quiet => sendBuffer_loop fuel' buffer timeout expectedMarkerCount st
        | ReadNothing => sendBuffer_loop fuel' buffer timeout expectedMarkerCount st
        | Got rxChar =>
            if Ascii.eqb rxChar END_OF_RESPONSE then
              let st := mark st in
              if actualMarkerCount st >=? expectedMarkerCount then ret st
              else sendBuffer_loop fuel' buffer timeout expectedMarkerCount st
            else
              sendBuffer_loop fuel' buffer timeout expectedMarkerCount (keep st rxChar)
        end
  end.

(** Runs [f] with one more unit of fuel than clock readings are left. *)
Definition with_clock_fuel {A} (f : nat -> M A) : M A :=
  fun w => f (S (List.length (clock w))) w.

(** [actualMarkerCount0] and [markerPos0] are what the out-parameter
    [actualMarkerCount] and the static [markerPos] hold before the call;
    the result is the returned flag with [response], [actualMarkerCount]
    and [markerPos] as the call leaves them. *)
Definition sendBuffer (self : Wisol) (buffer : string)
           (timeout expectedMarkerCount : Z)
           (actualMarkerCount0 : Z) (markerPos0 : list Z)
  : M (bool * string * Z * list Z) :=
  log2 " - Wisol.sendBuffer: " buffer ;;
  if useEmulator self then ret (true, "", actualMarkerCount0, markerPos0)
  else
    emit (SerialBegin MODEM_BITS_PER_SECOND) ;;
    delay 200 ;;
    emit SerialFlush ;;
    emit SerialListen ;;
    startTime <- millis ;;
    st <- with_clock_fuel (fun fuel =>
            sendBuffer_loop fuel buffer timeout expectedMarkerCount
                            (mkLoop 0 startTime "" 0 markerPos0)) ;;
    emit SerialEnd ;;
    logBuffer ">> " buffer [] 0 ;;
    logBuffer "<< " (response st) (markerPos st) (actualMarkerCount st) ;;
    if actualMarkerCount st <? expectedMarkerCount then
      (if strlen (response st) =? 0
       then log1 " - Wisol.sendBuffer: Error: No response"
       else log2 " - Wisol.sendBuffer: Error: Unknown response: " (response st)) ;;
      ret (false, response st, actualMarkerCount st, markerPos st)
    else
      log2 " - Wisol.sendBuffer: response: " (response st) ;;
      ret (true, response st, actualMarkerCount st, markerPos st).

Definition enterCommandMode : M bool := ret true.
Definition exitCommandMode : M bool := ret true.

(** ** Duty-cycle guard and command dispatcher *)

Section Dispatcher.

(** Both constants come from [SIGFOX.h]: the time to wait for the modem's
    answer, and the recommended interval between two messages (an
    [unsigned long] number of milliseconds). *)
Variable WISOL_COMMAND_TIMEOUT : Z.
Variable SEND_DELAY : Z.

Definition isReady (self : Wisol) : M bool :=
  currentTime <- millis ;;
  if lastSend self =? 0 then ret true
  else
    let elapsedTime := to_ulong (currentTime - lastSend self) in
    if elapsedTime <=? 2 * 1000 then
      log1 "Must wait 2 seconds before sending the next message" ;;
      ret false
    else
      (if elapsedTime <=? SEND_DELAY
       then log1 "Warning: Should wait 10 mins before sending the next message"
       else ret tt) ;;
      ret true.

(** [markers0] and [markerPos0] are the file-level statics the exchange
    writes its marker count and positions to. *)
Definition sendMessage (self : Wisol) (markers0 : Z) (markerPos0 : list Z)
           (payload : string) : M (bool * Wisol * Z * list Z) :=
  log2 " - Wisol.sendMessage: " (device self ++ "," ++ payload) ;;
  ready <- isReady self ;;
  if negb ready then ret (false, self, markers0, markerPos0)
  else
    exited <- exitCommandMode ;;
    if negb exited then ret (false, self, markers0, markerPos0)
    else
      let message := CMD_SEND_MESSAGE ++ payload ++ CMD_END in
      r <- sendBuffer self message WISOL_COMMAND_TIMEOUT 1 markers0 markerPos0 ;;
      let '(sent, data, markers1, markerPos1) := r in
      if sent then
        log1 data ;;
        now <- millis ;;
        ret (true, set_lastSend self now, markers1, markerPos1)
      else ret (false, self, markers1, markerPos1).

(** [result0] is what the caller's [result] holds before the call. *)
Definition sendCommand (self : Wisol) (cmd : string) (expectedMarkerCount : Z)
           (result0 : string) (actualMarkerCount0 : Z) (markerPos0 : list Z)
  : M (bool * string * Z * list Z) :=
  entered <- enterCommandMode ;;
  if negb entered then ret (false, result0, actualMarkerCount0, markerPos0)
  else
    r <- sendBuffer self cmd WISOL_COMMAND_TIMEOUT expectedMarkerCount
                    actualMarkerCount0 markerPos0 ;;
    let '(sent, data, actualMarkerCount1, markerPos1) := r in
    if negb sent then ret (false, result0, actualMarkerCount1, markerPos1)
    else ret (true, data, actualMarkerCount1, markerPos1).

(** The loop of [sendString]: [payload.concat(toHex(ch))] for each
    character of [str] in turn. *)
Fixpoint sendString_payload (str : string) (payload : string) : string :=
  match str with
  | EmptyString => payload
  | String ch rest => sendString_payload rest (payload ++ toHex ch)
  end.

Definition sendString (self : Wisol) (markers0 : Z) (markerPos0 : list Z)
           (str : string) : M (bool * Wisol * Z * list Z) :=
  log2 " - Wisol.sendString: " str ;;
  let payload := sendString_payload str "" in
  sendMessage self markers0 markerPos0 payload.

End Dispatcher.

Definition echoOn (self : Wisol) : M Wisol :=
  let self := mkWisol (country self) (useEmulator self) (device self)
                      (lastSend self) (lastEchoPort self) (lastEchoPort self) in
  log1 " - Wisol.echoOn" ;;
  ret self.

Definition echoOff (self : Wisol) : Wisol :=
  mkWisol (country self) (useEmulator self) (device self) (lastSend self)
          NullPort (echoPort self).

Definition setEchoPort (self : Wisol) (port : Port) : Wisol :=
  mkWisol (country self) (useEmulator self) (device self) (lastSend self)
          port (echoPort self).

(** ** Reference notions the properties are stated with *)

(** C [toupper] on one character. *)
Definition toupper (c : ascii) : ascii :=
  if (97 <=? byte_of c) && (byte_of c <=? 122) then char_of (byte_of c - 32) else c.

(** Two lower-case hex digits of a byte, high nibble first, each looked up
    in the driver's own [nibbleToHex] table. *)
Definition two_hex_digits (b : Z) : string :=
  String (c_str_at nibbleToHex (Z.to_nat (b / 16)))
         (String (c_str_at nibbleToHex (Z.to_nat (b mod 16))) "").

Fixpoint hex_of_bytes (bs : list Z) : string :=
  match bs with
  | [] => ""
  | b :: bs' => two_hex_digits b ++ hex_of_bytes bs'
  end.

(** The world after [s] was printed on the echo port. *)
Definition echoed (w : World) (s : string) : World :=
  mkWorld (clock w) (inbound w) (trace w) (echo w ++ s).

(** The world after the events [es] happened on the serial port. *)
Definition traced (w : World) (es : list Event) : World :=
  mkWorld (clock w) (inbound w) (trace w ++ es) (echo w).

(** The world after the next clock reading was taken. *)
Definition ticked (w : World) : World :=
  mkWorld (tl (clock w)) (inbound w) (trace w) (echo w).

(** A poll that delivers the end-of-response character. *)
Definition is_marker (p : Poll) : bool :=
  match p with
  | Got c => Ascii.eqb c END_OF_RESPONSE
  | _ => false
  end.

(** How many end-of-response characters a run of polls delivers. *)
Definition marker_count (ps : list Poll) : Z :=
  Z.of_nat (List.length (filter is_marker ps)).

(** The response text a run of polls leaves: every delivered character
    that is neither the end-of-response character nor NUL. *)
Fixpoint text_of (ps : list Poll) : string :=
  match ps with
  | [] => ""
  | Got c :: ps' =>
      if Ascii.eqb c END_OF_RESPONSE then text_of ps'
      else String_of_char c ++ text_of ps'
  | _ :: ps' => text_of ps'
  end.

(** The length the response has when each end-of-response character of a
    run of polls is read, the response holding [n] characters before. *)
Fixpoint marker_offsets (n : Z) (ps : list Poll) : list Z :=
  match ps with
  | [] => []
  | Got c :: ps' =>
      if Ascii.eqb c END_OF_RESPONSE then n :: marker_offsets n ps'
      else marker_offsets (n + strlen (String_of_char c)) ps'
  | _ :: ps' => marker_offsets n ps'
  end.

(** The timer of an exchange runs out: once the [unsent] characters are
    written (two clock readings go with each), some later reading is more
    than [timeout] past the reading taken at the last write. *)
Fixpoint expires (timeout : Z) (unsent : nat) (startTime : Z) (readings : list Z) : Prop :=
  match unsent with
  | O => Exists (fun t => timed_out startTime (to_ulong t) timeout = true) readings
  | S unsent' =>
      match readings with
      | t1 :: _ :: rest => expires timeout unsent' (to_ulong t1) rest
      | _ => False
      end
  end.

(** The marker positions after the offsets [offs] were recorded in turn,
    [k] markers having been counted before: only slots below
    [markerPosMax] are written. *)
Fixpoint record_offsets (mp : list Z) (k : Z) (offs : list Z) : list Z :=
  match offs with
  | [] => mp
  | o :: offs' =>
      record_offsets
        (if k <? markerPosMax then array_set mp (Z.to_nat k) (to_uint8 o) else mp)
        (k + 1) offs'
  end.

(** The world the loop starts in: the call is echoed, the port is open
    and the first clock reading is taken. *)
Definition listening (buffer : string) (w : World) : World :=
  ticked (traced (traced (traced (traced
    (echoed w (" - Wisol.sendBuffer: " ++ buffer ++ CRLF))
    [SerialBegin MODEM_BITS_PER_SECOND]) [Delay 200]) [SerialFlush]) [SerialListen]).

Definition loop_start (w : World) (markerPos0 : list Z) : Loop :=
  mkLoop 0 (to_ulong (hd 0 (clock w))) "" 0 markerPos0.

Definition outcome (expectedMarkerCount : Z) (st : Loop) : bool * string * Z * list Z :=
  (negb (actualMarkerCount st <? expectedMarkerCount),
   response st, actualMarkerCount st, markerPos st).

(** The serial port calls that write [n] characters of [buffer] from
    index [k] on. *)
Definition sending (buffer : string) (k n : nat) : list Event :=
  flat_map (fun j => [SerialWrite (byte_of (c_str_at buffer j)); Delay 10]) (seq k n).

(** The characters written on the serial port, in order. *)
Fixpoint written (tr : list Event) : string :=
  match tr with
  | [] => ""
  | SerialWrite b :: tr' => String (char_of b) (written tr')
  | _ :: tr' => written tr'
  end.

(** ** Scenarios *)

(** A driver on the real network and one on the emulator, both fresh. *)
Definition real_driver : Wisol := mkWisol 0 false "g88pi" 0 SerialPort SerialPort.
Definition emulated_driver : Wisol := mkWisol 0 true "g88pi" 0 SerialPort SerialPort.

(** Seven end-of-response characters arrive while the command is sent. *)
Definition seven_markers : World :=
  mkWorld [0; 10; 10; 20; 20; 30; 30; 31; 32; 33; 34; 5000]
          (repeat (Got END_OF_RESPONSE) 7) [] "".

(** Two end-of-response characters arrive back to back, then "OK" and a
    third one. *)
Definition back_to_back : World :=
  mkWorld [0; 10; 10; 20; 20; 30; 30; 31; 32; 33; 34; 5000]
          [Got END_OF_RESPONSE; Got END_OF_RESPONSE;
           Got "O"%char; Got "K"%char; Got END_OF_RESPONSE] [] "".

(** The modem stays silent and the timer runs out. *)
Definition silent : World :=
  mkWorld (5 :: 6 :: repeat 7 24 ++ [99999]) [] [] "".

(** The modem answers with one end-of-response character once the whole
    command is written; [n] is the length of the command. *)
Definition one_reply (n : nat) : World :=
  mkWorld (1000 :: 1200 :: repeat 1300 (2 * n + 1) ++ [1400])
          (repeat Quiet n ++ [Got END_OF_RESPONSE]) [] "".

(** ** Device identity *)

Definition set_device (self : Wisol) (id : string) : Wisol :=
  mkWisol (country self) (useEmulator self) id (lastSend self)
          (echoPort self) (lastEchoPort self).

(** [id0] and [pac0] are what the caller's [id] and [pac] hold before the
    call; the result is the returned flag, the driver, [id], [pac], and
    the statics [markers] and [markerPos]. *)
Definition getID (WISOL_COMMAND_TIMEOUT : Z) (self : Wisol) (id0 pac0 : string)
           (markers0 : Z) (markerPos0 : list Z)
  : M (bool * Wisol * string * string * Z * list Z) :=
  if useEmulator self then ret (true, self, device self, pac0, markers0, markerPos0)
  else
    let data := "" in
    r <- sendCommand WISOL_COMMAND_TIMEOUT self (CMD_GET_ID ++ CMD_END) 1
                     data markers0 markerPos0 ;;
    let '(sent, data, markers1, markerPos1) := r in
    if negb sent then ret (false, self, id0, pac0, markers1, markerPos1)
    else
      let id := data in
      let self := set_device self id in
      r <- sendCommand WISOL_COMMAND_TIMEOUT self (CMD_GET_PAC ++ CMD_END) 1
                       data markers1 markerPos1 ;;
      let '(sent, data, markers2, markerPos2) := r in
      if negb sent then ret (false, self, id, pac0, markers2, markerPos2)
      else
        let pac := data in
        log2 " - Wisol.getID: returned id=" (id ++ ", pac=" ++ pac) ;;
        ret (true, self, id, pac, markers2, markerPos2).

(** ** Bring-up *)

(** Arduino [Print::print(int)]: the number in base 10, with a minus sign
    when negative. *)
Definition print_int (n : Z) : string :=
  if n <? 0 then "-" ++ utoa_loop 10 (- n) 10 "" else utoa_loop 10 n 10 "".

(** Each of these returns its flag with the value its out-parameter holds
    after the call. *)
Definition enableEmulator (result0 : string) : M (bool * string) :=
  log1 " - Wisol.enableEmulator: ERROR - Not implemented" ;;
  ret (true, result0).

Definition disableEmulator (result0 : string) : M (bool * string) := ret (true, result0).

Definition getEmulator : M (bool * Z) := ret (true, 0).

Definition getFrequency : M (bool * string) := ret (true, "3").

Definition setFrequency (zone : Z) (result0 : string) : M (bool * string) :=
  ret (true, result0).

Definition setFrequencySG (result0 : string) : M (bool * string) :=
  log1 " - Wisol.setFrequencySG" ;; setFrequency 4 result0.

Definition setFrequencyTW (result0 : string) : M (bool * string) :=
  log1 " - Wisol.setFrequencyTW" ;; setFrequency 4 result0.

Definition setFrequencyETSI (result0 : string) : M (bool * string) :=
  log1 " - Wisol.setFrequencyETSI" ;; setFrequency 1 result0.

Definition setFrequencyUS (result0 : string) : M (bool * string) :=
  log1 " - Wisol.setFrequencyUS" ;; setFrequency 2 result0.

Section Begin.

(** [COUNTRY_US] and [COUNTRY_FR] are values of the [Country] enumeration
    of [SIGFOX.h]. *)
Variable WISOL_COMMAND_TIMEOUT : Z.
Variable COUNTRY_US : Z.
Variable COUNTRY_FR : Z.

(** The part of a pass of [begin] from "Getting SIGFOX ID" on.  [console]
    is what was printed on [Serial] itself so far; a flag [false] is the
    [continue] of the source. *)
Definition begin_identify (self : Wisol) (markers0 : Z) (markerPos0 : list Z)
           (console : string) (result : string)
  : M (bool * Wisol * Z * list Z * string) :=
  log1 " - Getting SIGFOX ID..." ;;
  g <- getID WISOL_COMMAND_TIMEOUT self "" "" markers0 markerPos0 ;;
  let '(got, self, id, pac, markers1, markerPos1) := g in
  if negb got then ret (false, self, markers1, markerPos1, console)
  else
    print " - SIGFOX ID = " ;;
    let console := console ++ id ++ CRLF in
    print " - PAC = " ;;
    let console := console ++ pac ++ CRLF in
    log2 " - Setting frequency for country " (print_int (country self)) ;;
    f <- (if country self =? COUNTRY_US then setFrequencyUS result
          else if country self =? COUNTRY_FR then setFrequencyETSI result
          else setFrequencySG result) ;;
    if negb (fst f) then ret (false, self, markers1, markerPos1, console)
    else
      let result := snd f in
      log2 " - Set frequency result = " result ;;
      log1 " - Getting frequency (expecting 3)..." ;;
      q <- getFrequency ;;
      if negb (fst q) then ret (false, self, markers1, markerPos1, console)
      else
        log2 " - Frequency (expecting 3) = " (snd q) ;;
        ret (true, self, markers1, markerPos1, console).

(** One pass of the [for] of [begin]. *)
Definition begin_pass (self : Wisol) (markers0 : Z) (markerPos0 : list Z)
           (console : string) : M (bool * Wisol * Z * list Z * string) :=
  delay 2000 ;;
  let result := "" in
  if useEmulator self then
    r <- enableEmulator result ;;
    if negb (fst r) then ret (false, self, markers0, markerPos0, console)
    else begin_identify self markers0 markerPos0 console (snd r)
  else
    log1 " - Disabling emulation mode..." ;;
    r <- disableEmulator result ;;
    if negb (fst r) then ret (false, self, markers0, markerPos0, console)
    else
      log1 " - Checking emulation mode (expecting 0)..." ;;
      e <- getEmulator ;;
      if negb (fst e) then ret (false, self, markers0, markerPos0, console)
      else begin_identify self markers0 markerPos0 console (snd r).

(** [for (int i = 0; i < 5; i++)], with [passes] passes left. *)
Fixpoint begin_loop (passes : nat) (self : Wisol) (markers0 : Z) (markerPos0 : list Z)
         (console : string) : M (bool * Wisol * Z * list Z * string) :=
  match passes with
  | O => ret (false, self, markers0, markerPos0, console)
  | S passes' =>
      r <- begin_pass self markers0 markerPos0 console ;;
      let '(done, self, markers1, markerPos1, console) := r in
      if done then ret (true, self, markers1, markerPos1, console)
      else begin_loop passes' self markers1 markerPos1 console
  end.

Definition begin (self : Wisol) (markers0 : Z) (markerPos0 : list Z) (console : string)
  : M (bool * Wisol * Z * list Z * string) :=
  let self := set_lastSend self 0 in
  begin_loop 5 self markers0 markerPos0 console.

End Begin.

(** ** Further reference notions *)

(** The two clock readings that go with one written character. *)
Definition pair_readings (p : Z * Z) : list Z := [fst p; snd p].

(** The start time after the characters of [pairs] are written. *)
Definition last_start (startTime : Z) (pairs : list (Z * Z)) : Z :=
  match rev pairs with
  | [] => startTime
  | p :: _ => to_ulong (fst p)
  end.

(** One timer test of the exchange loop: the start time and the current
    time that line 81 compares. *)
Definition fired (timeout : Z) (test : Z * Z) : bool :=
  timed_out (fst test) (snd test) timeout.

(** The timer tests of a run of the loop, one per pass, from the clock
    readings the run took: a pass that writes a character takes two
    readings [pairs] (at the write, then for the test); once everything is
    written a pass takes one [singles], which is compared with the reading
    of the last write, or with [startTime] when nothing was written. *)
Definition timer_tests (startTime : Z) (pairs : list (Z * Z)) (singles : list Z)
  : list (Z * Z) :=
  (map (fun p => (to_ulong (fst p), to_ulong (snd p))) pairs
     ++ map (fun c => (last_start startTime pairs, to_ulong c)) singles)%list.

(** The two-second pauses of [begin] among the events of a trace. *)
Definition pauses (tr : list Event) : nat :=
  List.length (filter (fun e => match e with Delay ms => ms =? 2000 | _ => false end) tr).

(** What a pass of [begin] echoes before it asks for the identifier, and
    what it echoes once it has it. *)
Definition pass_echo (self : Wisol) : string :=
  if useEmulator self
  then " - Wisol.enableEmulator: ERROR - Not implemented" ++ CRLF
  else (" - Disabling emulation mode..." ++ CRLF)
         ++ " - Checking emulation mode (expecting 0)..." ++ CRLF.

Definition identify_echo (COUNTRY_US COUNTRY_FR : Z) (self : Wisol) (result : string) : string :=
  " - SIGFOX ID = " ++ " - PAC = "
    ++ (" - Setting frequency for country " ++ print_int (country self) ++ CRLF)
    ++ ((if country self =? COUNTRY_US then " - Wisol.setFrequencyUS"
         else if country self =? COUNTRY_FR then " - Wisol.setFrequencyETSI"
         else " - Wisol.setFrequencySG") ++ CRLF)
    ++ (" - Set frequency result = " ++ result ++ CRLF)
    ++ (" - Getting frequency (expecting 3)..." ++ CRLF)
    ++ (" - Frequency (expecting 3) = " ++ "3" ++ CRLF).

(** Decoding a payload two digits at a time with [hexDigitToDecimal]. *)
Fixpoint decode_pairs (s : string) : M (list Z) :=
  match s with
  | String a (String b rest) =>
      hi <- hexDigitToDecimal a ;;
      lo <- hexDigitToDecimal b ;;
      bytes <- decode_pairs rest ;;
      ret (16 * hi + lo :: bytes)
  | _ => ret []
  end.

(** The NUL that [logBuffer] prints after a buffer of odd length: it
    takes the characters two at a time. *)
Definition odd_pad (s : string) : string :=
  if Nat.even (String.length s) then "" else String zero "".

(** ** Further scenarios *)

(** The modem sends NUL, "O", the end-of-response character, "K". *)
Definition noisy_reply : World :=
  mkWorld [0; 10; 10; 20; 20; 30; 30; 31; 32; 33; 34; 5000]
          [Got zero; Got "O"%char; Got END_OF_RESPONSE; Got "K"%char] [] "".

(** Writes 40 seconds and more apart, each followed by its timer test
    within 5 ms, against a timeout of one second. *)
Definition slow_writes : World :=
  mkWorld (0 :: flat_map pair_readings [(100, 105); (50000, 50003); (900000, 900001)]
             ++ [900002; 990000])
          [Quiet; Got "x"%char; ReadNothing] [] "".

(** The modem answers the identifier query with "1A2B3C" and then stays
    silent until the timer of the second query runs out. *)
Definition id_then_silence : World :=
  mkWorld (repeat 0 41 ++ [99999])
          (repeat Quiet 8 ++
           [Got "1"%char; Got "A"%char; Got "2"%char; Got "B"%char; Got "3"%char;
            Got "C"%char; Got END_OF_RESPONSE]) [] "".

(** As [one_reply], with the clock readings [c] and the polls [q] that are
    still to come once the reply is read. *)
Definition reply_and_more (n : nat) (c : list Z) (q : list Poll) : World :=
  mkWorld (1000 :: 1200 :: repeat 1300 (2 * n) ++ 1300 :: 1400 :: c)
          (repeat Quiet n ++ Got END_OF_RESPONSE :: q) [] "".

(** The modem never answers: five identifier queries time out in turn. *)
Definition five_silences : World :=
  mkWorld (List.concat (repeat (repeat 0 17 ++ [99999])%list 5)) [] [] "".

(** * Properties *)

(** ** Strings and bytes *)

Lemma append_nil_r (s : string) : s ++ "" = s.
Proof. induction s as [|c s IH]; simpl; [reflexivity | now rewrite IH]. Qed.

Lemma append_assoc (s t u : string) : (s ++ t) ++ u = s ++ (t ++ u).
Proof. induction s as [|c s IH]; simpl; [reflexivity | now rewrite IH]. Qed.

Lemma length_append (s t : string) :
  String.length (s ++ t) = (String.length s + String.length t)%nat.
Proof. induction s as [|c s IH]; simpl; [reflexivity | now rewrite IH]. Qed.

Lemma byte_of_range (c : ascii) : 0 <= byte_of c < 256.
Proof.
  unfold byte_of. pose proof (N_ascii_bounded c) as H. lia.
Qed.

Lemma byte_of_char_of (b : Z) : 0 <= b < 256 -> byte_of (char_of b) = b.
Proof.
  intros H. unfold byte_of, char_of.
  rewrite Z.mod_small by lia.
  rewrite N_ascii_embedding by lia. lia.
Qed.

Lemma char_of_byte_of (c : ascii) : char_of (byte_of c) = c.
Proof.
  unfold char_of. rewrite Z.mod_small by apply byte_of_range.
  unfold byte_of. rewrite N2Z.id. apply ascii_N_embedding.
Qed.

Lemma mem_byte_range (v : Z) (j : nat) : 0 <= mem_byte v j < 256.
Proof.
  unfold mem_byte. change 255 with (Z.ones 8).
  rewrite Z.land_ones by lia. apply Z.mod_pos_bound. reflexivity.
Qed.

(** ** Hex codec *)

Lemma hex_concat_char (c : ascii) : hex_concat "" (byte_of c) = two_hex_digits (byte_of c).
Proof.
  destruct c as [[] [] [] [] [] [] [] []]; reflexivity.
Qed.

Lemma hex_concat_byte (bytes : string) (b : Z) :
  0 <= b < 256 -> hex_concat bytes b = bytes ++ two_hex_digits b.
Proof.
  intros H. rewrite <- (byte_of_char_of b H), <- hex_concat_char.
  unfold hex_concat. destruct (_ <=? 15); simpl.
  - now rewrite append_assoc.
  - reflexivity.
Qed.

Lemma hex_scan_bytes (b : nat -> Z) (n i : nat) (bytes : string) :
  (forall k, 0 <= b k < 256) ->
  hex_scan b n i bytes = bytes ++ hex_of_bytes (map b (seq i n)).
Proof.
  intros Hb. revert i bytes.
  induction n as [|n IH]; intros i bytes; simpl.
  - now rewrite append_nil_r.
  - rewrite IH, hex_concat_byte by apply Hb. apply append_assoc.
Qed.

Lemma length_hex_of_bytes (bs : list Z) :
  String.length (hex_of_bytes bs) = (2 * List.length bs)%nat.
Proof.
  induction bs as [|b bs IH]; simpl; [reflexivity | rewrite IH; lia].
Qed.

Lemma toHex_scan_mem (v : Z) (n : nat) :
  hex_scan (mem_byte v) n 0 "" = hex_of_bytes (map (mem_byte v) (seq 0 n)).
Proof. apply (hex_scan_bytes (mem_byte v) n 0 ""). apply mem_byte_range. Qed.

(** C7: every [toHex] overload gives two lower-case, zero-padded hex digits
    per scanned byte, in the order of the scan: 2 characters for [char], 4
    for [int] and [unsigned int], 8 for [long], [unsigned long], [float]
    and [double], and [2 * length] for a buffer. *)
Theorem toHex_two_digits_per_byte (c : ascii) (v : Z) (buf : list ascii) (len : Z) :
  (toHex c = hex_of_bytes [byte_of c] /\ String.length (toHex c) = 2%nat) /\
  (toHex_int v = hex_of_bytes [mem_byte v 0; mem_byte v 1] /\
   String.length (toHex_int v) = 4%nat) /\
  (toHex_uint v = hex_of_bytes [mem_byte v 0; mem_byte v 1] /\
   String.length (toHex_uint v) = 4%nat) /\
  (toHex_long v = hex_of_bytes [mem_byte v 0; mem_byte v 1; mem_byte v 2; mem_byte v 3] /\
   String.length (toHex_long v) = 8%nat) /\
  (toHex_ulong v = hex_of_bytes [mem_byte v 0; mem_byte v 1; mem_byte v 2; mem_byte v 3] /\
   String.length (toHex_ulong v) = 8%nat) /\
  (toHex_float v = hex_of_bytes [mem_byte v 0; mem_byte v 1; mem_byte v 2; mem_byte v 3] /\
   String.length (toHex_float v) = 8%nat) /\
  (toHex_double v = hex_of_bytes [mem_byte v 0; mem_byte v 1; mem_byte v 2; mem_byte v 3] /\
   String.length (toHex_double v) = 8%nat) /\
  (toHex_buf buf len =
     hex_of_bytes (map (fun k => byte_of (nth k buf zero)) (seq 0 (Z.to_nat len))) /\
   String.length (toHex_buf buf len) = (2 * Z.to_nat len)%nat).
Proof.
  assert (Hc : toHex c = hex_of_bytes [byte_of c]).
  { unfold toHex. rewrite hex_concat_char. cbn [hex_of_bytes].
    symmetry. apply append_nil_r. }
  assert (Hb : toHex_buf buf len =
     hex_of_bytes (map (fun k => byte_of (nth k buf zero)) (seq 0 (Z.to_nat len)))).
  { unfold toHex_buf.
    apply (hex_scan_bytes (fun k => byte_of (nth k buf zero)) (Z.to_nat len) 0 "").
    intros k. apply byte_of_range. }
  unfold toHex_int, toHex_uint, toHex_long, toHex_ulong, toHex_float, toHex_double.
  rewrite Hc, Hb, !toHex_scan_mem, !length_hex_of_bytes, !length_map, !length_seq.
  repeat split; reflexivity.
Qed.

(** C8: [hexDigitToDecimal] maps '0'..'9' to 0..9 and both 'a'..'z' and
    'A'..'Z' to 10..35; on any other character it still returns, with the
    value 0 after printing a diagnostic, so the value 0 is returned both
    for the digit '0' and for a character that is no digit. *)
Theorem hexDigitToDecimal_table (ch : ascii) (w : World) :
  (48 <= byte_of ch <= 57 ->
     hexDigitToDecimal ch w = Some (byte_of ch - 48, w)) /\
  (97 <= byte_of ch <= 122 ->
     hexDigitToDecimal ch w = Some (byte_of ch - 97 + 10, w)) /\
  (65 <= byte_of ch <= 90 ->
     hexDigitToDecimal ch w = Some (byte_of ch - 65 + 10, w)) /\
  (~ 48 <= byte_of ch <= 57 -> ~ 97 <= byte_of ch <= 122 -> ~ 65 <= byte_of ch <= 90 ->
     hexDigitToDecimal ch w =
       Some (0, mkWorld (clock w) (inbound w) (trace w)
                  ((echo w ++ " - Wisol.hexDigitToDecimal: Error: Invalid hex digit ")
                     ++ String ch "" ++ CRLF))) /\
  (hexDigitToDecimal "0"%char w = Some (0, w) /\
   exists w', hexDigitToDecimal "!"%char w = Some (0, w')).
Proof.
  pose proof (byte_of_range ch) as Hr.
  unfold hexDigitToDecimal, char_value, to_uint8.
  repeat split; try (eexists; reflexivity); intros;
    repeat match goal with
    | |- context [?a <? ?b] => destruct (Z.ltb_spec a b)
    | |- context [?a >=? ?b] => rewrite (Z.geb_leb a b)
    | |- context [?a <=? ?b] => destruct (Z.leb_spec a b)
    end; cbn [andb]; try lia;
    try (unfold ret; rewrite Z.mod_small by lia; reflexivity);
    reflexivity.
Qed.

Lemma hexDigitToDecimal_table_witness :
  hexDigitToDecimal "7"%char (mkWorld [] [] [] "") = Some (7, mkWorld [] [] [] "") /\
  hexDigitToDecimal "f"%char (mkWorld [] [] [] "") = Some (15, mkWorld [] [] [] "") /\
  hexDigitToDecimal "Z"%char (mkWorld [] [] [] "") = Some (35, mkWorld [] [] [] "") /\
  hexDigitToDecimal "!"%char (mkWorld [] [] [] "") =
    Some (0, mkWorld [] [] []
               (" - Wisol.hexDigitToDecimal: Error: Invalid hex digit " ++ "!" ++ CRLF)).
Proof.
  split; [|split; [|split]].
  - apply (hexDigitToDecimal_table "7"%char (mkWorld [] [] [] "")). vm_compute. split; discriminate.
  - apply (hexDigitToDecimal_table "f"%char (mkWorld [] [] [] "")). vm_compute. split; discriminate.
  - apply (hexDigitToDecimal_table "Z"%char (mkWorld [] [] [] "")). vm_compute. split; discriminate.
  - apply (hexDigitToDecimal_table "!"%char (mkWorld [] [] [] ""));
      vm_compute; intros [H1 H2]; (now apply H1) || (now apply H2).
Defined.

(** C2: for every byte, [toHex] gives two digits whose values under
    [hexDigitToDecimal], combined as 16 * first + second, are the byte
    again; the same holds after the digits are put in upper case, and no
    diagnostic is printed on the way. *)
Theorem hex_round_trip (ch : ascii) (w : World) :
  exists d1 d2 hi lo,
    toHex ch = String d1 (String d2 "") /\
    hexDigitToDecimal d1 w = Some (hi, w) /\
    hexDigitToDecimal d2 w = Some (lo, w) /\
    hexDigitToDecimal (toupper d1) w = Some (hi, w) /\
    hexDigitToDecimal (toupper d2) w = Some (lo, w) /\
    16 * hi + lo = byte_of ch.
Proof.
  destruct ch as [[] [] [] [] [] [] [] []];
    do 4 eexists; (split; [reflexivity|]); repeat split; reflexivity.
Qed.

(** ** Duty-cycle guard *)

(** C3 (as amended): [isReady] returns true when [lastSend] is 0; otherwise
    it returns false, after printing the notice, exactly when at most 2000
    ms have elapsed, so the floor itself is still refused; above the floor
    it returns true, with the advisory printed up to [SEND_DELAY]. *)
Theorem isReady_floor_inclusive (SEND_DELAY : Z) (self : Wisol) (w : World) (t : Z) (rest : list Z) :
  clock w = t :: rest ->
  let elapsedTime := to_ulong (to_ulong t - lastSend self) in
  (lastSend self = 0 -> isReady SEND_DELAY self w = Some (true, ticked w)) /\
  (lastSend self <> 0 -> elapsedTime <= 2000 ->
     isReady SEND_DELAY self w =
       Some (false, echoed (ticked w)
                      ("Must wait 2 seconds before sending the next message" ++ CRLF))) /\
  (lastSend self <> 0 -> 2000 < elapsedTime <= SEND_DELAY ->
     isReady SEND_DELAY self w =
       Some (true, echoed (ticked w)
                     ("Warning: Should wait 10 mins before sending the next message" ++ CRLF))) /\
  (lastSend self <> 0 -> 2000 < elapsedTime -> SEND_DELAY < elapsedTime ->
     isReady SEND_DELAY self w = Some (true, ticked w)).
Proof.
  intros Hc elapsedTime. subst elapsedTime.
  unfold isReady, bind, millis, ticked. rewrite Hc. cbn [tl].
  repeat split; intros.
  - destruct (Z.eqb_spec (lastSend self) 0); [reflexivity | contradiction].
  - destruct (Z.eqb_spec (lastSend self) 0); [contradiction |].
    destruct (Z.leb_spec (to_ulong (to_ulong t - lastSend self)) (2 * 1000)); [reflexivity | lia].
  - destruct (Z.eqb_spec (lastSend self) 0); [contradiction |].
    destruct (Z.leb_spec (to_ulong (to_ulong t - lastSend self)) (2 * 1000)); [lia |].
    destruct (Z.leb_spec (to_ulong (to_ulong t - lastSend self)) SEND_DELAY); [reflexivity | lia].
  - destruct (Z.eqb_spec (lastSend self) 0); [contradiction |].
    destruct (Z.leb_spec (to_ulong (to_ulong t - lastSend self)) (2 * 1000)); [lia |].
    destruct (Z.leb_spec (to_ulong (to_ulong t - lastSend self)) SEND_DELAY); [lia | reflexivity].
Qed.

Lemma isReady_floor_inclusive_witness :
  isReady 600000 (mkWisol 0 false "" 1000 SerialPort SerialPort)
          (mkWorld [3000] [] [] "") =
    Some (false, echoed (ticked (mkWorld [3000] [] [] ""))
                   ("Must wait 2 seconds before sending the next message" ++ CRLF)).
Proof.
  apply (isReady_floor_inclusive 600000 (mkWisol 0 false "" 1000 SerialPort SerialPort)
           (mkWorld [3000] [] [] "") 3000 []); [reflexivity | simpl; lia | vm_compute; discriminate].
Defined.

(** C3 (as stated) fails at the floor: 2000 ms after a send, which is not
    below the floor, [isReady] returns false. *)
Lemma isReady_refuses_at_floor :
  ~ (forall (SEND_DELAY : Z) (self : Wisol) (w : World) (t : Z) (rest : list Z),
       clock w = t :: rest ->
       2000 <= to_ulong (to_ulong t - lastSend self) ->
       exists w', isReady SEND_DELAY self w = Some (true, w')).
Proof.
  intros H.
  destruct (H 600000 (mkWisol 0 false "" 1000 SerialPort SerialPort)
              (mkWorld [3000] [] [] "") 3000 [] eq_refl) as [w' Hw'].
  - vm_compute. discriminate.
  - vm_compute in Hw'. discriminate.
Qed.

(** ** The world operations, one by one *)

Lemma millis_inv (w w' : World) (t : Z) :
  millis w = Some (t, w') ->
  exists r, clock w = r :: clock w' /\ t = to_ulong r /\
            inbound w' = inbound w /\ trace w' = trace w /\ echo w' = echo w.
Proof.
  unfold millis. destruct (clock w) as [|r rest] eqn:Hc; [discriminate |].
  intros H. inversion H; subst. exists r. simpl. auto.
Qed.

Lemma poll_inv (w w' : World) (p : Poll) :
  poll w = Some (p, w') ->
  clock w' = clock w /\
  ((inbound w = [] /\ p = Quiet /\ inbound w' = []) \/ inbound w = p :: inbound w').
Proof.
  unfold poll. destruct (inbound w) as [|q rest] eqn:Hi; intros H; inversion H; subst.
  - rewrite Hi. auto.
  - simpl. auto.
Qed.

Lemma strlen_append (s t : string) : strlen (s ++ t) = strlen s + strlen t.
Proof. unfold strlen. rewrite length_append. lia. Qed.

Lemma strlen_nonneg (s : string) : 0 <= strlen s.
Proof. unfold strlen. lia. Qed.

(** ** The exchange loop *)

Section Exchange.

Variable buffer : string.
Variable timeout : Z.
Variable expectedMarkerCount : Z.

Lemma send_next_inv (st st1 : Loop) (w w1 : World) :
  send_next buffer st w = Some (st1, w1) ->
  response st1 = response st /\
  actualMarkerCount st1 = actualMarkerCount st /\
  markerPos st1 = markerPos st /\
  inbound w1 = inbound w.
Proof.
  unfold send_next. destruct (i st <? String.length buffer)%nat.
  - unfold bind, emit, delay, emit, millis, ret. simpl.
    destruct (clock w); [discriminate |].
    intros H. inversion H; subst. simpl. auto.
  - unfold ret. intros H. inversion H; subst. auto.
Qed.

Lemma mark_count (st : Loop) :
  expectedMarkerCount < 256 ->
  0 <= actualMarkerCount st ->
  actualMarkerCount st = 0 \/ actualMarkerCount st < expectedMarkerCount ->
  actualMarkerCount (mark st) = actualMarkerCount st + 1.
Proof.
  intros He H0 Hlt. unfold mark, to_uint8. simpl.
  apply Z.mod_small. lia.
Qed.

(** What a completed run of the loop has done, in terms of the polls it
    used up. *)
Lemma sendBuffer_loop_run (fuel : nat) :
  forall (st st' : Loop) (w w' : World),
    sendBuffer_loop fuel buffer timeout expectedMarkerCount st w = Some (st', w') ->
    expectedMarkerCount < 256 ->
    0 <= actualMarkerCount st ->
    actualMarkerCount st = 0 \/ actualMarkerCount st < expectedMarkerCount ->
    exists ps,
      inbound w = (ps ++ inbound w')%list /\
      response st' = response st ++ text_of ps /\
      actualMarkerCount st' = actualMarkerCount st + marker_count ps /\
      markerPos st' =
        record_offsets (markerPos st) (actualMarkerCount st)
                       (marker_offsets (strlen (response st)) ps).
Proof.
  induction fuel as [|fuel IH]; intros st st' w w' Hrun He H0 Hlt; [discriminate |].
  cbn [sendBuffer_loop] in Hrun. unfold bind in Hrun.
  destruct (send_next buffer st w) as [[st1 w1]|] eqn:Hs; [|discriminate].
  destruct (send_next_inv _ _ _ _ Hs) as (Hr1 & Ha1 & Hm1 & Hi1).
  destruct (millis w1) as [[t w2]|] eqn:Hm; [|discriminate].
  destruct (millis_inv _ _ _ Hm) as (r & _ & _ & Hi2 & _).
  rewrite <- Hr1, <- Ha1, <- Hm1, <- Hi1, <- Hi2 in *.
  destruct (timed_out (startTime st1) t timeout).
  { inversion Hrun; subst. exists []. simpl.
    rewrite append_nil_r. unfold marker_count. simpl. repeat split; auto; lia. }
  destruct (poll w2) as [[p w3]|] eqn:Hp; [|discriminate].
  destruct (poll_inv _ _ _ Hp) as (_ & Hin).
  assert (Hsame :
    sendBuffer_loop fuel buffer timeout expectedMarkerCount st1 w3 = Some (st', w') ->
    exists ps, inbound w3 = (ps ++ inbound w')%list /\
      response st' = response st1 ++ text_of ps /\
      actualMarkerCount st' = actualMarkerCount st1 + marker_count ps /\
      markerPos st' =
        record_offsets (markerPos st1) (actualMarkerCount st1)
                       (marker_offsets (strlen (response st1)) ps)).
  { intros Hk. apply (IH _ _ _ _ Hk); auto. }
  destruct Hin as [(Hnil & Hq & Hnil') | Hcons].
  - (* silence after the last recorded poll *)
    subst p. rewrite Hnil. rewrite Hnil' in Hsame. apply Hsame, Hrun.
  - rewrite Hcons. destruct p as [| |c].
    + destruct (Hsame Hrun) as (ps & Hps & Hr & Ha & Hmp).
      exists (Quiet :: ps). simpl. rewrite Hps. repeat split; auto.
    + destruct (Hsame Hrun) as (ps & Hps & Hr & Ha & Hmp).
      exists (ReadNothing :: ps). simpl. rewrite Hps. repeat split; auto.
    + destruct (Ascii.eqb c END_OF_RESPONSE) eqn:Hc.
      * pose proof (mark_count st1 He H0 Hlt) as Hmk.
        destruct (actualMarkerCount (mark st1) >=? expectedMarkerCount) eqn:Hge.
        -- inversion Hrun; subst st' w'.
           exists [Got c]. unfold marker_count. simpl. rewrite Hc. simpl.
           rewrite append_nil_r. repeat split; auto.
        -- rewrite Z.geb_leb in Hge. apply Z.leb_gt in Hge.
           destruct (IH _ _ _ _ Hrun He) as (ps & Hps & Hr & Ha & Hmp); try lia.
           exists (Got c :: ps). unfold marker_count in *. simpl. rewrite Hc. simpl.
           rewrite Hps, Hr, Ha, Hmp, Hmk. repeat split; auto. lia.
      * destruct (IH _ _ _ _ Hrun He) as (ps & Hps & Hr & Ha & Hmp); auto.
        exists (Got c :: ps). unfold marker_count in *. simpl. rewrite Hc.
        rewrite Hps, Hr, Ha, Hmp. simpl. rewrite strlen_append, append_assoc.
        repeat split; auto.
Qed.

End Exchange.

(** ** Printing never fails and touches the echo only *)

Lemma echoed_echoed (w : World) (s t : string) :
  echoed (echoed w s) t = echoed w (s ++ t).
Proof. unfold echoed. simpl. now rewrite append_assoc. Qed.

Lemma echoed_nil (w : World) : echoed w "" = w.
Proof. destruct w. unfold echoed. simpl. now rewrite append_nil_r. Qed.

Lemma print_echoed (s : string) (w : World) : print s w = Some (tt, echoed w s).
Proof. reflexivity. Qed.

Lemma write_echoed (c : ascii) (w : World) : write c w = Some (tt, echoed w (String c "")).
Proof. reflexivity. Qed.

Lemma log1_echoed (x : string) (w : World) : log1 x w = Some (tt, echoed w (x ++ CRLF)).
Proof. reflexivity. Qed.

Lemma log2_echoed (x y : string) (w : World) :
  log2 x y w = Some (tt, echoed w (x ++ y ++ CRLF)).
Proof.
  unfold log2, bind, println. rewrite !print_echoed, echoed_echoed. reflexivity.
Qed.

Lemma logMarker_echoed (mp : list Z) (mc m k : Z) (w : World) :
  exists m' s, logMarker mp mc m k w = Some (m', echoed w s).
Proof.
  unfold logMarker.
  destruct ((m <? mc) && (nth (Z.to_nat m) mp 0 =? k)).
  - unfold bind. rewrite print_echoed, !write_echoed, !echoed_echoed.
    eexists _, _. reflexivity.
  - exists m, "". unfold ret. now rewrite echoed_nil.
Qed.

Lemma logBuffer_loop_echoed (fuel : nat) (buf : string) (mp : list Z) (mc : Z) :
  forall (m k : Z) (w : World),
    exists mk s, logBuffer_loop fuel buf mp mc m k w = Some (mk, echoed w s).
Proof.
  induction fuel as [|fuel IH]; intros m k w; cbn [logBuffer_loop].
  - exists (m, k), "". unfold ret. now rewrite echoed_nil.
  - destruct (k <? strlen buf).
    + unfold bind.
      destruct (logMarker_echoed mp mc m k w) as (m' & s & Hs). rewrite Hs.
      rewrite !write_echoed, !echoed_echoed.
      destruct (IH m' (k + 2) (echoed w (s ++ String (c_str_at buf (Z.to_nat k)) ""
                  ++ String (c_str_at buf (Z.to_nat (k + 1))) ""))) as (mk & s' & Hs').
      rewrite Hs', echoed_echoed. eexists _, _. reflexivity.
    + exists (m, k), "". unfold ret. now rewrite echoed_nil.
Qed.

Lemma logBuffer_echoed (prefix buf : string) (mp : list Z) (mc : Z) (w : World) :
  exists s, logBuffer prefix buf mp mc w = Some (tt, echoed w s).
Proof.
  unfold logBuffer, bind. rewrite print_echoed.
  destruct (logBuffer_loop_echoed (S (String.length buf)) buf mp mc 0 0 (echoed w prefix))
    as (mk & s & Hs).
  rewrite Hs.
  destruct (logMarker_echoed mp mc (fst mk) (snd mk) (echoed (echoed w prefix) s))
    as (m' & s' & Hs').
  rewrite Hs', write_echoed, !echoed_echoed. eexists. reflexivity.
Qed.

(** ** [sendBuffer] around its loop *)

Lemma bind_step {A B} (m : M A) (k : A -> M B) (w w1 : World) (a : A) :
  m w = Some (a, w1) -> bind m k w = k a w1.
Proof. intros H. unfold bind. now rewrite H. Qed.

Lemma emit_traced (e : Event) (w : World) : emit e w = Some (tt, traced w [e]).
Proof. reflexivity. Qed.

Lemma delay_traced (ms : Z) (w : World) : delay ms w = Some (tt, traced w [Delay ms]).
Proof. reflexivity. Qed.

Lemma millis_ticked (w : World) :
  clock w <> [] -> millis w = Some (to_ulong (hd 0 (clock w)), ticked w).
Proof.
  unfold millis, ticked. destruct (clock w); [contradiction | reflexivity].
Qed.

Lemma sendBuffer_unfold (self : Wisol) (buffer : string) (timeout e a0 : Z)
      (mp0 : list Z) (w : World) :
  useEmulator self = false ->
  clock w <> [] ->
  match sendBuffer_loop (S (List.length (clock (listening buffer w)))) buffer timeout e
                        (loop_start w mp0) (listening buffer w) with
  | Some (st, wl) =>
      exists s, sendBuffer self buffer timeout e a0 mp0 w =
                  Some (outcome e st, echoed (traced wl [SerialEnd]) s)
  | None => sendBuffer self buffer timeout e a0 mp0 w = None
  end.
Proof.
  intros Hemu Hclock.
  unfold sendBuffer. rewrite Hemu.
  rewrite (bind_step _ _ _ _ _ (log2_echoed _ _ _)).
  rewrite (bind_step _ _ _ _ _ (emit_traced _ _)).
  rewrite (bind_step _ _ _ _ _ (delay_traced _ _)).
  rewrite (bind_step _ _ _ _ _ (emit_traced _ _)).
  rewrite (bind_step _ _ _ _ _ (emit_traced _ _)).
  rewrite (bind_step _ _ _ _ _
             (millis_ticked (traced (traced (traced (traced (echoed w _) _) _) _) _) Hclock)).
  assert (Hloop :
    with_clock_fuel (fun fuel => sendBuffer_loop fuel buffer timeout e (loop_start w mp0))
                    (listening buffer w) =
    sendBuffer_loop (S (List.length (clock (listening buffer w)))) buffer timeout e
                    (loop_start w mp0) (listening buffer w)) by reflexivity.
  change (mkLoop 0 _ "" 0 mp0) with (loop_start w mp0).
  fold (listening buffer w).
  destruct (sendBuffer_loop (S (List.length (clock (listening buffer w)))) buffer timeout e
              (loop_start w mp0) (listening buffer w)) as [[st wl]|].
  2: { unfold bind at 1. now rewrite Hloop. }
  rewrite (bind_step _ _ _ _ _ Hloop).
  rewrite (bind_step _ _ _ _ _ (emit_traced _ _)).
  destruct (logBuffer_echoed ">> " buffer [] 0 (traced wl [SerialEnd])) as (s1 & Hs1).
  rewrite (bind_step _ _ _ _ _ Hs1).
  destruct (logBuffer_echoed "<< " (response st) (markerPos st) (actualMarkerCount st)
              (echoed (traced wl [SerialEnd]) s1)) as (s2 & Hs2).
  rewrite (bind_step _ _ _ _ _ Hs2).
  unfold outcome.
  destruct (actualMarkerCount st <? e); cbn [negb].
  - destruct (strlen (response st) =? 0).
    + rewrite (bind_step _ _ _ _ _ (log1_echoed _ _)). unfold ret.
      rewrite !echoed_echoed. eexists. reflexivity.
    + rewrite (bind_step _ _ _ _ _ (log2_echoed _ _ _)). unfold ret.
      rewrite !echoed_echoed. eexists. reflexivity.
  - rewrite (bind_step _ _ _ _ _ (log2_echoed _ _ _)). unfold ret.
    rewrite !echoed_echoed. eexists. reflexivity.
Qed.

(** ** Marker positions *)

Lemma length_array_set (a : list Z) (n : nat) (v : Z) :
  List.length (array_set a n v) = List.length a.
Proof.
  revert n. induction a as [|x a IH]; intros [|n]; simpl; auto.
Qed.

Lemma nth_array_set_same (a : list Z) (n : nat) (v d : Z) :
  (n < List.length a)%nat -> nth n (array_set a n v) d = v.
Proof.
  revert n. induction a as [|x a IH]; intros [|n] H; simpl in *; try lia; auto.
  apply IH. lia.
Qed.

Lemma nth_array_set_other (a : list Z) (n j : nat) (v d : Z) :
  j <> n -> nth j (array_set a n v) d = nth j a d.
Proof.
  revert n j. induction a as [|x a IH]; intros [|n] [|j] H; simpl; auto.
  contradiction.
Qed.

Lemma length_record_offsets (offs : list Z) :
  forall (mp : list Z) (k : Z),
    List.length (record_offsets mp k offs) = List.length mp.
Proof.
  induction offs as [|o offs IH]; intros mp k; simpl; [reflexivity |].
  rewrite IH. destruct (k <? markerPosMax); [apply length_array_set | reflexivity].
Qed.

(** A slot that no offset of the run falls on keeps its old value. *)
Lemma nth_record_offsets_other (offs : list Z) :
  forall (mp : list Z) (k : Z) (j : nat) (d : Z),
    0 <= k ->
    Z.of_nat j < k \/ k + Z.of_nat (List.length offs) <= Z.of_nat j \/ markerPosMax <= Z.of_nat j ->
    nth j (record_offsets mp k offs) d = nth j mp d.
Proof.
  induction offs as [|o offs IH]; intros mp k j d Hk Hj; simpl; [reflexivity |].
  rewrite IH by (simpl List.length in Hj; lia).
  destruct (Z.ltb_spec k markerPosMax); [|reflexivity].
  apply nth_array_set_other. simpl List.length in Hj. lia.
Qed.

(** A slot below [markerPosMax] that an offset of the run falls on holds
    that offset, cut to 8 bits. *)
Lemma nth_record_offsets_hit (offs : list Z) :
  forall (mp : list Z) (k : Z) (j : nat) (d : Z),
    0 <= k ->
    k <= Z.of_nat j < k + Z.of_nat (List.length offs) ->
    Z.of_nat j < markerPosMax ->
    (j < List.length mp)%nat ->
    nth j (record_offsets mp k offs) d = to_uint8 (nth (Z.to_nat (Z.of_nat j - k)) offs 0).
Proof.
  induction offs as [|o offs IH]; intros mp k j d Hk Hj H5 Hlen;
    simpl List.length in Hj; [lia |].
  cbn [record_offsets].
  destruct (Z.eq_dec (Z.of_nat j) k) as [Heq | Hne].
  - rewrite nth_record_offsets_other by lia.
    destruct (Z.ltb_spec k markerPosMax); [|lia].
    subst k. rewrite Nat2Z.id, Z.sub_diag. simpl.
    now apply nth_array_set_same.
  - rewrite IH; try lia.
    + replace (Z.to_nat (Z.of_nat j - k)) with (S (Z.to_nat (Z.of_nat j - (k + 1)))) by lia.
      reflexivity.
    + destruct (k <? markerPosMax); [rewrite length_array_set|]; exact Hlen.
Qed.

Lemma length_marker_offsets (ps : list Poll) (n : Z) :
  Z.of_nat (List.length (marker_offsets n ps)) = marker_count ps.
Proof.
  unfold marker_count. revert n.
  induction ps as [|[| |c] ps IH]; intros n; simpl; auto.
  destruct (Ascii.eqb c END_OF_RESPONSE); simpl; auto.
  specialize (IH n). lia.
Qed.

(** The offsets grow along the run and stay within the response. *)
Lemma marker_offsets_mono (ps : list Poll) :
  forall (n : Z) (j k : nat),
    (j <= k < List.length (marker_offsets n ps))%nat ->
    n <= nth j (marker_offsets n ps) 0 /\
    nth j (marker_offsets n ps) 0 <= nth k (marker_offsets n ps) 0 /\
    nth k (marker_offsets n ps) 0 <= n + strlen (text_of ps).
Proof.
  induction ps as [|[| |c] ps IH]; intros n j k Hjk; simpl in *; try lia; auto.
  destruct (Ascii.eqb c END_OF_RESPONSE); simpl in *.
  - destruct k as [|k'].
    + assert (j = 0)%nat by lia. subst j.
      pose proof (strlen_nonneg (text_of ps)). lia.
    + destruct j as [|j'].
      * destruct (IH n k' k') as (H1 & H2 & H3); lia.
      * destruct (IH n j' k') as (H1 & H2 & H3); lia.
  - rewrite strlen_append.
    destruct (IH (n + strlen (String_of_char c)) j k Hjk) as (H1 & H2 & H3).
    pose proof (strlen_nonneg (String_of_char c)). lia.
Qed.

(** ** The loop ends when the timer runs out *)

Section Termination.

Variable buffer : string.
Variable timeout : Z.
Variable expectedMarkerCount : Z.

Lemma send_next_sending (st : Loop) (w : World) (t : Z) (rest : list Z) :
  (i st < String.length buffer)%nat ->
  clock w = t :: rest ->
  exists st1 w1,
    send_next buffer st w = Some (st1, w1) /\
    i st1 = S (i st) /\ startTime st1 = to_ulong t /\ clock w1 = rest.
Proof.
  intros Hi Hc. unfold send_next.
  destruct (Nat.ltb_spec (i st) (String.length buffer)); [|lia].
  unfold bind, emit, delay, emit, millis, ret. simpl. rewrite Hc.
  eexists _, _. split; [reflexivity |]. simpl. auto.
Qed.

Lemma send_next_done (st : Loop) (w : World) :
  (String.length buffer <= i st)%nat ->
  send_next buffer st w = Some (st, w).
Proof.
  intros Hi. unfold send_next.
  destruct (Nat.ltb_spec (i st) (String.length buffer)); [lia | reflexivity].
Qed.

Lemma poll_total (w : World) :
  exists p w', poll w = Some (p, w') /\ clock w' = clock w.
Proof.
  unfold poll. destruct (inbound w); eexists _, _; split; reflexivity.
Qed.

(** After the timer test, a pass either leaves the loop or goes round
    again with the same [i] and [startTime]. *)
Lemma after_poll (fuel : nat) (st : Loop) (w : World) :
  (forall st2 w2,
      i st2 = i st -> startTime st2 = startTime st -> clock w2 = clock w ->
      exists r, sendBuffer_loop fuel buffer timeout expectedMarkerCount st2 w2 = Some r) ->
  exists r,
    (rx <- poll ;;
     match rx with
     | Quiet => sendBuffer_loop fuel buffer timeout expectedMarkerCount st
     | ReadNothing => sendBuffer_loop fuel buffer timeout expectedMarkerCount st
     | Got rxChar =>
         if Ascii.eqb rxChar END_OF_RESPONSE then
           let st := mark st in
           if actualMarkerCount st >=? expectedMarkerCount then ret st
           else sendBuffer_loop fuel buffer timeout expectedMarkerCount st
         else
           sendBuffer_loop fuel buffer timeout expectedMarkerCount (keep st rxChar)
     end) w = Some r.
Proof.
  intros Hnext.
  destruct (poll_total w) as (p & w' & Hp & Hc).
  rewrite (bind_step _ _ _ _ _ Hp).
  destruct p as [| |c]; try (apply Hnext; auto).
  destruct (Ascii.eqb c END_OF_RESPONSE); cbv zeta.
  - destruct (actualMarkerCount (mark st) >=? expectedMarkerCount).
    + eexists. reflexivity.
    + apply Hnext; auto.
  - apply Hnext; auto.
Qed.

Lemma sendBuffer_loop_expires (fuel : nat) :
  forall (st : Loop) (w : World),
    (List.length (clock w) < fuel)%nat ->
    expires timeout (String.length buffer - i st) (startTime st) (clock w) ->
    exists r, sendBuffer_loop fuel buffer timeout expectedMarkerCount st w = Some r.
Proof.
  induction fuel as [|fuel IH]; intros st w Hfuel Hexp; [lia |].
  cbn [sendBuffer_loop].
  destruct (Nat.ltb_spec (i st) (String.length buffer)) as [Hlt | Hge].
  - (* a character is still to be written *)
    destruct (String.length buffer - i st)%nat as [|unsent] eqn:Hn; [lia |].
    cbn [expires] in Hexp.
    destruct (clock w) as [|t1 [|t2 rest]] eqn:Hc; try contradiction.
    destruct (send_next_sending st w t1 (t2 :: rest) Hlt Hc)
      as (st1 & w1 & Hs & Hi1 & Hs1 & Hc1).
    rewrite (bind_step _ _ _ _ _ Hs).
    assert (Hm : millis w1 = Some (to_ulong t2, ticked w1)).
    { rewrite millis_ticked; rewrite Hc1; [reflexivity | discriminate]. }
    rewrite (bind_step _ _ _ _ _ Hm).
    destruct (timed_out (startTime st1) (to_ulong t2) timeout); [eexists; reflexivity |].
    apply after_poll. intros st2 w2 Hi2 Hs2 Hc2.
    apply IH.
    + rewrite Hc2. unfold ticked. simpl. rewrite Hc1. simpl in *. lia.
    + rewrite Hc2, Hi2, Hs2, Hi1, Hs1. unfold ticked. simpl. rewrite Hc1. simpl.
      replace (String.length buffer - S (i st))%nat with unsent by lia.
      exact Hexp.
  - (* everything is written: only the timer and the polls are left *)
    replace (String.length buffer - i st)%nat with 0%nat in Hexp by lia.
    cbn [expires] in Hexp.
    rewrite (bind_step _ _ _ _ _ (send_next_done st w Hge)).
    destruct (clock w) as [|t rest] eqn:Hc; [inversion Hexp |].
    assert (Hm : millis w = Some (to_ulong t, ticked w)).
    { rewrite millis_ticked; rewrite Hc; [reflexivity | discriminate]. }
    rewrite (bind_step _ _ _ _ _ Hm).
    destruct (timed_out (startTime st) (to_ulong t) timeout) eqn:Hto; [eexists; reflexivity |].
    apply after_poll. intros st2 w2 Hi2 Hs2 Hc2.
    apply IH.
    + rewrite Hc2. unfold ticked. simpl. rewrite Hc. simpl in *. lia.
    + rewrite Hc2, Hi2, Hs2. unfold ticked. simpl. rewrite Hc. simpl.
      replace (String.length buffer - i st)%nat with 0%nat by lia.
      cbn [expires]. inversion Hexp; subst; [congruence | assumption].
Qed.

End Termination.

(** [sendBuffer] returns as soon as the timer of the exchange runs out. *)
Lemma sendBuffer_returns (self : Wisol) (buffer : string) (timeout e a0 : Z)
      (mp0 : list Z) (w : World) (t : Z) (rest : list Z) :
  clock w = t :: rest ->
  expires timeout (String.length buffer) (to_ulong t) rest ->
  exists r w', sendBuffer self buffer timeout e a0 mp0 w = Some (r, w').
Proof.
  intros Hc Hexp.
  destruct (useEmulator self) eqn:Hemu.
  - unfold sendBuffer. rewrite Hemu.
    rewrite (bind_step _ _ _ _ _ (log2_echoed _ _ _)). eexists _, _. reflexivity.
  - assert (Hne : clock w <> []) by (rewrite Hc; discriminate).
    pose proof (sendBuffer_unfold self buffer timeout e a0 mp0 w Hemu Hne) as Hu.
    destruct (sendBuffer_loop_expires buffer timeout e
                (S (List.length (clock (listening buffer w))))
                (loop_start w mp0) (listening buffer w)) as ([st wl] & Hrun).
    + lia.
    + unfold loop_start, listening, ticked. simpl. rewrite Hc. simpl.
      rewrite Nat.sub_0_r. exact Hexp.
    + rewrite Hrun in Hu. destruct Hu as (s & Hs). eexists _, _. exact Hs.
Qed.

(** ** What an exchange returns *)

(** A completed exchange outside emulator mode, in terms of the polls it
    used up. *)
Lemma sendBuffer_exchange (self : Wisol) (buffer : string) (timeout e a0 : Z)
      (mp0 : list Z) (w w' : World) (ok : bool) (resp : string) (amc : Z) (mp : list Z) :
  useEmulator self = false ->
  e < 256 ->
  sendBuffer self buffer timeout e a0 mp0 w = Some ((ok, resp, amc, mp), w') ->
  exists ps,
    inbound w = (ps ++ inbound w')%list /\
    resp = text_of ps /\
    amc = marker_count ps /\
    mp = record_offsets mp0 0 (marker_offsets 0 ps) /\
    ok = negb (amc <? e).
Proof.
  intros Hemu He Hrun.
  assert (Hne : clock w <> []).
  { intros Hnil. unfold sendBuffer in Hrun. rewrite Hemu in Hrun.
    rewrite (bind_step _ _ _ _ _ (log2_echoed _ _ _)) in Hrun.
    unfold bind, emit, delay, emit, millis in Hrun. simpl in Hrun.
    rewrite Hnil in Hrun. discriminate. }
  pose proof (sendBuffer_unfold self buffer timeout e a0 mp0 w Hemu Hne) as Hu.
  destruct (sendBuffer_loop _ buffer timeout e (loop_start w mp0) (listening buffer w))
    as [[st wl]|] eqn:Hloop.
  2: { rewrite Hu in Hrun. discriminate. }
  destruct Hu as (s & Hs). rewrite Hs in Hrun. inversion Hrun; subst.
  destruct (sendBuffer_loop_run buffer timeout e _ _ _ _ _ Hloop He) as (ps & Hps & Hr & Ha & Hmp).
  - simpl. lia.
  - simpl. auto.
  - exists ps. simpl in *. auto.
Qed.

(** C5 (as amended): after an exchange outside emulator mode whose
    response is shorter than 256 characters, the recorded marker positions
    [markerPos[0 .. min (actualMarkerCount, 5) - 1]] never decrease and
    none is past the end of the response; two of them are equal when no
    character was kept between the two markers. *)
Theorem markerPos_never_decreases (self : Wisol) (buffer : string)
        (timeout expectedMarkerCount a0 : Z) (mp0 : list Z) (w w' : World)
        (ok : bool) (resp : string) (amc : Z) (mp : list Z) (j k : nat) :
  useEmulator self = false ->
  0 <= expectedMarkerCount < 256 ->
  List.length mp0 = Z.to_nat markerPosMax ->
  sendBuffer self buffer timeout expectedMarkerCount a0 mp0 w = Some ((ok, resp, amc, mp), w') ->
  strlen resp < 256 ->
  (j <= k)%nat ->
  Z.of_nat k < Z.min amc markerPosMax ->
  0 <= nth j mp 0 /\ nth j mp 0 <= nth k mp 0 /\ nth k mp 0 <= strlen resp.
Proof.
  intros Hemu He Hlen Hrun Hshort Hjk Hk.
  destruct (sendBuffer_exchange _ _ _ _ _ _ _ _ _ _ _ _ Hemu (proj2 He) Hrun)
    as (ps & _ & Hresp & Hamc & Hmp & _).
  pose proof (length_marker_offsets ps 0) as Hn.
  assert (H5 : markerPosMax = 5) by reflexivity.
  assert (Hm : (j <= k < List.length (marker_offsets 0 ps))%nat) by lia.
  destruct (marker_offsets_mono ps 0 j k Hm) as (H1 & H2 & H3).
  subst mp resp.
  rewrite !nth_record_offsets_hit by lia.
  rewrite !Z.sub_0_r, !Nat2Z.id.
  unfold to_uint8. rewrite !Z.mod_small by lia. lia.
Qed.

Lemma markerPos_never_decreases_witness :
  exists w', sendBuffer real_driver ("AT" ++ CMD_END) 1000 3 0 markerPos_init back_to_back
               = Some ((true, "OK", 3, [0; 0; 2; 0; 0]), w') /\
             0 <= 0 /\ 0 <= 2 /\ 2 <= strlen "OK".
Proof.
  assert (Hrun : exists w',
             sendBuffer real_driver ("AT" ++ CMD_END) 1000 3 0 markerPos_init back_to_back
               = Some ((true, "OK", 3, [0; 0; 2; 0; 0]), w')).
  { eexists. vm_compute. reflexivity. }
  destruct Hrun as (w' & Hw'). exists w'. split; [exact Hw' |].
  apply (markerPos_never_decreases real_driver ("AT" ++ CMD_END) 1000 3 0 markerPos_init
           back_to_back w' true "OK" 3 [0; 0; 2; 0; 0] 1 2 eq_refl);
    [lia | reflexivity | exact Hw' | vm_compute; reflexivity | lia | vm_compute; reflexivity].
Defined.

(** C5 (as stated) fails: two markers with nothing kept between them are
    recorded at the same position. *)
Lemma markerPos_not_strictly_increasing :
  ~ (forall (self : Wisol) (buffer : string) (timeout expectedMarkerCount a0 : Z)
            (mp0 : list Z) (w w' : World) (ok : bool) (resp : string) (amc : Z)
            (mp : list Z) (j k : nat),
        sendBuffer self buffer timeout expectedMarkerCount a0 mp0 w = Some ((ok, resp, amc, mp), w') ->
        (j < k)%nat ->
        Z.of_nat k < Z.min amc markerPosMax ->
        nth j mp 0 < nth k mp 0).
Proof.
  intros H.
  assert (Hrun : exists w',
             sendBuffer real_driver ("AT" ++ CMD_END) 1000 3 0 markerPos_init back_to_back
               = Some ((true, "OK", 3, [0; 0; 2; 0; 0]), w')).
  { eexists. vm_compute. reflexivity. }
  destruct Hrun as (w' & Hw').
  specialize (H _ _ _ _ _ _ _ _ _ _ _ _ 0%nat 1%nat Hw').
  simpl in H. apply (Z.lt_irrefl 0). apply H; [lia | reflexivity].
Qed.

(** ** Emulator mode *)

(** C10: in emulator mode [sendBuffer] returns true at once with an empty
    response; it only echoes the call, so the clock, the inbound stream
    and the serial port are as before, and [actualMarkerCount] and
    [markerPos] come back as they went in, whatever they held.  Outside
    emulator mode what [actualMarkerCount] held before the call makes no
    difference: the count starts from 0 there. *)
Theorem sendBuffer_emulator_bypass (self : Wisol) (buffer : string)
        (timeout expectedMarkerCount a0 : Z) (mp0 : list Z) (w : World) :
  (useEmulator self = true ->
     sendBuffer self buffer timeout expectedMarkerCount a0 mp0 w =
       Some ((true, "", a0, mp0), echoed w (" - Wisol.sendBuffer: " ++ buffer ++ CRLF)) /\
     clock (echoed w (" - Wisol.sendBuffer: " ++ buffer ++ CRLF)) = clock w /\
     inbound (echoed w (" - Wisol.sendBuffer: " ++ buffer ++ CRLF)) = inbound w /\
     trace (echoed w (" - Wisol.sendBuffer: " ++ buffer ++ CRLF)) = trace w) /\
  (useEmulator self = false ->
     forall a1,
       sendBuffer self buffer timeout expectedMarkerCount a0 mp0 w =
       sendBuffer self buffer timeout expectedMarkerCount a1 mp0 w).
Proof.
  split; intros Hemu.
  - unfold sendBuffer. rewrite Hemu.
    rewrite (bind_step _ _ _ _ _ (log2_echoed _ _ _)). repeat split.
  - intros a1. unfold sendBuffer. rewrite Hemu. reflexivity.
Qed.

Lemma sendBuffer_emulator_bypass_witness :
  sendBuffer emulated_driver ("AT" ++ CMD_END) 1000 1 3 [9; 8; 7; 6; 5] seven_markers =
    Some ((true, "", 3, [9; 8; 7; 6; 5]),
          echoed seven_markers (" - Wisol.sendBuffer: " ++ ("AT" ++ CMD_END) ++ CRLF)) /\
  sendBuffer real_driver ("AT" ++ CMD_END) 1000 1 3 [9; 8; 7; 6; 5] seven_markers =
  sendBuffer real_driver ("AT" ++ CMD_END) 1000 1 0 [9; 8; 7; 6; 5] seven_markers.
Proof.
  split.
  - exact (proj1 (proj1 (sendBuffer_emulator_bypass emulated_driver ("AT" ++ CMD_END) 1000 1 3
                            [9; 8; 7; 6; 5] seven_markers) eq_refl)).
  - exact (proj2 (sendBuffer_emulator_bypass real_driver ("AT" ++ CMD_END) 1000 1 3
                     [9; 8; 7; 6; 5] seven_markers) eq_refl 0).
Defined.

(** ** Command dispatcher *)

(** An exchange that expects one marker and fails has read none: the
    count it leaves is 0 and [markerPos] is as before. *)
Lemma sendBuffer_failed_one (self : Wisol) (buffer : string) (timeout a0 : Z)
      (mp0 : list Z) (w w' : World) (data : string) (markers1 : Z) (markerPos1 : list Z) :
  sendBuffer self buffer timeout 1 a0 mp0 w = Some ((false, data, markers1, markerPos1), w') ->
  markers1 = 0 /\ markerPos1 = mp0.
Proof.
  intros Hrun.
  destruct (useEmulator self) eqn:Hemu.
  - unfold sendBuffer in Hrun. rewrite Hemu in Hrun.
    rewrite (bind_step _ _ _ _ _ (log2_echoed _ _ _)) in Hrun. discriminate.
  - destruct (sendBuffer_exchange self buffer timeout 1 a0 mp0 w w' false data markers1
                markerPos1 Hemu eq_refl Hrun)
      as (ps & _ & _ & Hamc & Hmp & Hok).
    symmetry in Hok. apply negb_false_iff, Z.ltb_lt in Hok.
    pose proof (length_marker_offsets ps 0) as Hlen.
    assert (Hz : markers1 = 0) by (unfold marker_count in Hamc; lia).
    split; [exact Hz |].
    destruct (marker_offsets 0 ps); [exact Hmp | simpl in Hlen; lia].
Qed.

Lemma isReady_inbound (SEND_DELAY : Z) (self : Wisol) (w w2 : World) (ready : bool) :
  isReady SEND_DELAY self w = Some (ready, w2) -> inbound w2 = inbound w.
Proof.
  unfold isReady, bind, millis.
  destruct (clock w) as [|t rest]; [discriminate |].
  destruct (lastSend self =? 0); [intros H; inversion H; reflexivity |].
  destruct (_ <=? 2 * 1000).
  - rewrite log1_echoed. intros H. inversion H. reflexivity.
  - destruct (_ <=? SEND_DELAY).
    + rewrite log1_echoed. intros H. inversion H. reflexivity.
    + intros H. inversion H. reflexivity.
Qed.

Section DispatcherProperties.

Variable WISOL_COMMAND_TIMEOUT : Z.
Variable SEND_DELAY : Z.

Lemma sendMessage_unfold (self : Wisol) (markers0 : Z) (markerPos0 : list Z)
      (payload : string) (w : World) :
  sendMessage WISOL_COMMAND_TIMEOUT SEND_DELAY self markers0 markerPos0 payload w =
    match isReady SEND_DELAY self
            (echoed w (" - Wisol.sendMessage: " ++ (device self ++ "," ++ payload) ++ CRLF)) with
    | None => None
    | Some (false, w2) => Some ((false, self, markers0, markerPos0), w2)
    | Some (true, w2) =>
        match sendBuffer self (CMD_SEND_MESSAGE ++ payload ++ CMD_END)
                         WISOL_COMMAND_TIMEOUT 1 markers0 markerPos0 w2 with
        | None => None
        | Some ((false, data, markers1, markerPos1), w3) =>
            Some ((false, self, markers1, markerPos1), w3)
        | Some ((true, data, markers1, markerPos1), w3) =>
            match clock w3 with
            | [] => None
            | t :: _ =>
                Some ((true, set_lastSend self (to_ulong t), markers1, markerPos1),
                      ticked (echoed w3 (data ++ CRLF)))
            end
        end
    end.
Proof.
  unfold sendMessage.
  rewrite (bind_step _ _ _ _ _ (log2_echoed _ _ _)).
  unfold bind at 1.
  destruct (isReady SEND_DELAY self _) as [[[] w2]|]; try reflexivity.
  cbn [negb]. unfold exitCommandMode.
  unfold bind at 1. unfold ret at 1. cbn [negb].
  unfold bind at 1.
  destruct (sendBuffer self _ WISOL_COMMAND_TIMEOUT 1 markers0 markerPos0 w2)
    as [[[[[[] data] markers1] markerPos1] w3]|]; try reflexivity.
  rewrite (bind_step _ _ _ _ _ (log1_echoed _ _)).
  unfold bind, millis, ticked, echoed. simpl.
  destruct (clock w3); reflexivity.
Qed.

(** C4: [sendMessage] leaves the driver object as it is, [lastSend]
    included, when [isReady] refuses the send and when the exchange
    fails; when the exchange succeeds it returns the object with
    [lastSend] holding the clock reading taken right after the exchange
    and every other member as before.  Every completed call is one of the
    three.  (The file-level statics [markers] and [markerPos] are not
    members of the driver: a refused send leaves them alone, a failed
    exchange leaves 0 in [markers] and [markerPos] as it was, a successful
    one leaves in them what the exchange recorded.) *)
Theorem sendMessage_lastSend_frame (self : Wisol) (markers0 : Z) (markerPos0 : list Z)
        (payload : string) (w : World) :
  let w1 := echoed w (" - Wisol.sendMessage: " ++ (device self ++ "," ++ payload) ++ CRLF) in
  let message := CMD_SEND_MESSAGE ++ payload ++ CMD_END in
  (forall w2,
      isReady SEND_DELAY self w1 = Some (false, w2) ->
      sendMessage WISOL_COMMAND_TIMEOUT SEND_DELAY self markers0 markerPos0 payload w =
        Some ((false, self, markers0, markerPos0), w2)) /\
  (forall w2 data markers1 markerPos1 w3,
      isReady SEND_DELAY self w1 = Some (true, w2) ->
      sendBuffer self message WISOL_COMMAND_TIMEOUT 1 markers0 markerPos0 w2 =
        Some ((false, data, markers1, markerPos1), w3) ->
      sendMessage WISOL_COMMAND_TIMEOUT SEND_DELAY self markers0 markerPos0 payload w =
        Some ((false, self, markers1, markerPos1), w3) /\
      markers1 = 0 /\ markerPos1 = markerPos0) /\
  (forall w2 data markers1 markerPos1 w3 t rest,
      isReady SEND_DELAY self w1 = Some (true, w2) ->
      sendBuffer self message WISOL_COMMAND_TIMEOUT 1 markers0 markerPos0 w2 =
        Some ((true, data, markers1, markerPos1), w3) ->
      clock w3 = t :: rest ->
      sendMessage WISOL_COMMAND_TIMEOUT SEND_DELAY self markers0 markerPos0 payload w =
        Some ((true,
               mkWisol (country self) (useEmulator self) (device self) (to_ulong t)
                       (echoPort self) (lastEchoPort self),
               markers1, markerPos1),
              ticked (echoed w3 (data ++ CRLF)))) /\
  (forall ok self' markers1 markerPos1 w',
      sendMessage WISOL_COMMAND_TIMEOUT SEND_DELAY self markers0 markerPos0 payload w =
        Some ((ok, self', markers1, markerPos1), w') ->
      (ok = false ->
         self' = self /\ lastSend self' = lastSend self /\
         ((isReady SEND_DELAY self w1 = Some (false, w') /\
           markers1 = markers0 /\ markerPos1 = markerPos0) \/
          exists w2 data,
            isReady SEND_DELAY self w1 = Some (true, w2) /\
            sendBuffer self message WISOL_COMMAND_TIMEOUT 1 markers0 markerPos0 w2 =
              Some ((false, data, markers1, markerPos1), w') /\
            markers1 = 0 /\ markerPos1 = markerPos0)) /\
      (ok = true ->
         exists w2 data w3 t rest,
           isReady SEND_DELAY self w1 = Some (true, w2) /\
           sendBuffer self message WISOL_COMMAND_TIMEOUT 1 markers0 markerPos0 w2 =
             Some ((true, data, markers1, markerPos1), w3) /\
           clock w3 = t :: rest /\
           w' = ticked (echoed w3 (data ++ CRLF)) /\
           self' = mkWisol (country self) (useEmulator self) (device self) (to_ulong t)
                           (echoPort self) (lastEchoPort self) /\
           lastSend self' = to_ulong t /\
           country self' = country self /\
           useEmulator self' = useEmulator self /\
           device self' = device self /\
           echoPort self' = echoPort self /\
           lastEchoPort self' = lastEchoPort self)).
Proof.
  intros w1 message. subst w1 message.
  split; [|split; [|split]].
  - intros w2 Hr. rewrite sendMessage_unfold, Hr. reflexivity.
  - intros w2 data markers1 markerPos1 w3 Hr Hs.
    rewrite sendMessage_unfold, Hr, Hs. split; [reflexivity |].
    apply (sendBuffer_failed_one _ _ _ _ _ _ _ _ _ _ Hs).
  - intros w2 data markers1 markerPos1 w3 t rest Hr Hs Hc.
    rewrite sendMessage_unfold, Hr, Hs, Hc. reflexivity.
  - intros ok self' markers1 markerPos1 w' H.
    rewrite sendMessage_unfold in H.
    destruct (isReady SEND_DELAY self _) as [[[] w2]|] eqn:Hr; try discriminate.
    + destruct (sendBuffer self _ WISOL_COMMAND_TIMEOUT 1 markers0 markerPos0 w2)
        as [[[[[[] data] m1] mp1] w3]|] eqn:Hs; try discriminate.
      * destruct (clock w3) as [|t rest] eqn:Hc; [discriminate |].
        inversion H; subst. split; [discriminate |].
        intros _. exists w2, data, w3, t, rest.
        repeat (split; [first [assumption | reflexivity] |]). reflexivity.
      * inversion H; subst. split; [|discriminate].
        intros _. split; [reflexivity |]. split; [reflexivity |].
        right. exists w2, data. split; [reflexivity |]. split; [exact Hs |].
        apply (sendBuffer_failed_one _ _ _ _ _ _ _ _ _ _ Hs).
    + inversion H; subst. split; [|discriminate].
      intros _. split; [reflexivity |]. split; [reflexivity |].
      left. auto.
Qed.

End DispatcherProperties.

Lemma sendMessage_lastSend_frame_witness :
  (exists w', sendMessage 1000 600000 real_driver markers_init markerPos_init "4869" silent
                = Some ((false, real_driver, 0, markerPos_init), w')) /\
  (exists w', sendMessage 1000 600000 real_driver markers_init markerPos_init "4869"
                          (one_reply 11)
                = Some ((true, mkWisol 0 false "g88pi" 1400 SerialPort SerialPort,
                         1, markerPos_init), w')) /\
  lastSend real_driver = 0.
Proof.
  split; [|split; [|reflexivity]].
  - assert (Hrun : exists self' w',
               sendMessage 1000 600000 real_driver markers_init markerPos_init "4869" silent
                 = Some ((false, self', 0, markerPos_init), w')).
    { eexists _, _. vm_compute. reflexivity. }
    destruct Hrun as (self' & w' & Hw'). exists w'.
    destruct (sendMessage_lastSend_frame 1000 600000 real_driver markers_init markerPos_init
                "4869" silent) as (_ & _ & _ & Hframe).
    destruct (Hframe false self' 0 markerPos_init w' Hw') as [Hfail _].
    destruct (Hfail eq_refl) as [Hself _].
    rewrite Hself in Hw'. exact Hw'.
  - assert (Hrun : exists self' w',
               sendMessage 1000 600000 real_driver markers_init markerPos_init "4869"
                           (one_reply 11)
                 = Some ((true, self', 1, markerPos_init), w')).
    { eexists _, _. vm_compute. reflexivity. }
    destruct Hrun as (self' & w' & Hw'). exists w'.
    destruct (sendMessage_lastSend_frame 1000 600000 real_driver markers_init markerPos_init
                "4869" (one_reply 11)) as (_ & _ & _ & Hframe).
    destruct (Hframe true self' 1 markerPos_init w' Hw') as [_ Hdone].
    destruct (Hdone eq_refl) as (w2 & data & w3 & t & rest & Hr & Hs & Hc & _ & Hself & _).
    assert (Ht : to_ulong t = 1400).
    { vm_compute in Hr. inversion Hr; subst w2. clear Hr.
      vm_compute in Hs. inversion Hs; subst w3. clear Hs.
      inversion Hc. reflexivity. }
    rewrite Ht in Hself. rewrite Hself in Hw'. exact Hw'.
Defined.

Lemma sendString_payload_hex (str : string) :
  forall payload,
    sendString_payload str payload =
      payload ++ hex_of_bytes (map byte_of (list_ascii_of_string str)).
Proof.
  induction str as [|ch str IH]; intros payload; simpl.
  - now rewrite append_nil_r.
  - rewrite IH. unfold toHex. rewrite hex_concat_char. apply append_assoc.
Qed.

(** C6 (as amended): [sendString] echoes its argument, encodes every
    character of it as two hex digits and hands the whole encoding to
    [sendMessage]; it does not look at the length, so the payload has twice
    as many characters as the text, and stays within 24 only when the text
    has at most 12. *)
Theorem sendString_encodes_whole_text (WISOL_COMMAND_TIMEOUT SEND_DELAY : Z) (self : Wisol)
        (markers0 : Z) (markerPos0 : list Z) (str : string) (w : World) :
  let payload := hex_of_bytes (map byte_of (list_ascii_of_string str)) in
  sendString WISOL_COMMAND_TIMEOUT SEND_DELAY self markers0 markerPos0 str w =
    sendMessage WISOL_COMMAND_TIMEOUT SEND_DELAY self markers0 markerPos0 payload
                (echoed w (" - Wisol.sendString: " ++ str ++ CRLF)) /\
  String.length payload = (2 * String.length str)%nat /\
  ((String.length payload <= 24)%nat <-> (String.length str <= 12)%nat).
Proof.
  intros payload. subst payload.
  assert (Hlen : String.length (hex_of_bytes (map byte_of (list_ascii_of_string str)))
                 = (2 * String.length str)%nat).
  { rewrite length_hex_of_bytes, length_map.
    clear. induction str as [|c str IH]; simpl in *; lia. }
  split; [|split; [exact Hlen | rewrite Hlen; lia]].
  unfold sendString.
  rewrite (bind_step _ _ _ _ _ (log2_echoed _ _ _)).
  rewrite sendString_payload_hex. reflexivity.
Qed.

(** C6 (as stated) fails: a text of 13 characters is sent whole, 26 hex
    digits between the command prefix and the terminator. *)
Lemma sendString_sends_thirteen_characters :
  ~ (forall (WISOL_COMMAND_TIMEOUT SEND_DELAY : Z) (self : Wisol) (markers0 : Z)
            (markerPos0 : list Z) (str : string) (w w' : World)
            (r : bool * Wisol * Z * list Z),
        sendString WISOL_COMMAND_TIMEOUT SEND_DELAY self markers0 markerPos0 str w = Some (r, w') ->
        (String.length (written (trace w'))
         <= String.length (written (trace w))
            + String.length CMD_SEND_MESSAGE + 24 + String.length CMD_END)%nat).
Proof.
  intros H.
  assert (Hrun : exists self' w',
             sendString 1000 600000 real_driver markers_init markerPos_init
                        "Hello, world!" (one_reply 33)
               = Some ((true, self', 1, markerPos_init), w') /\
             written (trace w') = "AT$SF=48656c6c6f2c20776f726c6421" ++ CMD_END).
  { eexists _, _. vm_compute. split; reflexivity. }
  destruct Hrun as (self' & w' & Hw' & Hwr).
  specialize (H _ _ _ _ _ _ _ _ _ Hw'). rewrite Hwr in H.
  vm_compute in H. lia.
Qed.

(** ** A quiet line while sending, then the reply *)

Lemma timed_out_same (t timeout : Z) : timed_out t t timeout = false.
Proof.
  unfold timed_out, to_ulong. rewrite Z.sub_diag.
  rewrite Z.gtb_ltb. apply Z.ltb_ge. apply Z.mod_pos_bound. reflexivity.
Qed.

Section QuietSend.

Variable buffer : string.
Variable timeout : Z.
Variable expectedMarkerCount : Z.

Lemma send_next_eq (st : Loop) (w : World) (t : Z) (rest : list Z) :
  (i st < String.length buffer)%nat ->
  clock w = t :: rest ->
  send_next buffer st w =
    Some (mkLoop (S (i st)) (to_ulong t) (response st) (actualMarkerCount st) (markerPos st),
          mkWorld rest (inbound w) (trace w ++ sending buffer (i st) 1) (echo w)).
Proof.
  intros Hi Hc. unfold send_next.
  destruct (Nat.ltb_spec (i st) (String.length buffer)); [|lia].
  unfold bind, emit, delay, emit, millis, ret, sending. simpl. rewrite Hc.
  rewrite <- app_assoc. reflexivity.
Qed.

(** While the line is quiet and each pair of clock readings taken at a
    write is the same, the loop just writes the characters left. *)
Lemma sendBuffer_loop_quiet_send (n : nat) :
  forall (fuel : nat) (st : Loop) (w : World) (t : Z) (c : list Z) (q : list Poll),
    (i st + n = String.length buffer)%nat ->
    clock w = (repeat t (2 * n) ++ c)%list ->
    inbound w = (repeat Quiet n ++ q)%list ->
    sendBuffer_loop (n + fuel) buffer timeout expectedMarkerCount st w =
    sendBuffer_loop fuel buffer timeout expectedMarkerCount
      (mkLoop (String.length buffer)
              (match n with O => startTime st | S _ => to_ulong t end)
              (response st) (actualMarkerCount st) (markerPos st))
      (mkWorld c q (trace w ++ sending buffer (i st) n) (echo w)).
Proof.
  induction n as [|n IH]; intros fuel st w t c q Hi Hc Hq.
  - simpl in *. rewrite Nat.add_0_r in Hi. rewrite <- Hi, <- Hc, <- Hq.
    unfold sending. simpl. rewrite app_nil_r.
    destruct st, w. reflexivity.
  - replace (2 * S n)%nat with (S (S (2 * n))) in Hc by lia. simpl in Hc, Hq.
    change (S n + fuel)%nat with (S (n + fuel)).
    cbn [sendBuffer_loop].
    rewrite (bind_step _ _ _ _ _ (send_next_eq st w t _ ltac:(lia) Hc)).
    unfold bind at 1. unfold millis at 1. cbn [clock startTime].
    rewrite timed_out_same.
    unfold bind at 1. unfold poll at 1. cbn [inbound]. rewrite Hq.
    cbn [clock inbound trace echo].
    rewrite (IH fuel _ _ t c q); cbn [i clock inbound trace echo startTime response
                                        actualMarkerCount markerPos]; try lia; auto.
    + unfold sending. rewrite <- app_assoc, <- flat_map_app. 
      change (seq (i st) 1 ++ seq (S (i st)) n)%list with (seq (i st) (S n)).
      destruct n; reflexivity.
Qed.

(** With everything written, a marker that completes the count ends the
    loop, provided the timer has not run out. *)
Lemma sendBuffer_loop_last_marker (fuel : nat) (st : Loop) (w : World)
      (t : Z) (c : list Z) (q : list Poll) :
  (String.length buffer <= i st)%nat ->
  clock w = t :: c ->
  timed_out (startTime st) (to_ulong t) timeout = false ->
  inbound w = Got END_OF_RESPONSE :: q ->
  expectedMarkerCount <= actualMarkerCount (mark st) ->
  sendBuffer_loop (S fuel) buffer timeout expectedMarkerCount st w =
    Some (mark st, mkWorld c q (trace w) (echo w)).
Proof.
  intros Hi Hc Hto Hq He.
  cbn [sendBuffer_loop].
  rewrite (bind_step _ _ _ _ _ (send_next_done buffer st w Hi)).
  unfold bind at 1. unfold millis at 1. rewrite Hc, Hto.
  unfold bind at 1. unfold poll at 1. cbn [inbound]. rewrite Hq.
  rewrite Ascii.eqb_refl. cbv zeta.
  destruct (Z.geb_spec (actualMarkerCount (mark st)) expectedMarkerCount); [|lia].
  reflexivity.
Qed.

End QuietSend.

(** An exchange that expects one marker succeeds when the line is quiet
    while the command is written and the marker comes at the next poll. *)
Lemma sendBuffer_one_reply (self : Wisol) (buffer : string) (timeout a0 : Z)
      (mp0 : list Z) (w : World) (t1 t : Z) (c : list Z) (q : list Poll) :
  useEmulator self = false ->
  (0 < String.length buffer)%nat ->
  clock w = (t1 :: repeat t (2 * String.length buffer) ++ t :: c)%list ->
  inbound w = (repeat Quiet (String.length buffer) ++ Got END_OF_RESPONSE :: q)%list ->
  exists s,
    sendBuffer self buffer timeout 1 a0 mp0 w =
      Some ((true, "", 1, array_set mp0 0 0),
            mkWorld c q
              (trace w ++ [SerialBegin MODEM_BITS_PER_SECOND; Delay 200; SerialFlush; SerialListen]
                 ++ sending buffer 0 (String.length buffer) ++ [SerialEnd])
              (echo w ++ s)).
Proof.
  intros Hemu Hlen Hc Hq.
  assert (Hne : clock w <> []) by (rewrite Hc; discriminate).
  pose proof (sendBuffer_unfold self buffer timeout 1 a0 mp0 w Hemu Hne) as Hu.
  assert (Hcl : clock (listening buffer w) = (repeat t (2 * String.length buffer) ++ t :: c)%list).
  { unfold listening, ticked. simpl. now rewrite Hc. }
  assert (Hfuel : S (List.length (clock (listening buffer w)))
                  = (String.length buffer + S (S (String.length buffer + List.length c)))%nat).
  { rewrite Hcl, length_app, repeat_length. simpl. lia. }
  rewrite Hfuel in Hu.
  rewrite (sendBuffer_loop_quiet_send buffer timeout 1 (String.length buffer) _
             (loop_start w mp0) (listening buffer w) t (t :: c)
             (Got END_OF_RESPONSE :: q) eq_refl Hcl Hq) in Hu.
  rewrite (sendBuffer_loop_last_marker buffer timeout 1 _ _ _ t c q) in Hu.
  - destruct Hu as (s & Hs). rewrite Hs.
    unfold outcome, mark, echoed, traced, listening, ticked. simpl.
    eexists. rewrite <- !app_assoc. simpl. rewrite !append_assoc. reflexivity.
  - apply le_n.
  - reflexivity.
  - cbn [startTime]. destruct (String.length buffer); [lia | apply timed_out_same].
  - reflexivity.
  - vm_compute. discriminate.
Qed.

(** The same one level up: a first message ([lastSend] still 0) goes out
    whole and [lastSend] takes the reading that follows the exchange. *)
Lemma sendMessage_one_reply (WISOL_COMMAND_TIMEOUT SEND_DELAY : Z) (self : Wisol)
      (markers0 : Z) (markerPos0 : list Z) (payload : string) (w : World)
      (t0 t1 t t2 : Z) (c : list Z) (q : list Poll) :
  let message := CMD_SEND_MESSAGE ++ payload ++ CMD_END in
  useEmulator self = false ->
  lastSend self = 0 ->
  clock w = (t0 :: t1 :: repeat t (2 * String.length message) ++ t :: t2 :: c)%list ->
  inbound w = (repeat Quiet (String.length message) ++ Got END_OF_RESPONSE :: q)%list ->
  exists s,
    sendMessage WISOL_COMMAND_TIMEOUT SEND_DELAY self markers0 markerPos0 payload w =
      Some ((true, set_lastSend self (to_ulong t2), 1, array_set markerPos0 0 0),
            mkWorld c q
              (trace w ++ [SerialBegin MODEM_BITS_PER_SECOND; Delay 200; SerialFlush; SerialListen]
                 ++ sending message 0 (String.length message) ++ [SerialEnd])
              (echo w ++ s)).
Proof.
  intros message Hemu Hlast Hc Hq.
  rewrite sendMessage_unfold.
  unfold isReady. unfold bind at 1. unfold millis at 1. cbn [clock echoed].
  rewrite Hc, Hlast. cbn [Z.eqb ret].
  match goal with
  | |- context [sendBuffer self ?b ?x 1 ?a ?m ?v] =>
      destruct (sendBuffer_one_reply self b x a m v t1 t (t2 :: c) q Hemu) as (s & Hs);
        [simpl; lia | reflexivity | exact Hq | rewrite Hs]
  end.
  cbn [clock]. eexists. unfold ticked, echoed. cbn [clock inbound trace echo tl].
  rewrite !append_assoc. reflexivity.
Qed.

Lemma no_bytes_prefix (ps qs : list Poll) :
  (forall c, ~ In (Got c) (ps ++ qs)) ->
  text_of ps = "" /\ marker_count ps = 0 /\ marker_offsets 0 ps = [].
Proof.
  induction ps as [|[| |c] ps IH]; intros Hno; simpl; auto.
  - unfold marker_count in *. simpl. apply IH. intros c Hin. apply (Hno c). now right.
  - unfold marker_count in *. simpl. apply IH. intros c Hin. apply (Hno c). now right.
  - exfalso. apply (Hno c). now left.
Qed.

(** C9: the text "Hi" is encoded as "4869" and handed to [sendMessage];
    with a modem that answers the command with one end-of-response
    character, the driver writes ["AT$SF=4869\r"] on the serial port, reads
    that one marker and returns true, whatever the command timeout and the
    recommended send interval are.  Once [isReady] lets the send through,
    the call is one exchange of ["AT$SF=4869\r"] that expects one marker,
    and its result is the result of that exchange.  One marker is needed:
    outside emulator mode a modem that delivers no byte makes the call
    fail.  One marker is enough: the call returns at the first one, and
    the clock readings and polls that follow the reply, further markers
    included, are left unread. *)
Theorem sendString_Hi (WISOL_COMMAND_TIMEOUT SEND_DELAY : Z) :
  sendString_payload "Hi" "" = "4869" /\
  (forall self markers0 markerPos0 w,
      sendString WISOL_COMMAND_TIMEOUT SEND_DELAY self markers0 markerPos0 "Hi" w =
        sendMessage WISOL_COMMAND_TIMEOUT SEND_DELAY self markers0 markerPos0 "4869"
                    (echoed w (" - Wisol.sendString: " ++ "Hi" ++ CRLF))) /\
  (exists w',
    sendString WISOL_COMMAND_TIMEOUT SEND_DELAY real_driver markers_init markerPos_init
               "Hi" (one_reply 11)
      = Some ((true, set_lastSend real_driver 1400, 1, markerPos_init), w') /\
    written (trace w') = "AT$SF=4869" ++ String (char_of 13) "" /\
    inbound w' = []) /\
  (forall self markers0 markerPos0 w w2,
      isReady SEND_DELAY self
              (echoed (echoed w (" - Wisol.sendString: " ++ "Hi" ++ CRLF))
                      (" - Wisol.sendMessage: " ++ (device self ++ "," ++ "4869") ++ CRLF))
        = Some (true, w2) ->
      sendString WISOL_COMMAND_TIMEOUT SEND_DELAY self markers0 markerPos0 "Hi" w =
        match sendBuffer self ("AT$SF=4869" ++ String (char_of 13) "")
                         WISOL_COMMAND_TIMEOUT 1 markers0 markerPos0 w2 with
        | None => None
        | Some ((false, data, markers1, markerPos1), w3) =>
            Some ((false, self, markers1, markerPos1), w3)
        | Some ((true, data, markers1, markerPos1), w3) =>
            match clock w3 with
            | [] => None
            | t :: _ =>
                Some ((true,
                       mkWisol (country self) (useEmulator self) (device self) (to_ulong t)
                               (echoPort self) (lastEchoPort self),
                       markers1, markerPos1),
                      ticked (echoed w3 (data ++ CRLF)))
            end
        end) /\
  (forall self markers0 markerPos0 w ok self' markers1 markerPos1 w',
      useEmulator self = false ->
      (forall c, ~ In (Got c) (inbound w)) ->
      sendString WISOL_COMMAND_TIMEOUT SEND_DELAY self markers0 markerPos0 "Hi" w =
        Some ((ok, self', markers1, markerPos1), w') ->
      ok = false /\ self' = self) /\
  (forall c q, exists w',
      sendString WISOL_COMMAND_TIMEOUT SEND_DELAY real_driver markers_init markerPos_init
                 "Hi" (reply_and_more 11 c q)
        = Some ((true, mkWisol 0 false "g88pi" 1400 SerialPort SerialPort,
                 1, markerPos_init), w') /\
      written (trace w') = "AT$SF=4869" ++ String (char_of 13) "" /\
      inbound w' = q /\ clock w' = c).
Proof.
  split; [reflexivity |].
  assert (Hs : forall self markers0 markerPos0 w,
      sendString WISOL_COMMAND_TIMEOUT SEND_DELAY self markers0 markerPos0 "Hi" w =
        sendMessage WISOL_COMMAND_TIMEOUT SEND_DELAY self markers0 markerPos0 "4869"
                    (echoed w (" - Wisol.sendString: " ++ "Hi" ++ CRLF))).
  { intros. unfold sendString.
    rewrite (bind_step _ _ _ _ _ (log2_echoed _ _ _)). reflexivity. }
  split; [exact Hs |].
  split; [|split; [|split]].
  - rewrite Hs.
    destruct (sendMessage_one_reply WISOL_COMMAND_TIMEOUT SEND_DELAY real_driver
                markers_init markerPos_init "4869"
                (echoed (one_reply 11) (" - Wisol.sendString: " ++ "Hi" ++ CRLF))
                1000 1200 1300 1400 [] [] eq_refl eq_refl eq_refl eq_refl) as (s & Hrun).
    rewrite Hrun. eexists. split; [reflexivity |]. split; reflexivity.
  - intros self markers0 markerPos0 w w2 Hr.
    rewrite Hs, sendMessage_unfold, Hr. reflexivity.
  - intros self markers0 markerPos0 w ok self' markers1 markerPos1 w' Hemu Hno Hrun.
    rewrite Hs, sendMessage_unfold in Hrun.
    destruct (isReady SEND_DELAY self _) as [[[] w2]|] eqn:Hr; try discriminate.
    + apply isReady_inbound in Hr. cbn [echoed inbound] in Hr.
      destruct (sendBuffer self _ WISOL_COMMAND_TIMEOUT 1 markers0 markerPos0 w2)
        as [[[[[okb data] m1] mp1] w3]|] eqn:Hb; [|discriminate].
      destruct (sendBuffer_exchange self _ WISOL_COMMAND_TIMEOUT 1 markers0 markerPos0 w2 w3
                  okb data m1 mp1 Hemu eq_refl Hb) as (ps & Hin & _ & Hamc & _ & Hok).
      rewrite Hr in Hin. rewrite Hin in Hno.
      destruct (no_bytes_prefix ps (inbound w3) Hno) as (_ & Hcount & _).
      rewrite Hcount in Hamc. subst m1. simpl in Hok. subst okb.
      inversion Hrun; subst. auto.
    + inversion Hrun; subst. auto.
  - intros c q. rewrite Hs.
    destruct (sendMessage_one_reply WISOL_COMMAND_TIMEOUT SEND_DELAY real_driver
                markers_init markerPos_init "4869"
                (echoed (reply_and_more 11 c q) (" - Wisol.sendString: " ++ "Hi" ++ CRLF))
                1000 1200 1300 1400 c q eq_refl eq_refl eq_refl eq_refl) as (s & Hrun).
    rewrite Hrun. eexists. split; [reflexivity |].
    split; [reflexivity |]. split; reflexivity.
Qed.

Lemma sendString_Hi_witness :
  exists w',
    sendString 1000 600000 real_driver markers_init markerPos_init "Hi" silent
      = Some ((false, real_driver, 0, markerPos_init), w').
Proof.
  assert (Hrun : exists ok self' w',
             sendString 1000 600000 real_driver markers_init markerPos_init "Hi" silent
               = Some ((ok, self', 0, markerPos_init), w')).
  { eexists _, _, _. vm_compute. reflexivity. }
  destruct Hrun as (ok & self' & w' & Hw'). exists w'.
  destruct (sendString_Hi 1000 600000) as (_ & _ & _ & _ & Hneeded & _).
  destruct (Hneeded real_driver markers_init markerPos_init silent ok self' 0 markerPos_init w'
              eq_refl ltac:(intros c []) Hw') as (Hok & Hself).
  rewrite Hok, Hself in Hw'. exact Hw'.
Defined.

(** ** The fuel of the loop *)

Section Fuel.

Variable buffer : string.
Variable timeout : Z.
Variable expectedMarkerCount : Z.

Lemma send_next_clock (st st1 : Loop) (w w1 : World) :
  send_next buffer st w = Some (st1, w1) ->
  (List.length (clock w1) <= List.length (clock w))%nat.
Proof.
  unfold send_next. destruct (i st <? String.length buffer)%nat.
  - unfold bind, emit, delay, emit, millis, ret. simpl.
    destruct (clock w) as [|t rest]; [discriminate |].
    intros H. inversion H; subst. simpl. lia.
  - unfold ret. intros H. inversion H; subst. lia.
Qed.

(** Any fuel above the number of clock readings left gives the same run:
    the loop stops waiting only when the readings are used up. *)
Lemma sendBuffer_loop_fuel (fuel1 : nat) :
  forall (fuel2 : nat) (st : Loop) (w : World),
    (List.length (clock w) < fuel1)%nat ->
    (List.length (clock w) < fuel2)%nat ->
    sendBuffer_loop fuel1 buffer timeout expectedMarkerCount st w =
    sendBuffer_loop fuel2 buffer timeout expectedMarkerCount st w.
Proof.
  induction fuel1 as [|fuel1 IH]; intros [|fuel2] st w H1 H2; try lia.
  cbn [sendBuffer_loop]. unfold bind.
  destruct (send_next buffer st w) as [[st1 w1]|] eqn:Hs; [|reflexivity].
  pose proof (send_next_clock _ _ _ _ Hs) as Hc1.
  destruct (millis w1) as [[t w2]|] eqn:Hm; [|reflexivity].
  destruct (millis_inv _ _ _ Hm) as (r & Hc2 & _).
  rewrite Hc2 in Hc1. simpl in Hc1.
  destruct (timed_out (startTime st1) t timeout); [reflexivity |].
  destruct (poll w2) as [[p w3]|] eqn:Hp; [|reflexivity].
  destruct (poll_inv _ _ _ Hp) as (Hc3 & _).
  assert (Hnext : forall st2,
    sendBuffer_loop fuel1 buffer timeout expectedMarkerCount st2 w3 =
    sendBuffer_loop fuel2 buffer timeout expectedMarkerCount st2 w3).
  { intros st2. apply IH; rewrite Hc3; lia. }
  destruct p as [| |c]; try apply Hnext.
  destruct (Ascii.eqb c END_OF_RESPONSE); cbv zeta; [|apply Hnext].
  destruct (actualMarkerCount (mark st1) >=? expectedMarkerCount); [reflexivity | apply Hnext].
Qed.

End Fuel.

(** * Further properties of the transport *)

(** ** What the loop does to the port and to the response *)

Lemma sending_app (buffer : string) (k a b : nat) :
  sending buffer k (a + b) = (sending buffer k a ++ sending buffer (k + a) b)%list.
Proof. unfold sending. now rewrite seq_app, flat_map_app. Qed.

Lemma sending_nil (buffer : string) (k : nat) : sending buffer k 0 = [].
Proof. reflexivity. Qed.

Section LoopEffects.

Variable buffer : string.
Variable timeout : Z.
Variable expectedMarkerCount : Z.

Lemma send_next_effects (st st1 : Loop) (w w1 : World) :
  send_next buffer st w = Some (st1, w1) ->
  echo w1 = echo w /\
  (((i st < String.length buffer)%nat /\ i st1 = S (i st) /\
    trace w1 = (trace w ++ sending buffer (i st) 1)%list) \/
   ((String.length buffer <= i st)%nat /\ i st1 = i st /\ trace w1 = trace w)).
Proof.
  unfold send_next.
  destruct (Nat.ltb_spec (i st) (String.length buffer)) as [Hlt | Hge].
  - unfold bind, emit, delay, emit, millis, ret, sending. simpl.
    destruct (clock w); [discriminate |].
    intros H. inversion H; subst. simpl. rewrite <- app_assoc. auto.
  - unfold ret. intros H. inversion H; subst. auto.
Qed.

(** A completed run of the loop: the polls it used up, the response it
    built from them, and the characters it wrote. *)
Lemma sendBuffer_loop_effects (fuel : nat) :
  forall (st st' : Loop) (w w' : World),
    sendBuffer_loop fuel buffer timeout expectedMarkerCount st w = Some (st', w') ->
    (i st <= String.length buffer)%nat ->
    exists ps,
      inbound w = (ps ++ inbound w')%list /\
      response st' = response st ++ text_of ps /\
      (i st <= i st' <= String.length buffer)%nat /\
      trace w' = (trace w ++ sending buffer (i st) (i st' - i st))%list /\
      echo w' = echo w.
Proof.
  induction fuel as [|fuel IH]; intros st st' w w' Hrun Hi; [discriminate |].
  cbn [sendBuffer_loop] in Hrun. unfold bind in Hrun.
  destruct (send_next buffer st w) as [[st1 w1]|] eqn:Hs; [|discriminate].
  destruct (send_next_inv _ _ _ _ _ Hs) as (Hr1 & _ & _ & Hi1).
  destruct (send_next_effects _ _ _ _ Hs) as (He1 & Hsent).
  destruct (millis w1) as [[t w2]|] eqn:Hm; [|discriminate].
  destruct (millis_inv _ _ _ Hm) as (r & _ & _ & Hi2 & Ht2 & He2).
  assert (Hstep : (i st <= i st1 <= String.length buffer)%nat /\
                  trace w2 = (trace w ++ sending buffer (i st) (i st1 - i st))%list).
  { destruct Hsent as [(Hlt & Hn & Ht) | (Hge & Hn & Ht)]; rewrite Hn, Ht2, Ht.
    - replace (S (i st) - i st)%nat with 1%nat by lia. split; [lia | reflexivity].
    - rewrite Nat.sub_diag, sending_nil, app_nil_r. split; [lia | reflexivity]. }
  destruct Hstep as (Hb1 & Htr2).
  assert (Hdone : forall st2 w3 ps,
    i st2 = i st1 -> response st2 = response st ++ text_of ps ->
    inbound w = (ps ++ inbound w3)%list -> trace w3 = trace w2 -> echo w3 = echo w ->
    Some (st2, w3) = Some (st', w') ->
    exists ps,
      inbound w = (ps ++ inbound w')%list /\
      response st' = response st ++ text_of ps /\
      (i st <= i st' <= String.length buffer)%nat /\
      trace w' = (trace w ++ sending buffer (i st) (i st' - i st))%list /\
      echo w' = echo w).
  { intros st2 w3 ps Hi3 Hr3 Hin3 Ht3 He3 Heq. inversion Heq; subst st' w'.
    exists ps. rewrite Hi3, Ht3. auto. }
  assert (Hmore : forall st2 w3 pre,
    i st2 = i st1 -> response st2 = response st ++ text_of pre ->
    inbound w = (pre ++ inbound w3)%list -> trace w3 = trace w2 -> echo w3 = echo w ->
    (forall ps, text_of (pre ++ ps) = text_of pre ++ text_of ps) ->
    sendBuffer_loop fuel buffer timeout expectedMarkerCount st2 w3 = Some (st', w') ->
    exists ps,
      inbound w = (ps ++ inbound w')%list /\
      response st' = response st ++ text_of ps /\
      (i st <= i st' <= String.length buffer)%nat /\
      trace w' = (trace w ++ sending buffer (i st) (i st' - i st))%list /\
      echo w' = echo w).
  { intros st2 w3 pre Hi3 Hr3 Hin3 Ht3 He3 Htxt Hk.
    destruct (IH _ _ _ _ Hk) as (ps & Hps & Hr & Hb & Htr & He); [lia |].
    rewrite Hi3 in Hb, Htr.
    exists (pre ++ ps)%list. rewrite <- app_assoc, <- Hps, Htxt, <- append_assoc, <- Hr3.
    repeat split; auto; try lia.
    - rewrite Htr, Ht3, Htr2, <- app_assoc. f_equal.
      replace (i st' - i st)%nat with ((i st1 - i st) + (i st' - i st1))%nat by lia.
      rewrite sending_app.
      replace (i st + (i st1 - i st))%nat with (i st1) by lia.
      reflexivity.
    - now rewrite He, He3. }
  destruct (timed_out (startTime st1) t timeout).
  { apply (Hdone st1 w2 []); auto; simpl.
    - now rewrite append_nil_r.
    - congruence.
    - congruence. }
  destruct (poll w2) as [[p w3]|] eqn:Hp; [|discriminate].
  assert (Hw3 : trace w3 = trace w2 /\ echo w3 = echo w2).
  { unfold poll in Hp. destruct (inbound w2); inversion Hp; subst; auto. }
  destruct Hw3 as (Ht3 & He3).
  destruct (poll_inv _ _ _ Hp) as (_ & Hin).
  assert (Hecho : echo w3 = echo w) by congruence.
  destruct Hin as [(Hnil & Hq & Hnil') | Hcons].
  - subst p. apply (Hmore st1 w3 []); auto; simpl.
    + now rewrite append_nil_r.
    + congruence.
  - assert (Hinb : inbound w = ([p] ++ inbound w3)%list) by (simpl; congruence).
    destruct p as [| |c].
    + apply (Hmore st1 w3 [Quiet]); auto. simpl. now rewrite append_nil_r.
    + apply (Hmore st1 w3 [ReadNothing]); auto. simpl. now rewrite append_nil_r.
    + destruct (Ascii.eqb c END_OF_RESPONSE) eqn:Hc; cbv zeta in Hrun.
      * assert (Htx : response (mark st1) = response st ++ text_of [Got c]).
        { simpl. rewrite Hc, append_nil_r. exact Hr1. }
        destruct (actualMarkerCount (mark st1) >=? expectedMarkerCount).
        -- apply (Hdone (mark st1) w3 [Got c]); auto.
        -- apply (Hmore (mark st1) w3 [Got c]); auto.
           intros ps. simpl. now rewrite Hc.
      * apply (Hmore (keep st1 c) w3 [Got c]); auto.
        -- simpl. rewrite Hc, append_nil_r, Hr1. reflexivity.
        -- intros ps. simpl. rewrite Hc, append_nil_r. reflexivity.
Qed.

(** The count never passes the expected number (or 1, when none is
    expected): the loop leaves at the marker that completes it. *)
Lemma sendBuffer_loop_count_bound (fuel : nat) :
  forall (st st' : Loop) (w w' : World),
    sendBuffer_loop fuel buffer timeout expectedMarkerCount st w = Some (st', w') ->
    expectedMarkerCount < 256 ->
    0 <= actualMarkerCount st ->
    actualMarkerCount st = 0 \/ actualMarkerCount st < expectedMarkerCount ->
    actualMarkerCount st' <= Z.max expectedMarkerCount 1.
Proof.
  induction fuel as [|fuel IH]; intros st st' w w' Hrun He H0 Hlt; [discriminate |].
  cbn [sendBuffer_loop] in Hrun. unfold bind in Hrun.
  destruct (send_next buffer st w) as [[st1 w1]|] eqn:Hs; [|discriminate].
  destruct (send_next_inv _ _ _ _ _ Hs) as (_ & Ha1 & _ & _).
  rewrite <- Ha1 in *.
  destruct (millis w1) as [[t w2]|]; [|discriminate].
  destruct (timed_out (startTime st1) t timeout).
  { inversion Hrun; subst. lia. }
  destruct (poll w2) as [[p w3]|]; [|discriminate].
  destruct p as [| |c]; try (apply (IH _ _ _ _ Hrun); auto).
  destruct (Ascii.eqb c END_OF_RESPONSE); cbv zeta in Hrun.
  - pose proof (mark_count expectedMarkerCount st1 He H0 Hlt) as Hmk.
    destruct (actualMarkerCount (mark st1) >=? expectedMarkerCount) eqn:Hge.
    + inversion Hrun; subst. lia.
    + rewrite Z.geb_leb in Hge. apply Z.leb_gt in Hge.
      apply (IH _ _ _ _ Hrun); auto; lia.
  - apply (IH _ _ _ _ Hrun); auto.
Qed.

End LoopEffects.

(** ** [sendBuffer] seen from its caller *)

Lemma sendBuffer_inv (self : Wisol) (buffer : string) (timeout e a0 : Z)
      (mp0 : list Z) (w w' : World) (r : bool * string * Z * list Z) :
  useEmulator self = false ->
  sendBuffer self buffer timeout e a0 mp0 w = Some (r, w') ->
  exists st wl s,
    sendBuffer_loop (S (List.length (clock (listening buffer w)))) buffer timeout e
                    (loop_start w mp0) (listening buffer w) = Some (st, wl) /\
    r = outcome e st /\
    w' = echoed (traced wl [SerialEnd]) s.
Proof.
  intros Hemu Hrun.
  assert (Hne : clock w <> []).
  { intros Hnil. unfold sendBuffer in Hrun. rewrite Hemu in Hrun.
    rewrite (bind_step _ _ _ _ _ (log2_echoed _ _ _)) in Hrun.
    unfold bind, emit, delay, emit, millis in Hrun. simpl in Hrun.
    rewrite Hnil in Hrun. discriminate. }
  pose proof (sendBuffer_unfold self buffer timeout e a0 mp0 w Hemu Hne) as Hu.
  destruct (sendBuffer_loop _ buffer timeout e (loop_start w mp0) (listening buffer w))
    as [[st wl]|] eqn:Hloop.
  2: { rewrite Hu in Hrun. discriminate. }
  destruct Hu as (s & Hs). rewrite Hs in Hrun. inversion Hrun; subst.
  exists st, wl, s. auto.
Qed.

Lemma marker_count_app (ps qs : list Poll) :
  marker_count (ps ++ qs) = marker_count ps + marker_count qs.
Proof.
  unfold marker_count. rewrite filter_app, length_app. lia.
Qed.

Lemma marker_count_nonneg (ps : list Poll) : 0 <= marker_count ps.
Proof. unfold marker_count. lia. Qed.

(** X1: outside emulator mode [sendBuffer] never reports success when the
    inbound stream holds fewer end-of-response characters than expected,
    and it never counts more of them than the stream holds. *)
Theorem sendBuffer_needs_enough_markers (self : Wisol) (buffer : string)
        (timeout expectedMarkerCount a0 : Z) (mp0 : list Z) (w w' : World)
        (ok : bool) (resp : string) (amc : Z) (mp : list Z) :
  useEmulator self = false ->
  0 <= expectedMarkerCount < 256 ->
  sendBuffer self buffer timeout expectedMarkerCount a0 mp0 w = Some ((ok, resp, amc, mp), w') ->
  amc <= marker_count (inbound w) /\
  (marker_count (inbound w) < expectedMarkerCount -> ok = false).
Proof.
  intros Hemu He Hrun.
  destruct (sendBuffer_exchange _ _ _ _ _ _ _ _ _ _ _ _ Hemu (proj2 He) Hrun)
    as (ps & Hin & _ & Hamc & _ & Hok).
  assert (Hle : amc <= marker_count (inbound w)).
  { rewrite Hin, marker_count_app, Hamc.
    pose proof (marker_count_nonneg (inbound w')). lia. }
  split; [exact Hle |].
  intros Hfew. rewrite Hok. apply negb_false_iff, Z.ltb_lt. lia.
Qed.

Lemma sendBuffer_needs_enough_markers_witness :
  exists resp amc mp w',
    sendBuffer real_driver ("AT" ++ CMD_END) 1000 4 0 markerPos_init back_to_back
      = Some ((false, resp, amc, mp), w') /\ amc <= 3.
Proof.
  assert (Hrun : exists w',
             sendBuffer real_driver ("AT" ++ CMD_END) 1000 4 0 markerPos_init back_to_back
               = Some ((false, "OK", 3, [0; 0; 2; 0; 0]), w')).
  { eexists. vm_compute. reflexivity. }
  destruct Hrun as (w' & Hw'). exists "OK", 3, [0; 0; 2; 0; 0], w'.
  split; [exact Hw' |].
  apply (sendBuffer_needs_enough_markers real_driver ("AT" ++ CMD_END) 1000 4 0
           markerPos_init back_to_back w' false "OK" 3 [0; 0; 2; 0; 0] eq_refl);
    [lia | exact Hw'].
Defined.

(** X2: outside emulator mode the marker count [sendBuffer] returns is at
    most [expectedMarkerCount] (at most 1 when that is 0): it stops
    reading at the marker that completes the count.  So a successful
    exchange that expects at least one marker returns exactly the
    expected count, and an exchange that expects none always succeeds. *)
Theorem sendBuffer_stops_at_expected (self : Wisol) (buffer : string)
        (timeout expectedMarkerCount a0 : Z) (mp0 : list Z) (w w' : World)
        (ok : bool) (resp : string) (amc : Z) (mp : list Z) :
  useEmulator self = false ->
  0 <= expectedMarkerCount < 256 ->
  sendBuffer self buffer timeout expectedMarkerCount a0 mp0 w = Some ((ok, resp, amc, mp), w') ->
  0 <= amc <= Z.max expectedMarkerCount 1 /\
  (ok = true -> 1 <= expectedMarkerCount -> amc = expectedMarkerCount) /\
  (expectedMarkerCount = 0 -> ok = true).
Proof.
  intros Hemu He Hrun.
  destruct (sendBuffer_inv _ _ _ _ _ _ _ _ _ Hemu Hrun) as (st & wl & s & Hloop & Hout & _).
  unfold outcome in Hout. inversion Hout; subst ok resp amc mp.
  assert (Hub : actualMarkerCount st <= Z.max expectedMarkerCount 1).
  { apply (sendBuffer_loop_count_bound _ _ _ _ _ _ _ _ Hloop); simpl; auto; lia. }
  destruct (sendBuffer_loop_run _ _ _ _ _ _ _ _ Hloop (proj2 He)) as (ps & _ & _ & Ha & _);
    simpl; auto; try lia.
  simpl in Ha. pose proof (marker_count_nonneg ps) as Hps.
  split; [lia |]. split.
  - intros Hok H1. apply negb_true_iff, Z.ltb_ge in Hok. lia.
  - intros H0. apply negb_true_iff, Z.ltb_ge. lia.
Qed.

Lemma sendBuffer_stops_at_expected_witness :
  exists w',
    sendBuffer real_driver ("AT" ++ CMD_END) 1000 2 0 markerPos_init seven_markers
      = Some ((true, "", 2, [0; 0; 0; 0; 0]), w') /\
    0 <= 2 <= Z.max 2 1.
Proof.
  assert (Hrun : exists w',
             sendBuffer real_driver ("AT" ++ CMD_END) 1000 2 0 markerPos_init seven_markers
               = Some ((true, "", 2, [0; 0; 0; 0; 0]), w')).
  { eexists. vm_compute. reflexivity. }
  destruct Hrun as (w' & Hw'). exists w'. split; [exact Hw' |].
  apply (sendBuffer_stops_at_expected real_driver ("AT" ++ CMD_END) 1000 2 0
           markerPos_init seven_markers w' true "" 2 [0; 0; 0; 0; 0] eq_refl);
    [lia | exact Hw'].
Defined.

Lemma list_ascii_of_string_append (s t : string) :
  list_ascii_of_string (s ++ t) = (list_ascii_of_string s ++ list_ascii_of_string t)%list.
Proof. induction s as [|c s IH]; simpl; [reflexivity | now rewrite IH]. Qed.

Lemma text_of_clean (ps : list Poll) (c : ascii) :
  In c (list_ascii_of_string (text_of ps)) -> c <> END_OF_RESPONSE /\ c <> zero.
Proof.
  induction ps as [|[| |d] ps IH]; simpl; auto; try contradiction.
  destruct (Ascii.eqb_spec d END_OF_RESPONSE) as [Heq | Hne]; auto.
  rewrite list_ascii_of_string_append, in_app_iff.
  intros [Hin | Hin]; auto.
  unfold String_of_char in Hin.
  destruct (Z.eqb_spec (byte_of d) 0) as [Hz | Hnz]; simpl in Hin; [contradiction |].
  destruct Hin as [Heq | []]. subst d. split; [exact Hne |].
  intros Hzero. subst c. apply Hnz. reflexivity.
Qed.

(** In either mode the response is the text of the polls used up. *)
Lemma sendBuffer_response_text (self : Wisol) (buffer : string)
      (timeout expectedMarkerCount a0 : Z) (mp0 : list Z) (w w' : World)
      (ok : bool) (resp : string) (amc : Z) (mp : list Z) :
  sendBuffer self buffer timeout expectedMarkerCount a0 mp0 w = Some ((ok, resp, amc, mp), w') ->
  exists ps, resp = text_of ps.
Proof.
  intros Hrun.
  destruct (useEmulator self) eqn:Hemu.
  - unfold sendBuffer in Hrun. rewrite Hemu in Hrun.
    rewrite (bind_step _ _ _ _ _ (log2_echoed _ _ _)) in Hrun.
    inversion Hrun; subst. exists []. reflexivity.
  - destruct (sendBuffer_inv _ _ _ _ _ _ _ _ _ Hemu Hrun) as (st & wl & s & Hloop & Hout & _).
    unfold outcome in Hout. inversion Hout; subst ok resp amc mp.
    destruct (sendBuffer_loop_effects _ _ _ _ _ _ _ _ Hloop) as (ps & _ & Hr & _);
      [simpl; lia |].
    exists ps. exact Hr.
Qed.

(** X3: in either mode, the response [sendBuffer] hands back holds no
    end-of-response character and no NUL: the markers are taken out and a
    NUL byte from the modem adds nothing. *)
Theorem sendBuffer_response_clean (self : Wisol) (buffer : string)
        (timeout expectedMarkerCount a0 : Z) (mp0 : list Z) (w w' : World)
        (ok : bool) (resp : string) (amc : Z) (mp : list Z) (c : ascii) :
  sendBuffer self buffer timeout expectedMarkerCount a0 mp0 w = Some ((ok, resp, amc, mp), w') ->
  In c (list_ascii_of_string resp) ->
  c <> END_OF_RESPONSE /\ c <> zero.
Proof.
  intros Hrun Hin.
  destruct (sendBuffer_response_text _ _ _ _ _ _ _ _ _ _ _ _ Hrun) as (ps & Hps).
  subst resp. apply (text_of_clean ps c Hin).
Qed.

Lemma sendBuffer_response_clean_witness :
  exists w',
    sendBuffer real_driver ("AT" ++ CMD_END) 1000 2 0 markerPos_init noisy_reply
      = Some ((false, "OK", 1, [1; 0; 0; 0; 0]), w') /\
    "O"%char <> END_OF_RESPONSE /\ "O"%char <> zero.
Proof.
  assert (Hrun : exists w',
             sendBuffer real_driver ("AT" ++ CMD_END) 1000 2 0 markerPos_init noisy_reply
               = Some ((false, "OK", 1, [1; 0; 0; 0; 0]), w')).
  { eexists. vm_compute. reflexivity. }
  destruct Hrun as (w' & Hw'). exists w'. split; [exact Hw' |].
  apply (sendBuffer_response_clean real_driver ("AT" ++ CMD_END) 1000 2 0 markerPos_init
           noisy_reply w' false "OK" 1 [1; 0; 0; 0; 0] "O"%char Hw').
  simpl. auto.
Defined.

Lemma written_app (tr1 tr2 : list Event) :
  written (tr1 ++ tr2) = written tr1 ++ written tr2.
Proof.
  induction tr1 as [|e tr1 IH]; simpl; [reflexivity |].
  destruct e; simpl; rewrite IH; reflexivity.
Qed.

Lemma sending_cons (c : ascii) (s : string) (k n : nat) :
  sending (String c s) (S k) n = sending s k n.
Proof.
  unfold sending. rewrite <- seq_shift, flat_map_concat_map, map_map,
    <- flat_map_concat_map. reflexivity.
Qed.

(** The characters that go out are the first [n] of the buffer. *)
Lemma written_sending (buffer : string) :
  forall n, (n <= String.length buffer)%nat ->
    exists sent rest,
      buffer = sent ++ rest /\ String.length sent = n /\
      written (sending buffer 0 n) = sent.
Proof.
  induction buffer as [|c s IH]; intros n Hn; simpl in Hn.
  - assert (n = 0)%nat by lia. subst n. exists "", "". auto.
  - destruct n as [|n].
    + exists "", (String c s). auto.
    + destruct (IH n) as (sent & rest & Hs & Hl & Hw); [lia |].
      exists (String c sent), rest.
      change (S n) with (1 + n)%nat. rewrite sending_app, written_app.
      change (0 + 1)%nat with 1%nat. rewrite sending_cons, Hw.
      simpl. rewrite char_of_byte_of, Hl, <- Hs. auto.
Qed.

(** The calls a completed exchange has made on the port. *)
Lemma sendBuffer_trace (self : Wisol) (buffer : string)
      (timeout expectedMarkerCount a0 : Z) (mp0 : list Z) (w w' : World)
      (r : bool * string * Z * list Z) :
  useEmulator self = false ->
  sendBuffer self buffer timeout expectedMarkerCount a0 mp0 w = Some (r, w') ->
  exists n,
    (n <= String.length buffer)%nat /\
    trace w' = (trace w ++ [SerialBegin MODEM_BITS_PER_SECOND; Delay 200; SerialFlush; SerialListen]
                  ++ sending buffer 0 n ++ [SerialEnd])%list.
Proof.
  intros Hemu Hrun.
  destruct (sendBuffer_inv _ _ _ _ _ _ _ _ _ Hemu Hrun) as (st & wl & s & Hloop & _ & Hw').
  destruct (sendBuffer_loop_effects _ _ _ _ _ _ _ _ Hloop) as (ps & _ & _ & Hi & Htr & _);
    [simpl; lia |].
  simpl in Hi, Htr. rewrite Nat.sub_0_r in Htr.
  exists (i st). split; [lia |].
  subst w'. unfold echoed, traced. simpl. rewrite Htr.
  rewrite <- !app_assoc. reflexivity.
Qed.

(** X4: outside emulator mode a completed [sendBuffer] has opened the
    port, waited 200 ms, flushed, listened, written some first part of the
    buffer one character at a time with 10 ms after each, and closed the
    port again: nothing else happens on the port, no character is written
    twice or out of order, and the port is never left open. *)
Theorem sendBuffer_port_discipline (self : Wisol) (buffer : string)
        (timeout expectedMarkerCount a0 : Z) (mp0 : list Z) (w w' : World)
        (r : bool * string * Z * list Z) :
  useEmulator self = false ->
  sendBuffer self buffer timeout expectedMarkerCount a0 mp0 w = Some (r, w') ->
  exists sent rest,
    buffer = sent ++ rest /\
    trace w' = (trace w ++ [SerialBegin MODEM_BITS_PER_SECOND; Delay 200; SerialFlush; SerialListen]
                  ++ sending buffer 0 (String.length sent) ++ [SerialEnd])%list /\
    written (trace w') = written (trace w) ++ sent.
Proof.
  intros Hemu Hrun.
  destruct (sendBuffer_trace _ _ _ _ _ _ _ _ _ Hemu Hrun) as (n & Hn & Ht).
  destruct (written_sending buffer n Hn) as (sent & rest & Hb & Hl & Hws).
  exists sent, rest. rewrite Hl. split; [exact Hb |]. split; [exact Ht |].
  rewrite Ht, !written_app, Hws. simpl. now rewrite append_nil_r.
Qed.

Lemma sendBuffer_port_discipline_witness :
  exists r w',
    sendBuffer real_driver ("AT" ++ CMD_END) 1000 1 0 markerPos_init seven_markers = Some (r, w') /\
    exists sent rest, "AT" ++ CMD_END = sent ++ rest /\ written (trace w') = "" ++ sent.
Proof.
  assert (Hrun : exists r w',
             sendBuffer real_driver ("AT" ++ CMD_END) 1000 1 0 markerPos_init seven_markers
               = Some (r, w')).
  { eexists _, _. vm_compute. reflexivity. }
  destruct Hrun as (r & w' & Hw'). exists r, w'. split; [exact Hw' |].
  destruct (sendBuffer_port_discipline real_driver ("AT" ++ CMD_END) 1000 1 0 markerPos_init
              seven_markers w' r eq_refl Hw') as (sent & rest & Hb & _ & Hwr).
  exists sent, rest. auto.
Defined.

(** X5: outside emulator mode, when the modem delivers no byte at all,
    [sendBuffer] comes back with an empty response, a marker count of 0 and
    [markerPos] untouched, and reports failure unless no marker was
    expected. *)
Theorem sendBuffer_silent_line (self : Wisol) (buffer : string)
        (timeout expectedMarkerCount a0 : Z) (mp0 : list Z) (w w' : World)
        (ok : bool) (resp : string) (amc : Z) (mp : list Z) :
  useEmulator self = false ->
  0 <= expectedMarkerCount < 256 ->
  (forall c, ~ In (Got c) (inbound w)) ->
  sendBuffer self buffer timeout expectedMarkerCount a0 mp0 w = Some ((ok, resp, amc, mp), w') ->
  resp = "" /\ amc = 0 /\ mp = mp0 /\ ok = (expectedMarkerCount =? 0).
Proof.
  intros Hemu He Hno Hrun.
  destruct (sendBuffer_exchange _ _ _ _ _ _ _ _ _ _ _ _ Hemu (proj2 He) Hrun)
    as (ps & Hin & Hresp & Hamc & Hmp & Hok).
  rewrite Hin in Hno.
  destruct (no_bytes_prefix ps (inbound w') Hno) as (Ht & Hc & Ho).
  rewrite Ht in Hresp. rewrite Hc in Hamc. rewrite Ho in Hmp. simpl in Hmp.
  repeat split; auto.
  rewrite Hok, Hamc.
  destruct (Z.ltb_spec 0 expectedMarkerCount), (Z.eqb_spec expectedMarkerCount 0);
    simpl; auto; lia.
Qed.

Lemma sendBuffer_silent_line_witness :
  exists w',
    sendBuffer real_driver ("AT" ++ CMD_END) 1000 1 3 [9; 8; 7; 6; 5] silent
      = Some ((false, "", 0, [9; 8; 7; 6; 5]), w').
Proof.
  assert (Hrun : exists ok resp amc mp w',
             sendBuffer real_driver ("AT" ++ CMD_END) 1000 1 3 [9; 8; 7; 6; 5] silent
               = Some ((ok, resp, amc, mp), w')).
  { eexists _, _, _, _, _. vm_compute. reflexivity. }
  destruct Hrun as (ok & resp & amc & mp & w' & Hw'). exists w'.
  destruct (sendBuffer_silent_line real_driver ("AT" ++ CMD_END) 1000 1 3 [9; 8; 7; 6; 5]
              silent w' ok resp amc mp eq_refl ltac:(lia) ltac:(intros c []) Hw')
    as (H1 & H2 & H3 & H4).
  subst. exact Hw'.
Defined.

(** ** The timer does not run while the command is being written *)

Section PacedSend.

Variable buffer : string.
Variable timeout : Z.
Variable expectedMarkerCount : Z.

Lemma last_start_cons (s : Z) (p : Z * Z) (pairs : list (Z * Z)) :
  last_start s (p :: pairs) = last_start (to_ulong (fst p)) pairs.
Proof.
  unfold last_start. simpl.
  destruct (rev pairs) as [|q l] eqn:Hr; simpl; reflexivity.
Qed.

Lemma text_of_app (ps qs : list Poll) : text_of (ps ++ qs) = text_of ps ++ text_of qs.
Proof.
  induction ps as [|[| |c] ps IH]; simpl; auto.
  destruct (Ascii.eqb c END_OF_RESPONSE); auto.
  now rewrite IH, append_assoc.
Qed.

(** While no marker arrives and every timer test comes within [timeout]
    of the write before it, the loop writes all the characters left,
    however far apart the writes themselves are. *)
Lemma sendBuffer_loop_paced_send (pairs : list (Z * Z)) :
  forall (fuel : nat) (st : Loop) (w : World) (during : list Poll) (c : list Z) (q : list Poll),
    (i st + List.length pairs = String.length buffer)%nat ->
    List.length during = List.length pairs ->
    clock w = (flat_map pair_readings pairs ++ c)%list ->
    Forall (fun p => timed_out (to_ulong (fst p)) (to_ulong (snd p)) timeout = false) pairs ->
    Forall (fun p => is_marker p = false) during ->
    inbound w = (during ++ q)%list ->
    sendBuffer_loop (List.length pairs + fuel) buffer timeout expectedMarkerCount st w =
    sendBuffer_loop fuel buffer timeout expectedMarkerCount
      (mkLoop (String.length buffer) (last_start (startTime st) pairs)
              (response st ++ text_of during) (actualMarkerCount st) (markerPos st))
      (mkWorld c q (trace w ++ sending buffer (i st) (List.length pairs)) (echo w)).
Proof.
  induction pairs as [|[a b] pairs IH]; intros fuel st w during c q Hi Hd Hc Hto Hnm Hq.
  - destruct during; [|discriminate]. simpl in *.
    rewrite Nat.add_0_r in Hi. rewrite <- Hi, <- Hc, <- Hq.
    unfold last_start, sending. simpl. rewrite app_nil_r, append_nil_r.
    destruct st, w. reflexivity.
  - destruct during as [|p during]; [discriminate |].
    simpl in Hi, Hd, Hc, Hq. inversion Hto as [|x l Hab Hto']; subst.
    inversion Hnm as [|y l Hp Hnm']; subst.
    change (List.length ((a, b) :: pairs) + fuel)%nat with (S (List.length pairs + fuel)).
    cbn [sendBuffer_loop].
    rewrite (bind_step _ _ _ _ _ (send_next_eq buffer st w a _ ltac:(lia) Hc)).
    unfold bind at 1. unfold millis at 1. cbn [clock startTime].
    simpl in Hab. rewrite Hab.
    unfold bind at 1. unfold poll at 1. cbn [inbound]. rewrite Hq.
    cbn [clock inbound trace echo].
    rewrite last_start_cons. cbn [fst].
    assert (Hgo : forall st2,
      i st2 = S (i st) -> startTime st2 = to_ulong a ->
      response st2 = response st ++ text_of [p] ->
      actualMarkerCount st2 = actualMarkerCount st -> markerPos st2 = markerPos st ->
      sendBuffer_loop (List.length pairs + fuel) buffer timeout expectedMarkerCount st2
        (mkWorld (flat_map pair_readings pairs ++ c) (during ++ q)
                 (trace w ++ sending buffer (i st) 1) (echo w)) =
      sendBuffer_loop fuel buffer timeout expectedMarkerCount
        (mkLoop (String.length buffer) (last_start (to_ulong a) pairs)
                (response st ++ text_of (p :: during)) (actualMarkerCount st) (markerPos st))
        (mkWorld c q (trace w ++ sending buffer (i st) (List.length ((a, b) :: pairs)))
                 (echo w))).
    { intros st2 Hi2 Hs2 Hr2 Ha2 Hm2.
      rewrite (IH fuel st2 _ during c q); cbn [clock inbound trace echo]; auto; try lia.
      rewrite Hi2, Hs2, Hr2, Ha2, Hm2.
      change (p :: during) with ([p] ++ during)%list.
      rewrite text_of_app, append_assoc, <- app_assoc.
      change (List.length ((a, b) :: pairs)) with (1 + List.length pairs)%nat.
      rewrite sending_app, Nat.add_1_r. reflexivity. }
    destruct p as [| |ch].
    + apply Hgo; auto. simpl. now rewrite append_nil_r.
    + apply Hgo; auto. simpl. now rewrite append_nil_r.
    + simpl in Hp. rewrite Hp. apply Hgo; auto. simpl. rewrite Hp. now rewrite append_nil_r.
Qed.

End PacedSend.

Lemma length_pair_readings (pairs : list (Z * Z)) :
  List.length (flat_map pair_readings pairs) = (2 * List.length pairs)%nat.
Proof. induction pairs as [|p pairs IH]; simpl; [reflexivity | rewrite IH; lia]. Qed.

Lemma append_full_length (sent rest : string) :
  String.length (sent ++ rest) = String.length sent -> rest = "".
Proof.
  rewrite length_append. destruct rest; [reflexivity | simpl; lia].
Qed.

(** X6: outside emulator mode the timeout only measures the wait after a
    write, not the time the sending takes: if every timer test comes
    within the timeout of the write just before it and no end-of-response
    character arrives meanwhile, the whole buffer is written, however far
    apart the writes are. *)
Theorem sendBuffer_writes_whole_command (self : Wisol) (buffer : string)
        (timeout expectedMarkerCount a0 : Z) (mp0 : list Z) (w w' : World)
        (r : bool * string * Z * list Z)
        (t0 : Z) (pairs : list (Z * Z)) (c : list Z) (during q : list Poll) :
  useEmulator self = false ->
  clock w = (t0 :: flat_map pair_readings pairs ++ c)%list ->
  List.length pairs = String.length buffer ->
  Forall (fun p => timed_out (to_ulong (fst p)) (to_ulong (snd p)) timeout = false) pairs ->
  inbound w = (during ++ q)%list ->
  List.length during = String.length buffer ->
  Forall (fun p => is_marker p = false) during ->
  sendBuffer self buffer timeout expectedMarkerCount a0 mp0 w = Some (r, w') ->
  written (trace w') = written (trace w) ++ buffer.
Proof.
  intros Hemu Hc Hn Hto Hq Hd Hnm Hrun.
  destruct (sendBuffer_inv _ _ _ _ _ _ _ _ _ Hemu Hrun) as (st & wl & s & Hloop & _ & Hw').
  assert (Hcl : clock (listening buffer w) = (flat_map pair_readings pairs ++ c)%list).
  { unfold listening, ticked. simpl. now rewrite Hc. }
  assert (Hfuel : S (List.length (clock (listening buffer w)))
                  = (List.length pairs + S (List.length pairs + List.length c))%nat).
  { rewrite Hcl, length_app, length_pair_readings. lia. }
  rewrite Hfuel in Hloop.
  rewrite (sendBuffer_loop_paced_send buffer timeout expectedMarkerCount pairs _
             (loop_start w mp0) (listening buffer w) during c q) in Hloop; auto;
    try (simpl; lia).
  destruct (sendBuffer_loop_effects _ _ _ _ _ _ _ _ Hloop) as (ps & _ & _ & Hi & Htr & _);
    [simpl; lia |].
  cbn [i trace] in Hi, Htr.
  replace (i st - String.length buffer)%nat with 0%nat in Htr by lia.
  rewrite sending_nil, app_nil_r in Htr.
  destruct (written_sending buffer (String.length buffer)) as (sent & rest & Hb & Hl & Hws);
    [lia |].
  assert (rest = "") by (apply (append_full_length sent); congruence).
  subst rest. rewrite append_nil_r in Hb. subst sent.
  subst w'. unfold echoed, traced. cbn [trace].
  change (i (loop_start w mp0)) with 0%nat in Htr.
  rewrite Htr, Hn, !written_app, Hws.
  unfold listening, ticked, traced, echoed. cbn [trace].
  rewrite !written_app. simpl. now rewrite !append_nil_r.
Qed.

Lemma sendBuffer_writes_whole_command_witness :
  exists r w',
    sendBuffer real_driver ("AT" ++ CMD_END) 1000 1 0 markerPos_init slow_writes = Some (r, w') /\
    written (trace w') = written (trace slow_writes) ++ ("AT" ++ CMD_END).
Proof.
  assert (Hrun : exists r w',
             sendBuffer real_driver ("AT" ++ CMD_END) 1000 1 0 markerPos_init slow_writes
               = Some (r, w')).
  { eexists _, _. vm_compute. reflexivity. }
  destruct Hrun as (r & w' & Hw'). exists r, w'. split; [exact Hw' |].
  apply (sendBuffer_writes_whole_command real_driver ("AT" ++ CMD_END) 1000 1 0 markerPos_init
           slow_writes w' r 0 [(100, 105); (50000, 50003); (900000, 900001)]
           [900002; 990000] [Quiet; Got "x"%char; ReadNothing] [] eq_refl eq_refl eq_refl);
    [repeat constructor | reflexivity | reflexivity | repeat constructor | exact Hw'].
Defined.

(** ** How an exchange ends *)

Lemma timer_tests_wrote (s : Z) (p : Z * Z) (pairs : list (Z * Z)) (singles : list Z) :
  timer_tests s (p :: pairs) singles =
    (to_ulong (fst p), to_ulong (snd p)) :: timer_tests (to_ulong (fst p)) pairs singles.
Proof. unfold timer_tests. rewrite last_start_cons. reflexivity. Qed.

Lemma firstn_polls (n : nat) (ps rest : list Poll) :
  List.length ps = Nat.min n (List.length (ps ++ rest)) ->
  ps = firstn n (ps ++ rest)%list.
Proof.
  rewrite length_app. intros Hn.
  destruct (Nat.le_gt_cases n (List.length ps)) as [Hle | Hgt].
  - assert (n = List.length ps) by lia. subst n.
    rewrite firstn_app, Nat.sub_diag, firstn_all. simpl. now rewrite app_nil_r.
  - assert (List.length rest = 0%nat) by lia.
    destruct rest; [|discriminate]. rewrite app_nil_r.
    symmetry. apply firstn_all2. lia.
Qed.

Section Passes.

Variable buffer : string.
Variable timeout : Z.
Variable expectedMarkerCount : Z.

(** What [send_next] does to the clock and to the timer. *)
Lemma send_next_pass (st st1 : Loop) (w w1 : World) :
  send_next buffer st w = Some (st1, w1) ->
  ((i st < String.length buffer)%nat /\ i st1 = S (i st) /\
   exists s, clock w = s :: clock w1 /\ startTime st1 = to_ulong s) \/
  ((String.length buffer <= i st)%nat /\ i st1 = i st /\
   clock w1 = clock w /\ startTime st1 = startTime st).
Proof.
  unfold send_next.
  destruct (Nat.ltb_spec (i st) (String.length buffer)) as [Hlt | Hge].
  - unfold bind, emit, delay, emit, millis, ret. simpl.
    destruct (clock w) as [|s rest]; [discriminate |].
    intros H. inversion H; subst. simpl. left. eauto.
  - unfold ret. intros H. inversion H; subst. right. auto.
Qed.

(** A completed run of the loop, pass by pass: the clock readings it
    took, the timer tests made with them, and the polls it read.  No test
    but the last one fires; the run ends either at a test that fires, the
    count being incomplete, or at the end-of-response character that
    completes the count; a poll is read at every pass whose test did not
    fire, and at no other time. *)
Lemma sendBuffer_loop_passes (fuel : nat) :
  forall (st st' : Loop) (w w' : World),
    sendBuffer_loop fuel buffer timeout expectedMarkerCount st w = Some (st', w') ->
    (i st <= String.length buffer)%nat ->
    expectedMarkerCount < 256 ->
    0 <= actualMarkerCount st ->
    actualMarkerCount st = 0 \/ actualMarkerCount st < expectedMarkerCount ->
    exists ps pairs singles earlier final,
      inbound w = (ps ++ inbound w')%list /\
      clock w = (flat_map pair_readings pairs ++ singles ++ clock w')%list /\
      i st' = (i st + List.length pairs)%nat /\
      (i st' <= String.length buffer)%nat /\
      (singles <> [] -> i st' = String.length buffer) /\
      timer_tests (startTime st) pairs singles = (earlier ++ [final])%list /\
      Forall (fun test => fired timeout test = false) earlier /\
      ((fired timeout final = true /\
        (actualMarkerCount st' = 0 \/ actualMarkerCount st' < expectedMarkerCount) /\
        List.length ps = Nat.min (List.length earlier) (List.length (inbound w)))
       \/
       (fired timeout final = false /\
        expectedMarkerCount <= actualMarkerCount st' /\
        List.length ps = S (List.length earlier) /\
        last ps Quiet = Got END_OF_RESPONSE)).
Proof.
  induction fuel as [|fuel IH]; intros st st' w w' Hrun Hi He H0 Hlt; [discriminate |].
  cbn [sendBuffer_loop] in Hrun. unfold bind in Hrun.
  destruct (send_next buffer st w) as [[st1 w1]|] eqn:Hs; [|discriminate].
  destruct (send_next_inv _ _ _ _ _ Hs) as (_ & Ha1 & _ & Hi1).
  pose proof (send_next_pass _ _ _ _ Hs) as Hpass.
  destruct (millis w1) as [[t w2]|] eqn:Hm; [|discriminate].
  destruct (millis_inv _ _ _ Hm) as (c & Hc2 & Ht & Hi2 & _).
  (* the readings of this pass *)
  assert (Hfirst : exists pr1 sg1,
    clock w = (flat_map pair_readings pr1 ++ sg1 ++ clock w2)%list /\
    i st1 = (i st + List.length pr1)%nat /\
    (i st1 <= String.length buffer)%nat /\
    (sg1 <> [] -> i st1 = String.length buffer) /\
    forall pairs' singles',
      (sg1 <> [] -> pairs' = []) ->
      timer_tests (startTime st) (pr1 ++ pairs') (sg1 ++ singles') =
        (startTime st1, t) :: timer_tests (startTime st1) pairs' singles' /\
      forall rest,
        (flat_map pair_readings (pr1 ++ pairs') ++ (sg1 ++ singles') ++ rest =
         flat_map pair_readings pr1 ++ sg1 ++
           flat_map pair_readings pairs' ++ singles' ++ rest)%list).
  { destruct Hpass as [(Hlt1 & Hn & s & Hcs & Hst) | (Hge & Hn & Hcs & Hst)].
    - exists [(s, c)], []. rewrite Hcs, Hc2, Hn, Hst, Ht. simpl.
      split; [reflexivity |]. split; [lia |]. split; [lia |].
      split; [intros H; now contradiction H |].
      intros pairs' singles' _. split; [|reflexivity].
      rewrite timer_tests_wrote. reflexivity.
    - exists [], [c]. rewrite <- Hcs, Hc2, Hn, Hst, Ht. simpl.
      split; [reflexivity |]. split; [lia |]. split; [lia |].
      split; [intros _; lia |].
      intros pairs' singles' Hp. rewrite (Hp ltac:(discriminate)).
      split; reflexivity. }
  destruct Hfirst as (pr1 & sg1 & Hclock & Hn1 & Hb1 & Hfull & Hlaw).
  assert (Hinb2 : inbound w2 = inbound w) by congruence.
  rewrite <- Ha1 in H0, Hlt.
  match goal with
  | |- ?G =>
      assert (Hmore : forall st2 w3 pre,
        i st2 = i st1 -> startTime st2 = startTime st1 ->
        0 <= actualMarkerCount st2 ->
        actualMarkerCount st2 = 0 \/ actualMarkerCount st2 < expectedMarkerCount ->
        clock w3 = clock w2 ->
        timed_out (startTime st1) t timeout = false ->
        (pre = [] /\ inbound w = [] /\ inbound w3 = []) \/
        (exists p, pre = [p] /\ inbound w = p :: inbound w3) ->
        sendBuffer_loop fuel buffer timeout expectedMarkerCount st2 w3 = Some (st', w') ->
        G)
  end.
  { intros st2 w3 pre Hi3 Hs3 H03 Hlt3 Hc3 Hto Hpre Hk.
    destruct (IH _ _ _ _ Hk) as
        (ps' & pairs' & singles' & earlier' & final' &
         Hps & Hck & Hik & Hbk & Hfk & Htests & Hall & Hend); auto; try lia.
    assert (Hp' : sg1 <> [] -> pairs' = []).
    { intros Hsg. specialize (Hfull Hsg). destruct pairs'; [reflexivity | simpl in Hik; lia]. }
    destruct (Hlaw pairs' singles' Hp') as (Htt & Hcc).
    exists (pre ++ ps')%list, (pr1 ++ pairs')%list, (sg1 ++ singles')%list,
           ((startTime st1, t) :: earlier'), final'.
    assert (Hin : inbound w = ((pre ++ ps') ++ inbound w')%list).
    { destruct Hpre as [(Hp0 & Hw0 & Hw3) | (p & Hp1 & Hw1)]; subst pre.
      - simpl. rewrite <- Hps, Hw3. exact Hw0.
      - simpl. rewrite <- Hps. exact Hw1. }
    split; [exact Hin |].
    split; [rewrite Hcc, Hclock, <- Hc3, Hck; reflexivity |].
    split; [rewrite length_app; lia |].
    split; [exact Hbk |].
    split.
    { intros Hne. destruct singles' as [|x l].
      - rewrite app_nil_r in Hne. specialize (Hfull Hne). rewrite (Hp' Hne) in Hik.
        simpl in Hik. lia.
      - apply Hfk. discriminate. }
    split; [rewrite Htt, <- Hs3, Htests; reflexivity |].
    split; [constructor; [exact Hto | exact Hall] |].
    destruct Hend as [(Hf & Hcnt & Hlen) | (Hf & Hcnt & Hlen & Hlast)].
    - left. split; [exact Hf |]. split; [exact Hcnt |].
      destruct Hpre as [(Hp0 & Hw0 & Hw3) | (p & Hp1 & Hw1)]; subst pre.
      + rewrite Hw0. rewrite Hw3 in Hps. destruct ps'; [|discriminate].
        simpl. reflexivity.
      + rewrite Hw1. simpl. rewrite Hlen. reflexivity.
    - right. split; [exact Hf |]. split; [exact Hcnt |].
      destruct Hpre as [(Hp0 & Hw0 & Hw3) | (p & Hp1 & Hw1)]; subst pre.
      + rewrite Hw3 in Hps. destruct ps'; discriminate.
      + simpl List.length. split; [now rewrite Hlen |].
        destruct ps'; [discriminate | exact Hlast]. }
  assert (Hone : timer_tests (startTime st) pr1 sg1 = ([] ++ [(startTime st1, t)])%list).
  { destruct (Hlaw [] [] ltac:(reflexivity)) as (Htt & _).
    rewrite !app_nil_r in Htt. exact Htt. }
  destruct (timed_out (startTime st1) t timeout) eqn:Hto.
  { (* the timer test fires *)
    inversion Hrun; subst st' w'.
    exists [], pr1, sg1, [], (startTime st1, t).
    split; [simpl; congruence |].
    split; [exact Hclock |].
    split; [exact Hn1 |]. split; [exact Hb1 |]. split; [exact Hfull |].
    split; [exact Hone |]. split; [constructor |].
    left. split; [exact Hto |]. split; [exact Hlt | reflexivity]. }
  destruct (poll w2) as [[p w3]|] eqn:Hp; [|discriminate].
  destruct (poll_inv _ _ _ Hp) as (Hc3 & Hin).
  destruct Hin as [(Hnil & Hq & Hnil') | Hcons].
  - (* silence after the last recorded poll *)
    subst p. apply (Hmore st1 w3 []); auto.
    left. split; [reflexivity |]. split; congruence.
  - rewrite Hinb2 in Hcons.
    destruct p as [| |ch].
    + apply (Hmore st1 w3 [Quiet]); auto. right. eauto.
    + apply (Hmore st1 w3 [ReadNothing]); auto. right. eauto.
    + destruct (Ascii.eqb ch END_OF_RESPONSE) eqn:Hch; cbv zeta in Hrun.
      * pose proof (mark_count expectedMarkerCount st1 He H0 Hlt) as Hmk.
        apply Ascii.eqb_eq in Hch. subst ch.
        destruct (actualMarkerCount (mark st1) >=? expectedMarkerCount) eqn:Hge.
        -- (* the marker that completes the count *)
           inversion Hrun; subst st' w'.
           rewrite Z.geb_leb in Hge. apply Z.leb_le in Hge.
           exists [Got END_OF_RESPONSE], pr1, sg1, [], (startTime st1, t).
           split; [simpl; congruence |].
           split; [rewrite Hclock, Hc3; reflexivity |].
           split; [exact Hn1 |]. split; [exact Hb1 |]. split; [exact Hfull |].
           split; [exact Hone |]. split; [constructor |].
           right. split; [exact Hto |]. split; [exact Hge |]. split; reflexivity.
        -- rewrite Z.geb_leb in Hge. apply Z.leb_gt in Hge.
           apply (Hmore (mark st1) w3 [Got END_OF_RESPONSE]); auto; try lia.
           right. eauto.
      * apply (Hmore (keep st1 ch) w3 [Got ch]); auto. right. eauto.
Qed.

End Passes.

(** The same for a completed exchange: the first clock reading is the one
    of line 61, and the characters written are as many as the passes that
    took two readings. *)
Lemma sendBuffer_passes (self : Wisol) (buffer : string) (timeout e a0 : Z)
      (mp0 : list Z) (w w' : World) (ok : bool) (resp : string) (amc : Z) (mp : list Z) :
  useEmulator self = false ->
  e < 256 ->
  sendBuffer self buffer timeout e a0 mp0 w = Some ((ok, resp, amc, mp), w') ->
  exists ps t0 pairs singles earlier final,
    inbound w = (ps ++ inbound w')%list /\
    clock w = (t0 :: flat_map pair_readings pairs ++ singles ++ clock w')%list /\
    (List.length pairs <= String.length buffer)%nat /\
    (singles <> [] -> List.length pairs = String.length buffer) /\
    trace w' = (trace w ++ [SerialBegin MODEM_BITS_PER_SECOND; Delay 200; SerialFlush; SerialListen]
                  ++ sending buffer 0 (List.length pairs) ++ [SerialEnd])%list /\
    timer_tests (to_ulong t0) pairs singles = (earlier ++ [final])%list /\
    Forall (fun test => fired timeout test = false) earlier /\
    ((fired timeout final = true /\
      (amc = 0 \/ amc < e) /\
      ps = firstn (List.length earlier) (inbound w))
     \/
     (fired timeout final = false /\
      e <= amc /\
      ps = firstn (S (List.length earlier)) (inbound w) /\
      last ps Quiet = Got END_OF_RESPONSE)).
Proof.
  intros Hemu He Hrun.
  destruct (sendBuffer_inv _ _ _ _ _ _ _ _ _ Hemu Hrun) as (st & wl & s & Hloop & Hr & Hw').
  destruct (clock w) as [|t0 rest] eqn:Hc.
  { unfold sendBuffer in Hrun. rewrite Hemu in Hrun.
    rewrite (bind_step _ _ _ _ _ (log2_echoed _ _ _)) in Hrun.
    unfold bind, emit, delay, emit, millis in Hrun. simpl in Hrun.
    rewrite Hc in Hrun. discriminate. }
  destruct (sendBuffer_loop_passes buffer timeout e _ _ _ _ _ Hloop)
    as (ps & pairs & singles & earlier & final &
        Hps & Hck & Hik & Hbk & Hfk & Htests & Hall & Hend);
    [simpl; lia | exact He | simpl; lia | simpl; auto |].
  destruct (sendBuffer_loop_effects _ _ _ _ _ _ _ _ Hloop) as (ps0 & _ & _ & _ & Htr & _);
    [simpl; lia |].
  assert (Hamc : amc = actualMarkerCount st).
  { unfold outcome in Hr. congruence. }
  assert (Hcw : clock w' = clock wl) by (subst w'; reflexivity).
  assert (Hiw : inbound w' = inbound wl) by (subst w'; reflexivity).
  assert (Hin : inbound (listening buffer w) = inbound w) by reflexivity.
  assert (Hst : startTime (loop_start w mp0) = to_ulong t0).
  { unfold loop_start. simpl. now rewrite Hc. }
  assert (Hcl : clock (listening buffer w) = rest).
  { unfold listening, ticked. simpl. now rewrite Hc. }
  change (i (loop_start w mp0)) with 0%nat in Hik, Htr.
  rewrite Nat.sub_0_r in Htr. simpl in Hik.
  rewrite Hin, <- Hiw in Hps. rewrite Hcl, <- Hcw in Hck.
  rewrite Hst in Htests. rewrite Hin in Hend. rewrite <- Hamc in Hend.
  rewrite Hik in Hbk, Hfk, Htr.
  exists ps, t0, pairs, singles, earlier, final.
  split; [exact Hps |].
  split; [now rewrite Hck |].
  split; [exact Hbk |].
  split; [exact Hfk |].
  split.
  { subst w'. unfold echoed, traced. cbn [trace]. rewrite Htr.
    unfold listening, ticked, traced, echoed. cbn [trace].
    rewrite <- !app_assoc. reflexivity. }
  split; [exact Htests |].
  split; [exact Hall |].
  destruct Hend as [(Hf & Hcnt & Hlen) | (Hf & Hcnt & Hlen & Hlast)].
  - left. split; [exact Hf |]. split; [exact Hcnt |].
    rewrite Hps. apply firstn_polls. rewrite <- Hps. exact Hlen.
  - right. split; [exact Hf |]. split; [exact Hcnt |]. split; [|exact Hlast].
    rewrite Hps. apply firstn_polls. rewrite length_app. lia.
Qed.

(** C1 (as amended): outside emulator mode, [sendBuffer] returns once the
    timer runs out at the latest, and it returns true exactly when the
    number of end-of-response characters it read before the timer ran
    out, which is what it leaves in [actualMarkerCount], is at least
    [expectedMarkerCount].  The loop makes one timer test per pass and
    reads one poll at each pass whose test does not fire; no test but the
    last fires; the run ends either at a test that fires, with the count
    incomplete (or still 0), or at the end-of-response character that
    completes the count.  So false is returned only when the timer has run
    out.  Every end-of-response character read is counted, also past the
    fifth; [markerPos] keeps its size, its slots below
    [min (actualMarkerCount, markerPosMax)] hold the response length at the
    corresponding character (8 bits of it), and the slots from
    [actualMarkerCount] on are left as they were. *)
Theorem sendBuffer_succeeds_iff_markers (self : Wisol) (buffer : string)
        (timeout expectedMarkerCount a0 : Z) (mp0 : list Z) (w : World) :
  useEmulator self = false ->
  0 <= expectedMarkerCount < 256 ->
  (forall t rest,
      clock w = t :: rest ->
      expires timeout (String.length buffer) (to_ulong t) rest ->
      exists r w', sendBuffer self buffer timeout expectedMarkerCount a0 mp0 w = Some (r, w')) /\
  (forall ok resp amc mp w',
      sendBuffer self buffer timeout expectedMarkerCount a0 mp0 w = Some ((ok, resp, amc, mp), w') ->
      exists ps t0 pairs singles earlier final,
        inbound w = (ps ++ inbound w')%list /\
        amc = marker_count ps /\
        (ok = true <-> expectedMarkerCount <= amc) /\
        resp = text_of ps /\
        List.length mp = List.length mp0 /\
        (forall j, Z.of_nat j < Z.min amc markerPosMax -> (j < List.length mp0)%nat ->
                   nth j mp 0 = to_uint8 (nth j (marker_offsets 0 ps) 0)) /\
        (forall j, amc <= Z.of_nat j -> nth j mp 0 = nth j mp0 0) /\
        clock w = (t0 :: flat_map pair_readings pairs ++ singles ++ clock w')%list /\
        (List.length pairs <= String.length buffer)%nat /\
        (singles <> [] -> List.length pairs = String.length buffer) /\
        trace w' =
          (trace w ++ [SerialBegin MODEM_BITS_PER_SECOND; Delay 200; SerialFlush; SerialListen]
             ++ sending buffer 0 (List.length pairs) ++ [SerialEnd])%list /\
        timer_tests (to_ulong t0) pairs singles = (earlier ++ [final])%list /\
        Forall (fun test => fired timeout test = false) earlier /\
        ((fired timeout final = true /\
          (amc = 0 \/ amc < expectedMarkerCount) /\
          ps = firstn (List.length earlier) (inbound w))
         \/
         (fired timeout final = false /\
          expectedMarkerCount <= amc /\
          ps = firstn (S (List.length earlier)) (inbound w) /\
          last ps Quiet = Got END_OF_RESPONSE)) /\
        (ok = false -> fired timeout final = true)).
Proof.
  intros Hemu He. split.
  - intros t rest Hc Hexp. now apply (sendBuffer_returns self buffer timeout _ a0 mp0 w t rest).
  - intros ok resp amc mp w' Hrun.
    destruct (sendBuffer_exchange _ _ _ _ _ _ _ _ _ _ _ _ Hemu (proj2 He) Hrun)
      as (ps & Hin & Hresp & Hamc & Hmp & Hok).
    destruct (sendBuffer_passes _ _ _ _ _ _ _ _ _ _ _ _ Hemu (proj2 He) Hrun)
      as (ps' & t0 & pairs & singles & earlier & final &
          Hin' & Hclock & Hlen & Hfull & Htrace & Htests & Hall & Hend).
    assert (ps' = ps).
    { apply (app_inv_tail (inbound w')). congruence. }
    subst ps'.
    exists ps, t0, pairs, singles, earlier, final.
    split; [exact Hin |]. split; [exact Hamc |].
    split.
    { split.
      - intros Htrue. rewrite Htrue in Hok. symmetry in Hok.
        apply negb_true_iff, Z.ltb_ge in Hok. exact Hok.
      - intros Hle. rewrite Hok. apply negb_true_iff, Z.ltb_ge. exact Hle. }
    split; [exact Hresp |].
    split; [subst mp; apply length_record_offsets |].
    split.
    { intros j Hj Hl. subst mp.
      rewrite nth_record_offsets_hit; try lia.
      - rewrite Z.sub_0_r, Nat2Z.id. reflexivity.
      - rewrite length_marker_offsets. lia. }
    split.
    { intros j Hj. subst mp.
      apply nth_record_offsets_other; [lia |].
      right. left. rewrite length_marker_offsets. lia. }
    split; [exact Hclock |]. split; [exact Hlen |]. split; [exact Hfull |].
    split; [exact Htrace |]. split; [exact Htests |]. split; [exact Hall |].
    split; [exact Hend |].
    intros Hfalse. rewrite Hfalse in Hok. symmetry in Hok.
    apply negb_false_iff, Z.ltb_lt in Hok.
    destruct Hend as [(Hf & _) | (_ & Hle & _)]; [exact Hf | lia].
Qed.

Lemma sendBuffer_succeeds_iff_markers_witness :
  (exists w', sendBuffer real_driver ("AT" ++ CMD_END) 1000 7 0 markerPos_init seven_markers
                = Some ((true, "", 7, [0; 0; 0; 0; 0]), w')) /\
  (exists r w', sendBuffer real_driver ("AT" ++ CMD_END) 1000 7 0 markerPos_init seven_markers
                  = Some (r, w')) /\
  (true = true <-> 7 <= 7) /\
  (exists w' final,
      sendBuffer real_driver ("AT" ++ CMD_END) 1000 1 0 markerPos_init silent
        = Some ((false, "", 0, markerPos_init), w') /\
      fired 1000 final = true).
Proof.
  pose proof (sendBuffer_succeeds_iff_markers real_driver ("AT" ++ CMD_END) 1000 7 0
                markerPos_init seven_markers eq_refl ltac:(lia)) as [Hret Hiff].
  assert (Hrun : exists w',
             sendBuffer real_driver ("AT" ++ CMD_END) 1000 7 0 markerPos_init seven_markers
               = Some ((true, "", 7, [0; 0; 0; 0; 0]), w')).
  { eexists. vm_compute. reflexivity. }
  split; [exact Hrun |]. split; [|split].
  - apply (Hret 0 [10; 10; 20; 20; 30; 30; 31; 32; 33; 34; 5000] eq_refl).
    simpl. repeat (first [apply Exists_cons_hd; reflexivity | apply Exists_cons_tl]).
  - destruct Hrun as (w' & Hw').
    destruct (Hiff true "" 7 [0; 0; 0; 0; 0] w' Hw')
      as (ps & t0 & pairs & singles & earlier & final & _ & _ & H & _).
    exact H.
  - assert (Hsil : exists w',
               sendBuffer real_driver ("AT" ++ CMD_END) 1000 1 0 markerPos_init silent
                 = Some ((false, "", 0, markerPos_init), w')).
    { eexists. vm_compute. reflexivity. }
    destruct Hsil as (w' & Hw').
    destruct (proj2 (sendBuffer_succeeds_iff_markers real_driver ("AT" ++ CMD_END) 1000 1 0
                       markerPos_init silent eq_refl ltac:(lia))
                    false "" 0 markerPos_init w' Hw')
      as (ps & t0 & pairs & singles & earlier & final & H).
    exists w', final. split; [exact Hw' |].
    apply H. reflexivity.
Defined.

(** C1 (as stated) fails in emulator mode: [sendBuffer] returns true for
    an exchange that expects one marker and has read none. *)
Lemma sendBuffer_emulator_true_without_marker :
  ~ (forall (self : Wisol) (buffer : string) (timeout expectedMarkerCount a0 : Z)
            (mp0 : list Z) (w w' : World) (ok : bool) (resp : string) (amc : Z) (mp : list Z),
        0 <= expectedMarkerCount < 256 ->
        sendBuffer self buffer timeout expectedMarkerCount a0 mp0 w = Some ((ok, resp, amc, mp), w') ->
        exists ps, inbound w = (ps ++ inbound w')%list /\
                   amc = marker_count ps /\
                   (ok = true <-> expectedMarkerCount <= amc)).
Proof.
  intros H.
  destruct (H emulated_driver ("AT" ++ CMD_END) 1000 1 0 markerPos_init
              (mkWorld [0] [] [] "")
              (echoed (mkWorld [0] [] [] "") (" - Wisol.sendBuffer: " ++ ("AT" ++ CMD_END) ++ CRLF))
              true "" 0 markerPos_init ltac:(lia) eq_refl)
    as (ps & _ & _ & Hiff).
  pose proof (proj1 Hiff eq_refl). lia.
Qed.

(** * Further properties of the dispatcher *)

(** X7: a message sent at most 2000 ms after the last one is refused
    before anything happens on the line: [sendMessage] returns false, the
    serial port sees no call, no inbound byte is read, one clock reading is
    used, and the driver and the statics stay as they were. *)
Theorem sendMessage_refused_leaves_line (WISOL_COMMAND_TIMEOUT SEND_DELAY : Z) (self : Wisol) (markers0 : Z) (markerPos0 : list Z)
        (payload : string) (w : World) (t : Z) (rest : list Z) :
  clock w = t :: rest ->
  lastSend self <> 0 ->
  to_ulong (to_ulong t - lastSend self) <= 2000 ->
  exists w',
    sendMessage WISOL_COMMAND_TIMEOUT SEND_DELAY self markers0 markerPos0 payload w =
      Some ((false, self, markers0, markerPos0), w') /\
    trace w' = trace w /\ inbound w' = inbound w /\ clock w' = rest.
Proof.
  intros Hc Hlast Hel.
  rewrite sendMessage_unfold.
  unfold isReady. unfold bind at 1. unfold millis at 1. cbn [clock echoed]. rewrite Hc.
  destruct (Z.eqb_spec (lastSend self) 0); [contradiction |].
  destruct (Z.leb_spec (to_ulong (to_ulong t - lastSend self)) (2 * 1000)); [|lia].
  rewrite (bind_step _ _ _ _ _ (log1_echoed _ _)). unfold ret.
  eexists. split; [reflexivity |]. simpl. auto.
Qed.

Lemma sendMessage_refused_leaves_line_witness :
  exists w',
    sendMessage 1000 600000 (set_lastSend real_driver 4294966296) markers_init markerPos_init
                "4869" (one_reply 11) =
      Some ((false, set_lastSend real_driver 4294966296, markers_init, markerPos_init), w') /\
    trace w' = [] /\ inbound w' = inbound (one_reply 11).
Proof.
  destruct (sendMessage_refused_leaves_line 1000 600000
              (set_lastSend real_driver 4294966296) markers_init markerPos_init "4869"
              (one_reply 11) 1000 (1200 :: repeat 1300 (2 * 11 + 1) ++ [1400])%list eq_refl)
    as (w' & Hrun & Ht & Hi & _).
  - simpl. discriminate.
  - vm_compute. discriminate.
  - exists w'. auto.
Defined.

(** X8: the duty-cycle test is right across the 32-bit wrap of
    [millis()]: with a last send at [stamp] and [d] milliseconds gone by
    since (less than 2^32), the clock reads [stamp + d] cut to 32 bits, and
    [isReady] refuses exactly when [d] is at most 2000. *)
Theorem isReady_across_wrap (SEND_DELAY : Z) (self : Wisol) (w : World) (d : Z) (rest : list Z) :
  0 < lastSend self < 4294967296 ->
  0 <= d < 4294967296 ->
  clock w = (lastSend self + d) :: rest ->
  exists w',
    isReady SEND_DELAY self w = Some (negb (d <=? 2000), w') /\
    clock w' = rest /\ trace w' = trace w /\ inbound w' = inbound w.
Proof.
  intros Hs Hd Hc.
  unfold isReady. unfold bind at 1. unfold millis at 1. rewrite Hc.
  destruct (Z.eqb_spec (lastSend self) 0); [lia |].
  assert (Hel : to_ulong (to_ulong (lastSend self + d) - lastSend self) = d).
  { unfold to_ulong. rewrite Zminus_mod_idemp_l.
    replace (lastSend self + d - lastSend self) with d by lia.
    apply Z.mod_small. lia. }
  cbv zeta. rewrite Hel. change (2 * 1000) with 2000.
  destruct (d <=? 2000); cbn [negb].
  - rewrite (bind_step _ _ _ _ _ (log1_echoed _ _)). eexists. split; [reflexivity |].
    simpl. auto.
  - destruct (d <=? SEND_DELAY).
    + rewrite (bind_step _ _ _ _ _ (log1_echoed _ _)). eexists. split; [reflexivity |].
      simpl. auto.
    + unfold bind, ret. eexists. split; [reflexivity |]. simpl. auto.
Qed.

Lemma isReady_across_wrap_witness :
  exists w',
    isReady 600000 (set_lastSend real_driver 4294967000)
            (mkWorld [4294967000 + 2500] [] [] "") = Some (true, w').
Proof.
  destruct (isReady_across_wrap 600000 (set_lastSend real_driver 4294967000)
              (mkWorld [4294967000 + 2500] [] [] "") 2500 [])
    as (w' & Hrun & _); [simpl; lia | lia | reflexivity |].
  exists w'. exact Hrun.
Defined.

Lemma sendCommand_unfold (WISOL_COMMAND_TIMEOUT : Z) (self : Wisol) (cmd : string) (e : Z) (result0 : string)
      (a0 : Z) (mp0 : list Z) (w : World) :
  sendCommand WISOL_COMMAND_TIMEOUT self cmd e result0 a0 mp0 w =
    match sendBuffer self cmd WISOL_COMMAND_TIMEOUT e a0 mp0 w with
    | None => None
    | Some ((true, data, a1, mp1), w') => Some ((true, data, a1, mp1), w')
    | Some ((false, data, a1, mp1), w') => Some ((false, result0, a1, mp1), w')
    end.
Proof.
  unfold sendCommand, enterCommandMode.
  unfold bind at 1. unfold ret at 1. cbn [negb].
  unfold bind.
  destruct (sendBuffer self cmd WISOL_COMMAND_TIMEOUT e a0 mp0 w)
    as [[[[[[] data] a1] mp1] w']|]; reflexivity.
Qed.

(** X9: [sendCommand] hands a response on only when the exchange
    succeeded: on failure the caller's [result] is exactly what it was,
    whatever part of a response had arrived; on success it is the
    response of the exchange, free of end-of-response and NUL characters.
    In both cases the flag, the marker count, the marker positions and the
    world are those of [sendBuffer]. *)
Theorem sendCommand_result (WISOL_COMMAND_TIMEOUT : Z) (self : Wisol) (cmd : string) (expectedMarkerCount : Z)
        (result0 : string) (a0 : Z) (mp0 : list Z) (w w' : World)
        (ok : bool) (result : string) (a1 : Z) (mp1 : list Z) :
  sendCommand WISOL_COMMAND_TIMEOUT self cmd expectedMarkerCount result0 a0 mp0 w =
    Some ((ok, result, a1, mp1), w') ->
  (exists data,
      sendBuffer self cmd WISOL_COMMAND_TIMEOUT expectedMarkerCount a0 mp0 w =
        Some ((ok, data, a1, mp1), w') /\
      result = if ok then data else result0) /\
  (ok = false -> result = result0) /\
  (ok = true -> forall c, In c (list_ascii_of_string result) ->
                          c <> END_OF_RESPONSE /\ c <> zero).
Proof.
  intros Hrun. rewrite sendCommand_unfold in Hrun.
  destruct (sendBuffer self cmd WISOL_COMMAND_TIMEOUT expectedMarkerCount a0 mp0 w)
    as [[[[[[] data] a2] mp2] w2]|] eqn:Hs; inversion Hrun; subst.
  - split; [exists result; auto |]. split; [discriminate |].
    intros _ c Hin.
    destruct (sendBuffer_response_text _ _ _ _ _ _ _ _ _ _ _ _ Hs) as (ps & Hps).
    subst result. apply (text_of_clean ps c Hin).
  - split; [exists data; auto |]. split; [reflexivity | discriminate].
Qed.

Lemma sendCommand_result_witness :
  exists a1 mp1 w',
    sendCommand 1000 real_driver ("AT" ++ CMD_END) 4 "before" 0 markerPos_init back_to_back
      = Some ((false, "before", a1, mp1), w').
Proof.
  assert (Hrun : exists result a1 mp1 w',
             sendCommand 1000 real_driver ("AT" ++ CMD_END) 4 "before" 0 markerPos_init
                         back_to_back = Some ((false, result, a1, mp1), w')).
  { eexists _, _, _, _. vm_compute. reflexivity. }
  destruct Hrun as (result & a1 & mp1 & w' & Hw'). exists a1, mp1, w'.
  destruct (sendCommand_result 1000 real_driver ("AT" ++ CMD_END) 4 "before" 0 markerPos_init
              back_to_back w' false result a1 mp1 Hw') as (_ & Hfail & _).
  rewrite (Hfail eq_refl) in Hw'. exact Hw'.
Defined.

Lemma set_device_same (self : Wisol) : set_device self (device self) = self.
Proof. destruct self. reflexivity. Qed.

Lemma getID_unfold (WISOL_COMMAND_TIMEOUT : Z) (self : Wisol) (id0 pac0 : string)
      (markers0 : Z) (markerPos0 : list Z) (w : World) :
  useEmulator self = false ->
  getID WISOL_COMMAND_TIMEOUT self id0 pac0 markers0 markerPos0 w =
    match sendCommand WISOL_COMMAND_TIMEOUT self (CMD_GET_ID ++ CMD_END) 1 ""
                      markers0 markerPos0 w with
    | None => None
    | Some ((false, _, markers1, markerPos1), w1) =>
        Some ((false, self, id0, pac0, markers1, markerPos1), w1)
    | Some ((true, id, markers1, markerPos1), w1) =>
        match sendCommand WISOL_COMMAND_TIMEOUT (set_device self id) (CMD_GET_PAC ++ CMD_END) 1
                          id markers1 markerPos1 w1 with
        | None => None
        | Some ((false, _, markers2, markerPos2), w2) =>
            Some ((false, set_device self id, id, pac0, markers2, markerPos2), w2)
        | Some ((true, pac, markers2, markerPos2), w2) =>
            Some ((true, set_device self id, id, pac, markers2, markerPos2),
                  echoed w2 (" - Wisol.getID: returned id=" ++ (id ++ ", pac=" ++ pac) ++ CRLF))
        end
    end.
Proof.
  intros Hemu. unfold getID. rewrite Hemu. cbv zeta.
  unfold bind at 1.
  destruct (sendCommand WISOL_COMMAND_TIMEOUT self (CMD_GET_ID ++ CMD_END) 1 ""
                        markers0 markerPos0 w)
    as [[[[[[] id] markers1] markerPos1] w1]|]; try reflexivity.
  cbn [negb]. unfold bind at 1.
  destruct (sendCommand WISOL_COMMAND_TIMEOUT (set_device self id) (CMD_GET_PAC ++ CMD_END) 1
                        id markers1 markerPos1 w1)
    as [[[[[[] pac] markers2] markerPos2] w2]|]; try reflexivity.
  cbn [negb]. rewrite (bind_step _ _ _ _ _ (log2_echoed _ _ _)). reflexivity.
Qed.

Lemma getID_device_only (WISOL_COMMAND_TIMEOUT : Z) (self self' : Wisol)
      (id0 pac0 id pac : string) (markers0 markers1 : Z) (markerPos0 markerPos1 : list Z)
      (w w' : World) (ok : bool) :
  getID WISOL_COMMAND_TIMEOUT self id0 pac0 markers0 markerPos0 w =
    Some ((ok, self', id, pac, markers1, markerPos1), w') ->
  self' = set_device self (device self').
Proof.
  intros Hrun.
  destruct (useEmulator self) eqn:Hemu.
  - unfold getID in Hrun. rewrite Hemu in Hrun. inversion Hrun; subst.
    now rewrite set_device_same.
  - rewrite getID_unfold in Hrun by exact Hemu.
    destruct (sendCommand _ self _ 1 "" markers0 markerPos0 w)
      as [[[[[[] id1] m1] mp1] w1]|]; try discriminate.
    + destruct (sendCommand _ (set_device self id1) _ 1 id1 m1 mp1 w1)
        as [[[[[[] pac1] m2] mp2] w2]|]; try discriminate;
        inversion Hrun; subst; reflexivity.
    + inversion Hrun; subst. now rewrite set_device_same.
Qed.

(** X10: [getID] changes no member of the driver but [device], and it
    sets [pac] only when it succeeds.  On success [device] and [id] are the
    same.  On failure either nothing was changed (the identifier query
    failed) or [device] and [id] already hold the new identifier (the PAC
    query failed): a failed [getID] can leave the identifier updated.  In
    emulator mode it succeeds with [id] set to [device], [pac] left as it
    was and nothing done to the world. *)
Theorem getID_updates (WISOL_COMMAND_TIMEOUT : Z) (self self' : Wisol)
        (id0 pac0 id pac : string) (markers0 markers1 : Z) (markerPos0 markerPos1 : list Z)
        (w w' : World) (ok : bool) :
  getID WISOL_COMMAND_TIMEOUT self id0 pac0 markers0 markerPos0 w =
    Some ((ok, self', id, pac, markers1, markerPos1), w') ->
  self' = set_device self (device self') /\
  (ok = true -> device self' = id) /\
  (ok = false -> pac = pac0 /\ ((self' = self /\ id = id0) \/ device self' = id)) /\
  (useEmulator self = true ->
     ok = true /\ self' = self /\ id = device self /\ pac = pac0 /\
     markers1 = markers0 /\ markerPos1 = markerPos0 /\ w' = w).
Proof.
  intros Hrun.
  destruct (useEmulator self) eqn:Hemu.
  - unfold getID in Hrun. rewrite Hemu in Hrun. inversion Hrun; subst.
    rewrite set_device_same. repeat split; auto; discriminate.
  - rewrite getID_unfold in Hrun by exact Hemu.
    destruct (sendCommand _ self _ 1 "" markers0 markerPos0 w)
      as [[[[[[] id1] m1] mp1] w1]|]; try discriminate.
    + destruct (sendCommand _ (set_device self id1) _ 1 id1 m1 mp1 w1)
        as [[[[[[] pac1] m2] mp2] w2]|]; try discriminate;
        inversion Hrun; subst; simpl; repeat split; auto; discriminate.
    + inversion Hrun; subst. rewrite set_device_same.
      repeat split; auto; discriminate.
Qed.

Lemma getID_updates_witness :
  exists markers1 markerPos1 w',
    getID 1000 real_driver "" "" markers_init markerPos_init id_then_silence =
      Some ((false, set_device real_driver "1A2B3C", "1A2B3C", "", markers1, markerPos1), w') /\
    set_device real_driver "1A2B3C" = set_device real_driver (device (set_device real_driver "1A2B3C")).
Proof.
  assert (Hrun : exists markers1 markerPos1 w',
    getID 1000 real_driver "" "" markers_init markerPos_init id_then_silence =
      Some ((false, set_device real_driver "1A2B3C", "1A2B3C", "", markers1, markerPos1), w')).
  { eexists _, _, _. vm_compute. reflexivity. }
  destruct Hrun as (m1 & mp1 & w' & Hw'). exists m1, mp1, w'. split; [exact Hw' |].
  apply (getID_updates 1000 real_driver (set_device real_driver "1A2B3C") "" "" "1A2B3C" ""
           markers_init m1 markerPos_init mp1 id_then_silence w' false Hw').
Defined.

Section BeginProperties.

Variable WISOL_COMMAND_TIMEOUT : Z.
Variable COUNTRY_US : Z.
Variable COUNTRY_FR : Z.

Lemma begin_identify_unfold (self : Wisol) (markers0 : Z) (markerPos0 : list Z)
      (console result : string) (w : World) :
  begin_identify WISOL_COMMAND_TIMEOUT COUNTRY_US COUNTRY_FR self markers0 markerPos0
                 console result w =
    match getID WISOL_COMMAND_TIMEOUT self "" "" markers0 markerPos0
                (echoed w (" - Getting SIGFOX ID..." ++ CRLF)) with
    | None => None
    | Some ((false, self1, id, pac, markers1, markerPos1), w1) =>
        Some ((false, self1, markers1, markerPos1, console), w1)
    | Some ((true, self1, id, pac, markers1, markerPos1), w1) =>
        Some ((true, self1, markers1, markerPos1, (console ++ id ++ CRLF) ++ pac ++ CRLF),
              echoed w1 (identify_echo COUNTRY_US COUNTRY_FR self1 result))
    end.
Proof.
  unfold begin_identify.
  rewrite (bind_step _ _ _ _ _ (log1_echoed _ _)).
  unfold bind at 1.
  destruct (getID WISOL_COMMAND_TIMEOUT self "" "" markers0 markerPos0 _)
    as [[[[[[[[] self1] id] pac] markers1] markerPos1] w1]|]; try reflexivity.
  cbn [negb].
  rewrite (bind_step _ _ _ _ _ (print_echoed _ _)).
  rewrite (bind_step _ _ _ _ _ (print_echoed _ _)).
  rewrite (bind_step _ _ _ _ _ (log2_echoed _ _ _)).
  unfold identify_echo, setFrequencyUS, setFrequencyETSI, setFrequencySG, setFrequency,
    getFrequency.
  destruct (country self1 =? COUNTRY_US); [|destruct (country self1 =? COUNTRY_FR)];
    unfold bind at 1;
    rewrite (bind_step _ _ _ _ _ (log1_echoed _ _));
    unfold ret at 1; cbn [fst snd negb];
    rewrite (bind_step _ _ _ _ _ (log2_echoed _ _ _));
    rewrite (bind_step _ _ _ _ _ (log1_echoed _ _));
    unfold bind at 1; unfold ret at 1; cbn [fst snd negb];
    rewrite (bind_step _ _ _ _ _ (log2_echoed _ _ _));
    unfold ret; rewrite !echoed_echoed; reflexivity.
Qed.

Lemma begin_pass_unfold (self : Wisol) (markers0 : Z) (markerPos0 : list Z)
      (console : string) (w : World) :
  begin_pass WISOL_COMMAND_TIMEOUT COUNTRY_US COUNTRY_FR self markers0 markerPos0 console w =
  begin_identify WISOL_COMMAND_TIMEOUT COUNTRY_US COUNTRY_FR self markers0 markerPos0
                 console "" (echoed (traced w [Delay 2000]) (pass_echo self)).
Proof.
  unfold begin_pass, pass_echo.
  rewrite (bind_step _ _ _ _ _ (delay_traced _ _)).
  destruct (useEmulator self).
  - unfold enableEmulator. unfold bind at 1.
    rewrite (bind_step _ _ _ _ _ (log1_echoed _ _)).
    unfold ret at 1. reflexivity.
  - rewrite (bind_step _ _ _ _ _ (log1_echoed _ _)).
    unfold disableEmulator. unfold bind at 1. unfold ret at 1. cbn [fst snd negb].
    rewrite (bind_step _ _ _ _ _ (log1_echoed _ _)).
    unfold getEmulator. unfold bind at 1. unfold ret at 1. cbn [fst snd negb].
    rewrite echoed_echoed. reflexivity.
Qed.

End BeginProperties.

Lemma pauses_app (a b : list Event) : pauses (a ++ b) = (pauses a + pauses b)%nat.
Proof. unfold pauses. now rewrite filter_app, length_app. Qed.

Lemma pauses_sending (buffer : string) (n : nat) :
  forall k, pauses (sending buffer k n) = 0%nat.
Proof.
  induction n as [|n IH]; intros k; [reflexivity |].
  change (S n) with (1 + n)%nat. rewrite sending_app, pauses_app, IH. reflexivity.
Qed.

Lemma sendBuffer_pauses (self : Wisol) (buffer : string) (timeout e a0 : Z)
      (mp0 : list Z) (w w' : World) (r : bool * string * Z * list Z) :
  sendBuffer self buffer timeout e a0 mp0 w = Some (r, w') ->
  exists added, trace w' = (trace w ++ added)%list /\ pauses added = 0%nat.
Proof.
  intros Hrun. destruct (useEmulator self) eqn:Hemu.
  - unfold sendBuffer in Hrun. rewrite Hemu in Hrun.
    rewrite (bind_step _ _ _ _ _ (log2_echoed _ _ _)) in Hrun.
    inversion Hrun; subst. exists []. simpl. now rewrite app_nil_r.
  - destruct (sendBuffer_trace _ _ _ _ _ _ _ _ _ Hemu Hrun) as (n & _ & Ht).
    eexists. split; [exact Ht |].
    rewrite !pauses_app, pauses_sending. reflexivity.
Qed.

Lemma sendCommand_pauses (WISOL_COMMAND_TIMEOUT : Z) (self : Wisol) (cmd : string) (e : Z)
      (result0 : string) (a0 : Z) (mp0 : list Z) (w w' : World)
      (r : bool * string * Z * list Z) :
  sendCommand WISOL_COMMAND_TIMEOUT self cmd e result0 a0 mp0 w = Some (r, w') ->
  exists added, trace w' = (trace w ++ added)%list /\ pauses added = 0%nat.
Proof.
  intros Hrun. rewrite sendCommand_unfold in Hrun.
  destruct (sendBuffer self cmd WISOL_COMMAND_TIMEOUT e a0 mp0 w)
    as [[[[[[] data] a1] mp1] w1]|] eqn:Hs; inversion Hrun; subst;
    apply (sendBuffer_pauses _ _ _ _ _ _ _ _ _ Hs).
Qed.

Lemma getID_pauses (WISOL_COMMAND_TIMEOUT : Z) (self : Wisol) (id0 pac0 : string)
      (markers0 : Z) (markerPos0 : list Z) (w w' : World)
      (r : bool * Wisol * string * string * Z * list Z) :
  getID WISOL_COMMAND_TIMEOUT self id0 pac0 markers0 markerPos0 w = Some (r, w') ->
  exists added, trace w' = (trace w ++ added)%list /\ pauses added = 0%nat.
Proof.
  intros Hrun. destruct (useEmulator self) eqn:Hemu.
  - unfold getID in Hrun. rewrite Hemu in Hrun. inversion Hrun; subst.
    exists []. simpl. now rewrite app_nil_r.
  - rewrite getID_unfold in Hrun by exact Hemu.
    destruct (sendCommand _ self _ 1 "" markers0 markerPos0 w)
      as [[[[[[] id1] m1] mp1] w1]|] eqn:H1; try discriminate.
    + destruct (sendCommand_pauses _ _ _ _ _ _ _ _ _ _ H1) as (ad1 & Ht1 & Hp1).
      destruct (sendCommand _ (set_device self id1) _ 1 id1 m1 mp1 w1)
        as [[[[[[] pac1] m2] mp2] w2]|] eqn:H2; try discriminate;
        destruct (sendCommand_pauses _ _ _ _ _ _ _ _ _ _ H2) as (ad2 & Ht2 & Hp2);
        inversion Hrun; subst; exists (ad1 ++ ad2)%list; simpl;
        rewrite Ht2, Ht1, app_assoc, pauses_app, Hp1, Hp2; auto.
    + inversion Hrun; subst. apply (sendCommand_pauses _ _ _ _ _ _ _ _ _ _ H1).
Qed.

Section BeginRuns.

Variable WISOL_COMMAND_TIMEOUT : Z.
Variable COUNTRY_US : Z.
Variable COUNTRY_FR : Z.

(** A pass pauses once, and changes no member of the driver but
    [device]. *)
Lemma begin_pass_run (self self' : Wisol) (markers0 markers1 : Z)
      (markerPos0 markerPos1 : list Z) (console console' : string) (w w' : World)
      (done : bool) :
  begin_pass WISOL_COMMAND_TIMEOUT COUNTRY_US COUNTRY_FR self markers0 markerPos0 console w =
    Some ((done, self', markers1, markerPos1, console'), w') ->
  self' = set_device self (device self') /\
  exists added, trace w' = (trace w ++ added)%list /\ pauses added = 1%nat.
Proof.
  rewrite begin_pass_unfold, begin_identify_unfold. intros Hrun.
  destruct (getID WISOL_COMMAND_TIMEOUT self "" "" markers0 markerPos0 _)
    as [[[[[[[got self1] id] pac] m1] mp1] w1]|] eqn:Hg; [|discriminate].
  pose proof (getID_device_only _ _ _ _ _ _ _ _ _ _ _ _ _ _ Hg) as Hdev.
  destruct (getID_pauses _ _ _ _ _ _ _ _ _ Hg) as (added & Ht & Hp).
  simpl in Ht.
  assert (Hres : self' = self1 /\ trace w' = trace w1).
  { destruct got; inversion Hrun; subst; auto. }
  destruct Hres as (Hs & Ht'). subst self'. split; [exact Hdev |].
  exists ([Delay 2000] ++ added)%list. rewrite Ht', Ht, <- app_assoc.
  split; [reflexivity |]. rewrite pauses_app, Hp. reflexivity.
Qed.

Lemma begin_loop_run (passes : nat) :
  forall (self self' : Wisol) (markers0 markers1 : Z) (markerPos0 markerPos1 : list Z)
         (console console' : string) (w w' : World) (ok : bool),
    begin_loop WISOL_COMMAND_TIMEOUT COUNTRY_US COUNTRY_FR passes self markers0 markerPos0
               console w = Some ((ok, self', markers1, markerPos1, console'), w') ->
    self' = set_device self (device self') /\
    exists added,
      trace w' = (trace w ++ added)%list /\
      (pauses added <= passes)%nat /\
      (passes <> 0%nat -> 1 <= pauses added)%nat /\
      (ok = false -> pauses added = passes).
Proof.
  induction passes as [|passes IH];
    intros self self' markers0 markers1 markerPos0 markerPos1 console console' w w' ok Hrun.
  - inversion Hrun; subst. rewrite set_device_same. split; [reflexivity |].
    exists []. rewrite app_nil_r. simpl. repeat split; auto; lia.
  - cbn [begin_loop] in Hrun. unfold bind in Hrun.
    destruct (begin_pass _ _ _ self markers0 markerPos0 console w)
      as [[[[[[done self1] m1] mp1] c1] w1]|] eqn:Hp; [|discriminate].
    destruct (begin_pass_run _ _ _ _ _ _ _ _ _ _ _ Hp) as (Hdev & added & Ht & Hpa).
    destruct done.
    + inversion Hrun; subst. split; [exact Hdev |].
      exists added. rewrite Hpa. repeat split; auto; try lia; try discriminate.
    + destruct (IH _ _ _ _ _ _ _ _ _ _ _ Hrun) as (Hdev' & added' & Ht' & Hle & _ & Hall).
      split.
      * rewrite Hdev', Hdev. destruct self. reflexivity.
      * exists (added ++ added')%list. rewrite Ht', Ht, app_assoc, pauses_app, Hpa.
        repeat split; auto; try lia; intros Hok; rewrite (Hall Hok); reflexivity.
Qed.

End BeginRuns.

(** X11: in emulator mode [begin] succeeds at its first pass without a
    single call on the serial port: it pauses once for two seconds, reads
    neither the clock nor the line, resets [lastSend] to 0, leaves every
    other member and the statics as they were, and prints the stored
    device name and an empty PAC line on [Serial]. *)
Theorem begin_emulator (WISOL_COMMAND_TIMEOUT COUNTRY_US COUNTRY_FR : Z) (self : Wisol)
        (markers0 : Z) (markerPos0 : list Z) (console : string) (w : World) :
  useEmulator self = true ->
  exists w',
    begin WISOL_COMMAND_TIMEOUT COUNTRY_US COUNTRY_FR self markers0 markerPos0 console w =
      Some ((true, set_lastSend self 0, markers0, markerPos0,
             (console ++ device self ++ CRLF) ++ "" ++ CRLF), w') /\
    trace w' = (trace w ++ [Delay 2000])%list /\
    clock w' = clock w /\ inbound w' = inbound w.
Proof.
  intros Hemu. unfold begin. cbn [begin_loop].
  unfold bind at 1. rewrite begin_pass_unfold, begin_identify_unfold.
  unfold getID. cbn [useEmulator set_lastSend]. rewrite Hemu. unfold ret.
  eexists. split; [reflexivity |]. simpl. auto.
Qed.

Lemma begin_emulator_witness :
  exists w',
    begin 1000 1 2 emulated_driver markers_init markerPos_init "" seven_markers =
      Some ((true, emulated_driver, markers_init, markerPos_init,
             ("" ++ "g88pi" ++ CRLF) ++ "" ++ CRLF), w') /\
    trace w' = [Delay 2000] /\ inbound w' = inbound seven_markers.
Proof.
  destruct (begin_emulator 1000 1 2 emulated_driver markers_init markerPos_init ""
              seven_markers eq_refl) as (w' & Hrun & Ht & _ & Hi).
  exists w'. auto.
Defined.

(** X12: whatever [begin] returns, it leaves [lastSend] at 0 and changes
    no other member but [device]; so the duty-cycle test that follows a
    [begin] always lets the first message through. *)
Theorem begin_resets_duty_cycle (WISOL_COMMAND_TIMEOUT COUNTRY_US COUNTRY_FR SEND_DELAY : Z)
        (self self' : Wisol) (markers0 markers1 : Z) (markerPos0 markerPos1 : list Z)
        (console console' : string) (w w' : World) (ok : bool) :
  begin WISOL_COMMAND_TIMEOUT COUNTRY_US COUNTRY_FR self markers0 markerPos0 console w =
    Some ((ok, self', markers1, markerPos1, console'), w') ->
  self' = set_device (set_lastSend self 0) (device self') /\
  lastSend self' = 0 /\
  forall w2, clock w2 <> [] -> isReady SEND_DELAY self' w2 = Some (true, ticked w2).
Proof.
  intros Hrun. unfold begin in Hrun.
  destruct (begin_loop_run _ _ _ _ _ _ _ _ _ _ _ _ _ _ _ Hrun) as (Hdev & _).
  assert (Hlast : lastSend self' = 0) by (rewrite Hdev; reflexivity).
  split; [exact Hdev |]. split; [exact Hlast |].
  intros w2 Hc. unfold isReady.
  rewrite (bind_step _ _ _ _ _ (millis_ticked w2 Hc)). now rewrite Hlast.
Qed.

Lemma begin_resets_duty_cycle_witness :
  exists self' markers1 markerPos1 console' w',
    begin 1000 1 2 (set_lastSend real_driver 777) markers_init markerPos_init "" five_silences =
      Some ((false, self', markers1, markerPos1, console'), w') /\
    lastSend self' = 0.
Proof.
  assert (Hrun : exists self' markers1 markerPos1 console' w',
    begin 1000 1 2 (set_lastSend real_driver 777) markers_init markerPos_init "" five_silences =
      Some ((false, self', markers1, markerPos1, console'), w')).
  { eexists _, _, _, _, _. vm_compute. reflexivity. }
  destruct Hrun as (self' & m1 & mp1 & c' & w' & Hw'). exists self', m1, mp1, c', w'.
  split; [exact Hw' |].
  apply (begin_resets_duty_cycle 1000 1 2 600000 _ _ _ _ _ _ _ _ _ _ _ Hw').
Defined.

(** X13: [begin] makes at least one and at most five passes, each opened
    by a pause of 2000 ms, and gives up with false only after the fifth;
    no other pause of that length occurs. *)
Theorem begin_tries_five_times (WISOL_COMMAND_TIMEOUT COUNTRY_US COUNTRY_FR : Z)
        (self self' : Wisol) (markers0 markers1 : Z) (markerPos0 markerPos1 : list Z)
        (console console' : string) (w w' : World) (ok : bool) :
  begin WISOL_COMMAND_TIMEOUT COUNTRY_US COUNTRY_FR self markers0 markerPos0 console w =
    Some ((ok, self', markers1, markerPos1, console'), w') ->
  exists added,
    trace w' = (trace w ++ added)%list /\
    (1 <= pauses added <= 5)%nat /\
    (ok = false -> pauses added = 5%nat).
Proof.
  intros Hrun. unfold begin in Hrun.
  destruct (begin_loop_run _ _ _ _ _ _ _ _ _ _ _ _ _ _ _ Hrun)
    as (_ & added & Ht & Hle & Hge & Hall).
  exists added. repeat split; auto; try (apply Hge; discriminate).
Qed.

Lemma begin_tries_five_times_witness :
  exists self' markers1 markerPos1 console' w' added,
    begin 1000 1 2 real_driver markers_init markerPos_init "" five_silences =
      Some ((false, self', markers1, markerPos1, console'), w') /\
    trace w' = (trace five_silences ++ added)%list /\ pauses added = 5%nat.
Proof.
  assert (Hrun : exists self' markers1 markerPos1 console' w',
    begin 1000 1 2 real_driver markers_init markerPos_init "" five_silences =
      Some ((false, self', markers1, markerPos1, console'), w')).
  { eexists _, _, _, _, _. vm_compute. reflexivity. }
  destruct Hrun as (self' & m1 & mp1 & c' & w' & Hw').
  destruct (begin_tries_five_times 1000 1 2 _ _ _ _ _ _ _ _ _ _ _ Hw')
    as (added & Ht & _ & Hall).
  exists self', m1, mp1, c', w', added. auto.
Defined.

(** * Further properties of the codec and the logger *)

Lemma decode_two_hex_digits (c : ascii) (w : World) :
  exists d1 d2 hi lo,
    two_hex_digits (byte_of c) = String d1 (String d2 "") /\
    hexDigitToDecimal d1 w = Some (hi, w) /\
    hexDigitToDecimal d2 w = Some (lo, w) /\
    16 * hi + lo = byte_of c.
Proof.
  destruct c as [[] [] [] [] [] [] [] []];
    do 4 eexists; (split; [reflexivity|]); repeat split; reflexivity.
Qed.

Lemma decode_pairs_hex_of_bytes (l : list ascii) (w : World) :
  decode_pairs (hex_of_bytes (map byte_of l)) w = Some (map byte_of l, w).
Proof.
  induction l as [|c l IH]; [reflexivity |].
  cbn [map hex_of_bytes].
  destruct (decode_two_hex_digits c w) as (d1 & d2 & hi & lo & Hd & H1 & H2 & Hv).
  rewrite Hd. cbn [append decode_pairs].
  rewrite (bind_step _ _ _ _ _ H1), (bind_step _ _ _ _ _ H2), (bind_step _ _ _ _ _ IH), Hv.
  reflexivity.
Qed.

Lemma byte_of_inj (a b : ascii) : byte_of a = byte_of b -> a = b.
Proof. intros H. rewrite <- (char_of_byte_of a), <- (char_of_byte_of b). now rewrite H. Qed.

Lemma map_byte_of_inj (l1 l2 : list ascii) :
  map byte_of l1 = map byte_of l2 -> l1 = l2.
Proof.
  revert l2. induction l1 as [|a l1 IH]; intros [|b l2] H; simpl in H; try discriminate; auto.
  inversion H. f_equal; [now apply byte_of_inj | now apply IH].
Qed.

Lemma list_ascii_of_string_inj (s1 s2 : string) :
  list_ascii_of_string s1 = list_ascii_of_string s2 -> s1 = s2.
Proof.
  revert s2. induction s1 as [|a s1 IH]; intros [|b s2] H; simpl in H; try discriminate; auto.
  inversion H. f_equal. now apply IH.
Qed.

(** X14: the payload [sendString] builds loses nothing: decoding it two
    digits at a time with [hexDigitToDecimal] gives back the bytes of the
    text, with no diagnostic, and two texts with the same payload are the
    same text. *)
Theorem sendString_payload_round_trip (str : string) (w : World) :
  decode_pairs (sendString_payload str "") w =
    Some (map byte_of (list_ascii_of_string str), w) /\
  forall str', sendString_payload str "" = sendString_payload str' "" -> str = str'.
Proof.
  split.
  - rewrite sendString_payload_hex. cbn [append]. apply decode_pairs_hex_of_bytes.
  - intros str' Heq.
    assert (H : decode_pairs (sendString_payload str "") w
                = decode_pairs (sendString_payload str' "") w) by now rewrite Heq.
    rewrite !sendString_payload_hex in H. cbn [append] in H.
    rewrite !decode_pairs_hex_of_bytes in H. inversion H as [Hm].
    apply list_ascii_of_string_inj, map_byte_of_inj, Hm.
Qed.

Lemma sendString_payload_round_trip_witness :
  decode_pairs (sendString_payload "Hi" "") (mkWorld [] [] [] "")
    = Some ([72; 105], mkWorld [] [] [] "") /\ "Hi" = "Hi".
Proof.
  destruct (sendString_payload_round_trip "Hi" (mkWorld [] [] [] "")) as (Hdec & Hinj).
  split; [exact Hdec | apply Hinj; reflexivity].
Defined.

(** X15: [hexDigitToDecimal] does not tell upper case from lower case:
    on every character it returns for the upper-case form what it returns
    for the character itself, diagnostic included. *)
Theorem hexDigitToDecimal_ignores_case (ch : ascii) (w : World) :
  hexDigitToDecimal (toupper ch) w = hexDigitToDecimal ch w.
Proof.
  destruct ch as [[] [] [] [] [] [] [] []]; reflexivity.
Qed.

(** X16: [toHex(int)] writes the low byte first and looks at 16 bits
    only; [toHex(long)] is the encoding of the low 16 bits followed by
    that of the next 16. *)
Theorem toHex_low_byte_first (v : Z) :
  toHex_int v = two_hex_digits (v mod 256) ++ two_hex_digits ((v / 256) mod 256) /\
  toHex_int v = toHex_int (v mod 65536) /\
  toHex_long v = toHex_int v ++ toHex_int (v / 65536).
Proof.
  assert (Hb : forall x j, mem_byte x j = (x / 2 ^ (8 * Z.of_nat j)) mod 256).
  { intros x j. unfold mem_byte. change 255 with (Z.ones 8).
    rewrite Z.land_ones, Z.shiftr_div_pow2 by lia. reflexivity. }
  assert (Hint : forall x,
    toHex_int x = two_hex_digits (x mod 256) ++ two_hex_digits ((x / 256) mod 256)).
  { intros x. unfold toHex_int. rewrite toHex_scan_mem. cbn [seq map hex_of_bytes].
    rewrite !Hb. change (2 ^ (8 * Z.of_nat 0)) with 1. change (2 ^ (8 * Z.of_nat 1)) with 256.
    rewrite Z.div_1_r, append_nil_r. reflexivity. }
  split; [apply Hint |]. split.
  - rewrite !Hint.
    replace ((v mod 65536) mod 256) with (v mod 256)
      by (Z.div_mod_to_equations; lia).
    replace ((v mod 65536 / 256) mod 256) with ((v / 256) mod 256)
      by (Z.div_mod_to_equations; lia).
    reflexivity.
  - rewrite !Hint. unfold toHex_long. rewrite toHex_scan_mem. cbn [seq map hex_of_bytes].
    rewrite !Hb.
    change (2 ^ (8 * Z.of_nat 0)) with 1. change (2 ^ (8 * Z.of_nat 1)) with 256.
    change (2 ^ (8 * Z.of_nat 2)) with 65536. change (2 ^ (8 * Z.of_nat 3)) with (65536 * 256).
    rewrite Z.div_1_r, append_nil_r, <- Z.div_div by lia.
    rewrite !append_assoc. reflexivity.
Qed.

Lemma c_str_at_append (pre rest : string) (k : nat) :
  c_str_at (pre ++ rest) (String.length pre + k) = c_str_at rest k.
Proof.
  induction pre as [|c pre IH]; [reflexivity |].
  simpl. unfold c_str_at in *. simpl. exact IH.
Qed.

Lemma c_str_at_append_0 (pre rest : string) :
  c_str_at (pre ++ rest) (String.length pre) = c_str_at rest 0.
Proof. rewrite <- (Nat.add_0_r (String.length pre)). apply c_str_at_append. Qed.

Section LogBuffer.

Variable markerPos : list Z.
Variable markerCount : Z.
Variable m : Z.

(** No marker is due at any even offset. *)
Hypothesis idle : forall (j : nat) (w : World),
  Nat.even j = true -> logMarker markerPos markerCount m (Z.of_nat j) w = Some (m, w).

Lemma logBuffer_loop_idle (n : nat) :
  forall (rest pre : string) (fuel : nat) (w : World),
    (String.length rest <= n)%nat ->
    (String.length rest < fuel)%nat ->
    Nat.even (String.length pre) = true ->
    exists j,
      Nat.even j = true /\
      logBuffer_loop fuel (pre ++ rest) markerPos markerCount m
                     (Z.of_nat (String.length pre)) w =
        Some ((m, Z.of_nat j), echoed w (rest ++ odd_pad rest)).
Proof.
  induction n as [|n IH]; intros rest pre fuel w Hn Hf Hpre.
  - destruct rest; [|simpl in Hn; lia].
    destruct fuel as [|fuel]; [simpl in Hf; lia |].
    exists (String.length pre). split; [exact Hpre |].
    cbn [logBuffer_loop]. unfold strlen. rewrite append_nil_r, Z.ltb_irrefl.
    unfold ret. now rewrite echoed_nil.
  - destruct rest as [|a [|b rest]].
    + apply (IH "" pre fuel w); simpl; auto; lia.
    + destruct fuel as [|[|fuel]]; try (simpl in Hf; lia).
      exists (S (S (String.length pre))). split; [exact Hpre |].
      cbn [logBuffer_loop].
      assert (Hlen : strlen (pre ++ String a "") = Z.of_nat (String.length pre) + 1).
      { unfold strlen. rewrite length_append. simpl. lia. }
      rewrite Hlen.
      destruct (Z.ltb_spec (Z.of_nat (String.length pre)) (Z.of_nat (String.length pre) + 1));
        [|lia].
      rewrite (bind_step _ _ _ _ _ (idle _ w Hpre)).
      rewrite (bind_step _ _ _ _ _ (write_echoed _ _)).
      rewrite (bind_step _ _ _ _ _ (write_echoed _ _)).
      destruct (Z.ltb_spec (Z.of_nat (String.length pre) + 2)
                           (Z.of_nat (String.length pre) + 1)); [lia |].
      rewrite Nat2Z.id.
      replace (Z.to_nat (Z.of_nat (String.length pre) + 1))
        with (String.length pre + 1)%nat by lia.
      rewrite c_str_at_append_0, c_str_at_append. unfold ret. rewrite echoed_echoed.
      replace (Z.of_nat (String.length pre) + 2) with (Z.of_nat (S (S (String.length pre))))
        by lia.
      reflexivity.
    + destruct fuel as [|fuel]; [simpl in Hf; lia |].
      destruct (IH rest (pre ++ String a (String b "")) fuel
                  (echoed w (String a (String b "")))) as (j & Hj & Hrun).
      * simpl in Hn. lia.
      * simpl in Hf. lia.
      * rewrite length_append. simpl. rewrite Nat.add_comm. simpl. exact Hpre.
      * exists j. split; [exact Hj |].
        cbn [logBuffer_loop].
        assert (Hlen : strlen (pre ++ String a (String b rest))
                       = Z.of_nat (String.length pre) + 2 + Z.of_nat (String.length rest)).
        { unfold strlen. rewrite length_append. simpl. lia. }
        rewrite Hlen.
        destruct (Z.ltb_spec (Z.of_nat (String.length pre))
                    (Z.of_nat (String.length pre) + 2 + Z.of_nat (String.length rest)));
          [|lia].
        rewrite (bind_step _ _ _ _ _ (idle _ w Hpre)).
        rewrite (bind_step _ _ _ _ _ (write_echoed _ _)).
        rewrite (bind_step _ _ _ _ _ (write_echoed _ _)).
        rewrite Nat2Z.id.
        replace (Z.to_nat (Z.of_nat (String.length pre) + 1))
          with (String.length pre + 1)%nat by lia.
        rewrite c_str_at_append_0, c_str_at_append. rewrite echoed_echoed.
        change (c_str_at (String a (String b rest)) 0) with a.
        change (c_str_at (String a (String b rest)) 1) with b.
        rewrite append_assoc in Hrun. rewrite length_append in Hrun.
        replace (Z.of_nat (String.length pre + String.length (String a (String b ""))))
          with (Z.of_nat (String.length pre) + 2) in Hrun by (simpl; lia).
        cbn [append] in Hrun |- *. rewrite Hrun, echoed_echoed.
        unfold odd_pad. simpl. reflexivity.
Qed.

End LogBuffer.

Lemma logBuffer_idle (markerPos : list Z) (markerCount : Z) (prefix buffer : string)
      (w : World) :
  (forall (j : nat) (w : World),
      Nat.even j = true -> logMarker markerPos markerCount 0 (Z.of_nat j) w = Some (0, w)) ->
  logBuffer prefix buffer markerPos markerCount w =
    Some (tt, echoed w (prefix ++ buffer ++ odd_pad buffer ++ String (char_of 10) "")).
Proof.
  intros idle. unfold logBuffer.
  rewrite (bind_step _ _ _ _ _ (print_echoed _ _)).
  destruct (logBuffer_loop_idle markerPos markerCount 0 idle (String.length buffer) buffer ""
              (S (String.length buffer)) (echoed w prefix)) as (j & Hj & Hrun); auto.
  cbn [append String.length Z.of_nat] in Hrun.
  rewrite (bind_step _ _ _ _ _ Hrun). cbn [fst snd].
  rewrite (bind_step _ _ _ _ _ (idle _ _ Hj)).
  rewrite write_echoed, !echoed_echoed, !append_assoc. reflexivity.
Qed.

(** X17: with no marker to show, [logBuffer] prints the prefix, the
    buffer and a line feed, and between the last two a NUL when the
    buffer has an odd number of characters, because it writes the
    characters in pairs. *)
Theorem logBuffer_without_markers (prefix buffer : string) (markerPos : list Z) (w : World) :
  logBuffer prefix buffer markerPos 0 w =
    Some (tt, echoed w (prefix ++ buffer ++ odd_pad buffer ++ String (char_of 10) "")).
Proof.
  apply logBuffer_idle. intros j w' _. reflexivity.
Qed.

Lemma even_not_odd (j : nat) (z : Z) :
  Nat.even j = true -> Z.odd z = true -> (z =? Z.of_nat j) = false.
Proof.
  intros Hj Hz. apply Z.eqb_neq. intros Heq. subst z.
  apply Nat.even_spec in Hj. destruct Hj as (k & Hk). subst j.
  rewrite Nat2Z.inj_mul, Z.odd_mul in Hz. simpl in Hz. discriminate.
Qed.

(** X18: [logBuffer] tests for a marker at even offsets only, and only
    for the first marker not yet shown: when the first marker position is
    odd, neither it nor any later marker is shown, and the output is the
    one without markers. *)
Theorem logBuffer_odd_marker_lost (prefix buffer : string) (markerPos : list Z)
        (markerCount : Z) (w : World) :
  Z.odd (nth 0 markerPos 0) = true ->
  logBuffer prefix buffer markerPos markerCount w =
    Some (tt, echoed w (prefix ++ buffer ++ odd_pad buffer ++ String (char_of 10) "")).
Proof.
  intros Hodd. apply logBuffer_idle. intros j w' Hj.
  unfold logMarker. change (Z.to_nat 0) with 0%nat.
  rewrite (even_not_odd j _ Hj Hodd), andb_false_r. reflexivity.
Qed.

Lemma logBuffer_odd_marker_lost_witness :
  logBuffer "<< " "123OK" [3; 5; 0; 0; 0] 2 (mkWorld [] [] [] "") =
    Some (tt, echoed (mkWorld [] [] [] "")
                ("<< " ++ "123OK" ++ odd_pad "123OK" ++ String (char_of 10) "")).
Proof.
  apply (logBuffer_odd_marker_lost "<< " "123OK" [3; 5; 0; 0; 0] 2 (mkWorld [] [] [] "")).
  reflexivity.
Defined.

(** X19: [echoOn] after one [echoOff] brings the echo port back, also
    one set by [setEchoPort]; after two [echoOff] in a row the port is
    forgotten and [echoOn] leaves the echo on the null port. *)
Theorem echoOff_echoOn (self : Wisol) (port : Port) (w : World) :
  (exists self1,
      echoOn (echoOff self) w = Some (self1, echoed w (" - Wisol.echoOn" ++ CRLF)) /\
      echoPort self1 = echoPort self) /\
  (exists self2,
      echoOn (echoOff (setEchoPort self port)) w
        = Some (self2, echoed w (" - Wisol.echoOn" ++ CRLF)) /\
      echoPort self2 = port) /\
  (exists self3,
      echoOn (echoOff (echoOff self)) w = Some (self3, echoed w (" - Wisol.echoOn" ++ CRLF)) /\
      echoPort self3 = NullPort).
Proof.
  repeat split; eexists; split; reflexivity.
Qed.

(** X20: in emulator mode [sendMessage] still applies the duty-cycle
    test and still stamps [lastSend], but does nothing on the line: when
    the test passes it returns true with [lastSend] set to the second
    clock reading, the serial port, the inbound stream and the statics
    being as before. *)
Theorem sendMessage_emulator (WISOL_COMMAND_TIMEOUT SEND_DELAY : Z) (self : Wisol)
        (markers0 : Z) (markerPos0 : list Z) (payload : string) (w : World)
        (t1 t2 : Z) (rest : list Z) :
  useEmulator self = true ->
  clock w = t1 :: t2 :: rest ->
  lastSend self = 0 \/ 2000 < to_ulong (to_ulong t1 - lastSend self) ->
  exists w',
    sendMessage WISOL_COMMAND_TIMEOUT SEND_DELAY self markers0 markerPos0 payload w =
      Some ((true, set_lastSend self (to_ulong t2), markers0, markerPos0), w') /\
    trace w' = trace w /\ inbound w' = inbound w /\ clock w' = rest.
Proof.
  intros Hemu Hc Hready.
  rewrite sendMessage_unfold.
  assert (Hr : exists s,
    isReady SEND_DELAY self
      (echoed w (" - Wisol.sendMessage: " ++ (device self ++ "," ++ payload) ++ CRLF))
    = Some (true, mkWorld (t2 :: rest) (inbound w) (trace w) (echo w ++ s))).
  { unfold isReady. unfold bind at 1. unfold millis at 1. cbn [clock echoed]. rewrite Hc.
    destruct (Z.eqb_spec (lastSend self) 0) as [Hz | Hnz].
    - eexists. reflexivity.
    - destruct Hready as [Hz | Hel]; [contradiction |].
      destruct (Z.leb_spec (to_ulong (to_ulong t1 - lastSend self)) (2 * 1000)); [lia |].
      destruct (to_ulong (to_ulong t1 - lastSend self) <=? SEND_DELAY).
      + rewrite (bind_step _ _ _ _ _ (log1_echoed _ _)). unfold ret, echoed. simpl.
        rewrite append_assoc. eexists. reflexivity.
      + unfold bind, ret. simpl. eexists. reflexivity. }
  destruct Hr as (s & Hr). rewrite Hr.
  unfold sendBuffer. rewrite Hemu.
  rewrite (bind_step _ _ _ _ _ (log2_echoed _ _ _)). unfold ret.
  cbn [clock echoed]. eexists. split; [reflexivity |]. simpl. auto.
Qed.

Lemma sendMessage_emulator_witness :
  exists w',
    sendMessage 1000 600000 emulated_driver markers_init markerPos_init "4869" seven_markers =
      Some ((true, set_lastSend emulated_driver 10, markers_init, markerPos_init), w') /\
    trace w' = [] /\ inbound w' = inbound seven_markers.
Proof.
  destruct (sendMessage_emulator 1000 600000 emulated_driver markers_init markerPos_init
              "4869" seven_markers 0 10 [10; 20; 20; 30; 30; 31; 32; 33; 34; 5000]
              eq_refl eq_refl (or_introl eq_refl)) as (w' & Hrun & Ht & Hi & _).
  exists w'. auto.
Defined.
